(** * rss_digest.py: the digest assembly pipeline, embedded and verified

    A shallow embedding of [rss_digest.py] (deduplication state, feed
    selection, classification, soft quotas, per-category synthesis and
    digest assembly) together with the properties of its specification.

    Conventions of the embedding.
    - A Python [str] is a [string]; one [ascii] is one code point below 256.
      Slices such as [content[:500]] count code points, and [str.encode()]
      is UTF-8 (two bytes for a code point of 128 or more).
    - A [dict] used for lookup only is a [gmap]; a dict whose iteration
      order the code relies on is an association list.
    - The clock, the feeds, the persisted file and the language-model
      service are explicit inputs; the service is a state machine, so that
      two calls with the same request may differ. *)

From Stdlib Require Import ZArith List Ascii String Lia Bool QArith DecimalString.
From stdpp Require Import base option list strings gmap fin_maps.

Local Open Scope string_scope.
Local Open Scope Z_scope.
Local Open Scope list_scope.

(* ================================================================== *)
(** ** Python strings *)
(* ================================================================== *)

Module PyStr.

Definition LF : string := String "010" "".

Definition code (c : ascii) : Z := Z.of_N (N_of_ascii c).

Definition nat_code (c : ascii) : nat := nat_of_ascii c.

(** [str.isspace] on one code point below 256; the class [\s] of [re]
    on a [str] pattern is the same set. *)
Definition isspace (c : ascii) : bool :=
  match nat_code c with
  | 9 | 10 | 11 | 12 | 13 | 28 | 29 | 30 | 31 | 32 | 133 | 160 => true
  | _ => false
  end%nat.

(** [s[:n]] *)
Fixpoint take (n : nat) (s : string) : string :=
  match n, s with
  | O, _ => ""
  | S _, "" => ""
  | S n', String c s' => String c (take n' s')
  end.

(** [s[n:]] *)
Fixpoint drop (n : nat) (s : string) : string :=
  match n, s with
  | O, _ => s
  | S _, "" => ""
  | S n', String _ s' => drop n' s'
  end.

(** [s.lstrip()] *)
Fixpoint lstrip (s : string) : string :=
  match s with
  | "" => ""
  | String c s' => if isspace c then lstrip s' else s
  end.

(** [s.rstrip()] *)
Definition rstrip (s : string) : string :=
  String.rev (lstrip (String.rev s)).

(** [s.strip()] *)
Definition strip (s : string) : string := rstrip (lstrip s).

(** [s.startswith(p)] *)
Definition startswith (p s : string) : bool := String.prefix p s.

(** [s.endswith(p)] *)
Definition endswith (p s : string) : bool :=
  String.prefix (String.rev p) (String.rev s).

(** [sep.join(parts)] *)
Fixpoint join (sep : string) (parts : list string) : string :=
  match parts with
  | [] => ""
  | [p] => p
  | p :: rest => p +:+ sep +:+ join sep rest
  end.

(** [s.split()]: maximal runs of characters that are not whitespace.
    [cur] is the run being read, most recent character first. *)
Fixpoint split_go (cur : string) (s : string) : list string :=
  match s with
  | "" => match cur with "" => [] | _ => [String.rev cur] end
  | String c s' =>
      if isspace c
      then match cur with
           | "" => split_go "" s'
           | _ => String.rev cur :: split_go "" s'
           end
      else split_go (String c cur) s'
  end.

Definition split (s : string) : list string := split_go "" s.

(** truth value of a [str] *)
Definition truthy (s : string) : bool :=
  match s with "" => false | _ => true end.

(** [s.encode()]: UTF-8 of the code points below 256. *)
Fixpoint encode (s : string) : list Z :=
  match s with
  | "" => []
  | String c s' =>
      let n := code c in
      (if n <? 128 then [n]
       else [Z.lor 192 (Z.shiftr n 6); Z.lor 128 (Z.land n 63)])
      ++ encode s'
  end.

End PyStr.

(* ================================================================== *)
(** ** [hashlib.md5(...).hexdigest()] *)
(* ================================================================== *)

Module MD5.

Definition mask32 : Z := 0xFFFFFFFF.

Definition add32 (a b : Z) : Z := Z.land (a + b) mask32.

Definition not32 (a : Z) : Z := Z.lxor a mask32.

Definition rotl32 (x : Z) (c : Z) : Z :=
  Z.land (Z.lor (Z.shiftl x c) (Z.shiftr x (32 - c))) mask32.

Definition K : list Z :=
  [ 0xd76aa478; 0xe8c7b756; 0x242070db; 0xc1bdceee;
    0xf57c0faf; 0x4787c62a; 0xa8304613; 0xfd469501;
    0x698098d8; 0x8b44f7af; 0xffff5bb1; 0x895cd7be;
    0x6b901122; 0xfd987193; 0xa679438e; 0x49b40821;
    0xf61e2562; 0xc040b340; 0x265e5a51; 0xe9b6c7aa;
    0xd62f105d; 0x02441453; 0xd8a1e681; 0xe7d3fbc8;
    0x21e1cde6; 0xc33707d6; 0xf4d50d87; 0x455a14ed;
    0xa9e3e905; 0xfcefa3f8; 0x676f02d9; 0x8d2a4c8a;
    0xfffa3942; 0x8771f681; 0x6d9d6122; 0xfde5380c;
    0xa4beea44; 0x4bdecfa9; 0xf6bb4b60; 0xbebfbc70;
    0x289b7ec6; 0xeaa127fa; 0xd4ef3085; 0x04881d05;
    0xd9d4d039; 0xe6db99e5; 0x1fa27cf8; 0xc4ac5665;
    0xf4292244; 0x432aff97; 0xab9423a7; 0xfc93a039;
    0x655b59c3; 0x8f0ccc92; 0xffeff47d; 0x85845dd1;
    0x6fa87e4f; 0xfe2ce6e0; 0xa3014314; 0x4e0811a1;
    0xf7537e82; 0xbd3af235; 0x2ad7d2bb; 0xeb86d391 ].

Definition shifts : list Z :=
  [ 7; 12; 17; 22; 7; 12; 17; 22; 7; 12; 17; 22; 7; 12; 17; 22;
    5;  9; 14; 20; 5;  9; 14; 20; 5;  9; 14; 20; 5;  9; 14; 20;
    4; 11; 16; 23; 4; 11; 16; 23; 4; 11; 16; 23; 4; 11; 16; 23;
    6; 10; 15; 21; 6; 10; 15; 21; 6; 10; 15; 21; 6; 10; 15; 21 ].

Definition nthZ (l : list Z) (i : Z) : Z := nth (Z.to_nat i) l 0.

Record state := { sA : Z; sB : Z; sC : Z; sD : Z }.

Definition init : state :=
  {| sA := 0x67452301; sB := 0xefcdab89; sC := 0x98badcfe; sD := 0x10325476 |}.

(** One of the 64 operations on the words [M] of a block. *)
Definition step (M : list Z) (st : state) (i : Z) : state :=
  let '(Build_state A B C D) := st in
  let '(F, g) :=
    if i <? 16 then (Z.lor (Z.land B C) (Z.land (not32 B) D), i)
    else if i <? 32 then
      (Z.lor (Z.land D B) (Z.land (not32 D) C), (5 * i + 1) mod 16)
    else if i <? 48 then (Z.lxor B (Z.lxor C D), (3 * i + 5) mod 16)
    else (Z.lxor C (Z.lor B (not32 D)), (7 * i) mod 16) in
  let F' := add32 (add32 (add32 F A) (nthZ K i)) (nthZ M g) in
  {| sA := D; sB := add32 B (rotl32 F' (nthZ shifts i)); sC := B; sD := C |}.

(** Little-endian 32-bit words of a list of bytes. *)
Fixpoint words (bytes : list Z) : list Z :=
  match bytes with
  | b0 :: b1 :: b2 :: b3 :: rest =>
      (b0 + Z.shiftl b1 8 + Z.shiftl b2 16 + Z.shiftl b3 24) :: words rest
  | _ => []
  end.

Definition block (st : state) (bytes : list Z) : state :=
  let M := words bytes in
  let st' := fold_left (step M) (map Z.of_nat (seq 0 64)) st in
  {| sA := add32 (sA st) (sA st'); sB := add32 (sB st) (sB st');
     sC := add32 (sC st) (sC st'); sD := add32 (sD st) (sD st') |}.

Fixpoint blocks (n : nat) (st : state) (bytes : list Z) : state :=
  match n with
  | O => st
  | S n' => blocks n' (block st (firstn 64 bytes)) (skipn 64 bytes)
  end.

Definition le_bytes (n : nat) (x : Z) : list Z :=
  map (fun i => Z.land (Z.shiftr x (8 * Z.of_nat i)) 255) (seq 0 n).

Definition pad (bytes : list Z) : list Z :=
  let len := Z.of_nat (length bytes) in
  let zeros := Z.to_nat ((55 - len) mod 64) in
  bytes ++ [128] ++ repeat 0 zeros ++ le_bytes 8 ((8 * len) mod 2 ^ 64).

Definition digest (bytes : list Z) : list Z :=
  let padded := pad bytes in
  let st := blocks (length padded / 64) init padded in
  le_bytes 4 (sA st) ++ le_bytes 4 (sB st)
  ++ le_bytes 4 (sC st) ++ le_bytes 4 (sD st).

Definition hex_digit (d : Z) : ascii :=
  ascii_of_nat (Z.to_nat (if d <? 10 then 48 + d else 87 + d)).

Fixpoint hex (bytes : list Z) : string :=
  match bytes with
  | [] => ""
  | b :: rest =>
      String (hex_digit (Z.shiftr b 4)) (String (hex_digit (Z.land b 15)) (hex rest))
  end.

Definition hexdigest (bytes : list Z) : string := hex (digest bytes).

End MD5.

(* ================================================================== *)
(** ** JSON values, as [json.load] and [json.loads] return them *)
(* ================================================================== *)

#[local] Unset Elimination Schemes.

Inductive jvalue : Type :=
| JNull
| JBool (b : bool)
| JNum (q : Q)
| JStr (s : string)
| JArr (items : list jvalue)
| JObj (fields : gmap string jvalue).

#[local] Set Elimination Schemes.

Module Json.

(** truth value of a Python object that came from JSON *)
Definition truthy (v : jvalue) : bool :=
  match v with
  | JNull => false
  | JBool b => b
  | JNum q => negb (Qnum q =? 0)
  | JStr s => PyStr.truthy s
  | JArr items => match items with [] => false | _ => true end
  | JObj fields => match map_to_list fields with [] => false | _ => true end
  end.

(** [v == s] for a [str] literal [s] *)
Definition eq_str (v : option jvalue) (s : string) : bool :=
  match v with
  | Some (JStr s') => String.eqb s' s
  | _ => false
  end.

End Json.

(* ================================================================== *)
(** ** [datetime]: the naive and the UTC values the program uses *)
(* ================================================================== *)

Record datetime : Type := mk_datetime {
  year : Z; month : Z; day : Z;
  hour : Z; minute : Z; second : Z; microsecond : Z
}.

Module Datetime.

Definition MAXORDINAL : Z := 3652059.

Definition is_leap (y : Z) : bool :=
  (y mod 4 =? 0) && (negb (y mod 100 =? 0) || (y mod 400 =? 0)).

Definition days_before_year (y : Z) : Z :=
  let y' := y - 1 in y' * 365 + y' / 4 - y' / 100 + y' / 400.

Definition DAYS_IN_MONTH : list Z :=
  [-1; 31; 28; 31; 30; 31; 30; 31; 31; 30; 31; 30; 31].

Definition DAYS_BEFORE_MONTH : list Z :=
  [-1; 0; 31; 59; 90; 120; 151; 181; 212; 243; 273; 304; 334].

Definition idx (l : list Z) (i : Z) : Z := nth (Z.to_nat i) l 0.

Definition days_in_month (y m : Z) : Z :=
  if (m =? 2) && is_leap y then 29 else idx DAYS_IN_MONTH m.

Definition days_before_month (y m : Z) : Z :=
  idx DAYS_BEFORE_MONTH m + (if (2 <? m) && is_leap y then 1 else 0).

Definition ymd2ord (y m d : Z) : Z :=
  days_before_year y + days_before_month y m + d.

Definition DI400Y : Z := 146097.
Definition DI100Y : Z := 36524.
Definition DI4Y : Z := 1461.

Definition ord2ymd (n0 : Z) : Z * Z * Z :=
  let n := n0 - 1 in
  let n400 := n / DI400Y in let n := n mod DI400Y in
  let y := n400 * 400 + 1 in
  let n100 := n / DI100Y in let n := n mod DI100Y in
  let n4 := n / DI4Y in let n := n mod DI4Y in
  let n1 := n / 365 in let n := n mod 365 in
  let y := y + n100 * 100 + n4 * 4 + n1 in
  if (n1 =? 4) || (n100 =? 4) then (y - 1, 12, 31)
  else
    let leapyear := (n1 =? 3) && (negb (n4 =? 24) || (n100 =? 3)) in
    let m := Z.shiftr (n + 50) 5 in
    let preceding :=
      idx DAYS_BEFORE_MONTH m + (if (2 <? m) && leapyear then 1 else 0) in
    if n <? preceding then
      let m := m - 1 in
      let preceding :=
        preceding
        - (idx DAYS_IN_MONTH m + (if (m =? 2) && leapyear then 1 else 0)) in
      (y, m, n - preceding + 1)
    else (y, m, n - preceding + 1).

(** The range checks of the constructors. *)
Definition check_date_fields (y m d : Z) : bool :=
  (1 <=? y) && (y <=? 9999) && (1 <=? m) && (m <=? 12)
  && (1 <=? d) && (d <=? days_in_month y m).

Definition check_time_fields (h mi s us : Z) : bool :=
  (0 <=? h) && (h <=? 23) && (0 <=? mi) && (mi <=? 59)
  && (0 <=? s) && (s <=? 59) && (0 <=? us) && (us <=? 999999).

Definition valid (t : datetime) : bool :=
  check_date_fields (year t) (month t) (day t)
  && check_time_fields (hour t) (minute t) (second t) (microsecond t).

Definition toordinal (t : datetime) : Z :=
  ymd2ord (year t) (month t) (day t).

(** [t - timedelta(days=n)]; [None] is [OverflowError]. *)
Definition sub_days (t : datetime) (n : Z) : option datetime :=
  let o := toordinal t - n in
  if (0 <? o) && (o <=? MAXORDINAL) then
    let '(y, m, d) := ord2ymd o in
    if check_date_fields y m d then
      Some (mk_datetime y m d (hour t) (minute t) (second t) (microsecond t))
    else None
  else None.

(** [datetime.fromtimestamp(s, tz=timezone.utc)] for a whole number of
    seconds [s]; [None] is the error for a year outside 1..9999. *)
Definition fromtimestamp_utc (s : Z) : option datetime :=
  let o := 719163 + s / 86400 in
  let r := s mod 86400 in
  if (0 <? o) && (o <=? MAXORDINAL) then
    let '(y, m, d) := ord2ymd o in
    if check_date_fields y m d then
      Some (mk_datetime y m d (r / 3600) (r mod 3600 / 60) (r mod 60) 0)
    else None
  else None.

Definition digit (d : Z) : ascii := ascii_of_nat (Z.to_nat (48 + d)).

(** The [w] low decimal digits of [n] in front of [acc]. *)
Fixpoint zpad_go (w : nat) (n : Z) (acc : string) : string :=
  match w with
  | O => acc
  | S w' => zpad_go w' (n / 10) (String (digit (n mod 10)) acc)
  end.

(** ["%0wd" % n] for [0 <= n < 10^w], the only use [isoformat] makes of it. *)
Definition zpad (w : nat) (n : Z) : string := zpad_go w n "".

(** [t.isoformat()] of a naive [datetime]. *)
Definition isoformat (t : datetime) : string :=
  zpad 4 (year t) +:+ "-" +:+ zpad 2 (month t) +:+ "-" +:+ zpad 2 (day t)
  +:+ "T" +:+ zpad 2 (hour t) +:+ ":" +:+ zpad 2 (minute t)
  +:+ ":" +:+ zpad 2 (second t)
  +:+ (if microsecond t =? 0 then "" else "." +:+ zpad 6 (microsecond t)).

(** [t.isoformat()] of a [datetime] whose [tzinfo] is [timezone.utc]. *)
Definition isoformat_utc (t : datetime) : string :=
  isoformat t +:+ "+00:00".

(** Comparison of two naive values: the tuples of their fields. *)
Definition compare (a b : datetime) : comparison :=
  match year a ?= year b with Eq =>
  match month a ?= month b with Eq =>
  match day a ?= day b with Eq =>
  match hour a ?= hour b with Eq =>
  match minute a ?= minute b with Eq =>
  match second a ?= second b with Eq =>
    microsecond a ?= microsecond b
  | c => c end | c => c end | c => c end
  | c => c end | c => c end | c => c end.

End Datetime.

(* ================================================================== *)
(** ** Configuration *)
(* ================================================================== *)

(** [FEEDS], in the order of the dict literal. *)
Definition FEEDS : list (string * string) :=
  [ ("Deadline", "https://deadline.com/feed/");
    ("Deadline Legal", "https://deadline.com/category/legal/feed");
    ("Variety", "https://variety.com/feed/");
    ("Hollywood Reporter", "https://www.hollywoodreporter.com/feed/");
    ("NYT", "https://rss.nytimes.com/services/xml/rss/nyt/HomePage.xml");
    ("LA Times", "https://www.latimes.com/news/rss2.0.xml");
    ("The Atlantic", "https://www.theatlantic.com/feed/all/");
    ("The Economist", "https://www.economist.com/finance-and-economics/rss.xml");
    ("Artificial Lawyer", "https://www.artificiallawyer.com/feed/");
    ("WDWNT", "https://wdwnt.com/feed/");
    ("Touring Plans", "https://touringplans.com/blog/feed/");
    ("Eater LA", "https://la.eater.com/rss/index.xml");
    ("LA Times Food", "https://www.latimes.com/food/rss2.0.xml") ].

Definition MAX_AGE_HOURS : Z := 24.

Definition SEEN_RETENTION_DAYS : Z := 7.

Definition FILTER_MODEL : string := "claude-haiku-4-5-20251001".

Definition SYNTHESIS_MODEL : string := "claude-sonnet-4-20250514".

Definition FEED_CATEGORIES : gmap string string :=
  list_to_map
    [ ("Deadline", "entertainment");
      ("Deadline Legal", "entertainment");
      ("Variety", "entertainment");
      ("Hollywood Reporter", "entertainment");
      ("NYT", "newspaper");
      ("LA Times", "newspaper");
      ("The Atlantic", "newspaper");
      ("The Economist", "newspaper");
      ("Artificial Lawyer", "ai_legal");
      ("WDWNT", "theme_parks");
      ("Touring Plans", "theme_parks");
      ("Eater LA", "food");
      ("LA Times Food", "food") ].

(** [d.get(k, dflt)] *)
Definition dict_get {V : Type} (d : gmap string V) (k : string) (dflt : V) : V :=
  default dflt (d !! k).

(* ================================================================== *)
(** ** Articles *)
(* ================================================================== *)

(** The dict [fetch_feeds] builds for an entry; [priority] and
    [filter_reason] are the two keys [main] adds to an accepted article,
    absent before. *)
Record article : Type := mk_article {
  source : string;
  category : string;
  title : string;
  link : string;
  content : string;
  date : option string;
  priority : option jvalue;
  filter_reason : option jvalue
}.

(* ================================================================== *)
(** ** Deduplication functions *)
(* ================================================================== *)

(** The keys [title] and [link] are always set by [fetch_feeds], so the
    defaults of the two [get] calls are never taken. *)
Definition get_article_hash (a : article) : string :=
  let unique_str := title a +:+ link a in
  MD5.hexdigest (PyStr.encode unique_str).

Arguments get_article_hash : simpl never.

(** What is at [SEEN_FILE] when a run starts. *)
Inductive seen_file : Type :=
| FileMissing
| FileNotJson
| FileJson (data : jvalue).

(** [v > cutoff] for a value [v] of the loaded dict; [None] is the
    [TypeError] of comparing a value that is not a [str] with a [str]. *)
Definition gt_cutoff (v : jvalue) (cutoff : string) : option bool :=
  match v with
  | JStr s => Some (String.ltb cutoff s)
  | _ => None
  end.

Definition keep_entry (cutoff : string) (v : jvalue) : option string :=
  match v with
  | JStr s => if String.ltb cutoff s then Some s else None
  | _ => None
  end.

(** [now] is the value of [datetime.now()]. Every exception of the [try]
    block ends in the empty dict: a file that is not JSON, a JSON value
    that is not an object (no [items]), a date out of range, a value
    that is not a string. *)
Definition load_seen_articles (f : seen_file) (now : datetime)
  : gmap string string :=
  match f with
  | FileMissing => ∅
  | FileNotJson => ∅
  | FileJson (JObj data) =>
      match Datetime.sub_days now SEEN_RETENTION_DAYS with
      | None => ∅
      | Some c =>
          let cutoff := Datetime.isoformat c in
          if forallb (fun kv => bool_decide (is_Some (gt_cutoff kv.2 cutoff)))
               (map_to_list data)
          then omap (keep_entry cutoff) data
          else ∅
      end
  | FileJson _ => ∅
  end.

(** The file after [json.dump(seen, f)]. *)
Definition save_seen_articles (seen : gmap string string) : seen_file :=
  FileJson (JObj (JStr <$> seen)).

Definition mark_as_seen (seen : gmap string string) (articles : list article)
    (now : datetime) : gmap string string :=
  let now := Datetime.isoformat now in
  fold_left (fun seen a => <[get_article_hash a := now]> seen) articles seen.

(* ================================================================== *)
(** ** Fetching *)
(* ================================================================== *)

(** A feed entry as [feedparser] delivers it. An attribute that is absent
    is [None]. [published_parsed] holds the number [mktime] returns for
    the parsed time ([mktime] is taken to succeed); [content] is a list
    of dicts, each with or without the key [value]; [summary] and
    [description] may be present and hold [None]. *)
Record entry : Type := mk_entry {
  published_parsed : option Z;
  entry_content : option (list (option string));
  summary : option (option string);
  description : option (option string);
  entry_title : option string;
  entry_link : option string
}.

(** The result of [feedparser.parse(feed_url)]. *)
Inductive parse_result : Type :=
| ParseRaises
| Parsed (entries : list entry).

(** [re.sub('<[^<]+?>', '', s)]. [pending] holds, most recent first, the
    characters read since a ['<'] that may still open a match. *)
Fixpoint strip_tags_go (pending : option string) (s : string) : string :=
  match s with
  | "" => match pending with Some buf => String.rev buf | None => "" end
  | String c s' =>
      match pending with
      | None =>
          if Ascii.eqb c "<" then strip_tags_go (Some "<") s'
          else String c (strip_tags_go None s')
      | Some buf =>
          if Ascii.eqb c "<" then String.rev buf +:+ strip_tags_go (Some "<") s'
          else if Ascii.eqb c ">" && (2 <=? String.length buf)%nat
               then strip_tags_go None s'
               else strip_tags_go (Some (String c buf)) s'
      end
  end.

Definition strip_tags (s : string) : string := strip_tags_go None s.

Inductive entry_outcome : Type :=
| EntryRaises
| EntryOld
| EntrySeen
| EntryNew (a : article).

(** The statements of the loop body from "Get content" to the dict
    [article]; [pub_date] is the parsed date, if the entry has one. *)
Definition build_article (feed_name : string) (e : entry)
    (pub_date : option datetime) : article :=
  let content :=
    match entry_content e with
    | Some (first :: _) => default "" first
    | _ =>
      match summary e with
      | Some v => default "" v
      | None =>
        match description e with
        | Some v => default "" v
        | None => ""
        end
      end
    end in
  let content := strip_tags content in
  let content := PyStr.join " " (PyStr.split content) in
  {| source := feed_name;
     category := dict_get FEED_CATEGORIES feed_name "entertainment";
     title := default "No title" (entry_title e);
     link := default "" (entry_link e);
     content := PyStr.take 500 content;
     date := Datetime.isoformat_utc <$> pub_date;
     priority := None;
     filter_reason := None |}.

(** "Check if we've seen this before" *)
Definition check_seen (seen : gmap string string) (a : article)
  : entry_outcome :=
  match seen !! get_article_hash a with
  | Some _ => EntrySeen
  | None => EntryNew a
  end.

(** The body of the loop over [feed.entries]; [cutoff] is in microseconds
    since the epoch, the publication time in seconds. A time that
    [fromtimestamp] cannot represent raises. *)
Definition fetch_entry (feed_name : string) (seen : gmap string string)
    (cutoff : Z) (e : entry) : entry_outcome :=
  match published_parsed e with
  | Some s =>
      match Datetime.fromtimestamp_utc s with
      | None => EntryRaises
      | Some pub_date =>
          if s * 1000000 <? cutoff then EntryOld
          else check_seen seen (build_article feed_name e (Some pub_date))
      end
  | None => check_seen seen (build_article feed_name e None)
  end.

(** The loop over the entries of one feed. An exception leaves the loop;
    the articles appended before it stay in the list. *)
Fixpoint fetch_entries (feed_name : string) (seen : gmap string string)
    (cutoff : Z) (entries : list entry) : list article :=
  match entries with
  | [] => []
  | e :: rest =>
      match fetch_entry feed_name seen cutoff e with
      | EntryRaises => []
      | EntryOld | EntrySeen => fetch_entries feed_name seen cutoff rest
      | EntryNew a => a :: fetch_entries feed_name seen cutoff rest
      end
  end.

Definition fetch_feed (web : string -> parse_result)
    (seen : gmap string string) (cutoff : Z) (feed : string * string)
  : list article :=
  match web feed.2 with
  | ParseRaises => []
  | Parsed entries => fetch_entries feed.1 seen cutoff entries
  end.

(** [web] answers [feedparser.parse]; [now_utc] is
    [datetime.now(timezone.utc)] in microseconds since the epoch. *)
Definition fetch_feeds (web : string -> parse_result)
    (seen : gmap string string) (now_utc : Z) : list article :=
  let cutoff := now_utc - MAX_AGE_HOURS * 3600 * 1000000 in
  concat (map (fetch_feed web seen cutoff) FEEDS).

(* ================================================================== *)
(** ** The language-model service *)
(* ================================================================== *)

(** The arguments of [client.messages.create]; [messages] is always one
    user message, of which [req_content] is the text. *)
Record request : Type := mk_request {
  req_model : string;
  req_max_tokens : Z;
  req_content : string
}.

(** An element of [response.content]; only a text block has [.text]. *)
Inductive block : Type :=
| TextBlock (text : string)
| OtherBlock.

(** [response.content[0].text]; [None] is the [IndexError] or the
    [AttributeError]. *)
Definition first_text (blocks : list block) : option string :=
  match blocks with
  | TextBlock t :: _ => Some t
  | _ => None
  end.

(** [str(n)] *)
Definition str_of_Z (n : Z) : string := NilZero.string_of_int (Z.to_int n).

Definition lines (l : list string) : string := PyStr.join PyStr.LF l.

Definition CATEGORY_KEYS : list string :=
  ["entertainment"; "newspaper"; "ai_legal"; "theme_parks"; "food"].

(** The dict [filter_article] returns from its [except] branch. *)
Definition filter_default : jvalue :=
  JObj (list_to_map
          [ ("include", JBool true);
            ("priority", JStr "medium");
            ("reason", JStr "Error - included by default") ]).

(** [re.sub(r'^```json?\s*', '', text)] *)
Definition strip_fence_open (text : string) : string :=
  if PyStr.startswith "```jso" text then
    let r := PyStr.drop 6 text in
    let r := if PyStr.startswith "n" r then PyStr.drop 1 r else r in
    PyStr.lstrip r
  else text.

(** [re.sub(r'\s*```$', '', text)], for a [text] that does not end in a
    line feed (it comes from [strip()]). *)
Definition strip_fence_close (text : string) : string :=
  if PyStr.endswith "```" text then
    PyStr.rstrip (String.rev (PyStr.drop 3 (String.rev text)))
  else text.

Section Service.

(** The service is a state machine: [create req s] is the response to
    [req] in state [s], [None] when the call raises, and the next state. *)
Context {St : Type}.
Variable create : request -> St -> option (list block) * St.

(** [json.loads]; [None] when it raises. *)
Variable json_loads : string -> option jvalue.

(** The texts of [FILTER_PROMPTS], by key, and of [HEADLINES_PROMPT];
    no property below depends on the wording. *)
Variable filter_prompt_text : string -> string.
Variable HEADLINES_PROMPT : string.

Definition FILTER_PROMPTS : gmap string string :=
  list_to_map (map (fun k => (k, filter_prompt_text k)) CATEGORY_KEYS).

Definition filter_prompt (a : article) : string :=
  dict_get FILTER_PROMPTS (category a) (FILTER_PROMPTS !!! "entertainment").

Definition filter_request (a : article) : request :=
  {| req_model := FILTER_MODEL;
     req_max_tokens := 150;
     req_content :=
       lines [ filter_prompt a; "";
               "ARTICLE TO EVALUATE:";
               "Source: " +:+ source a;
               "Title: " +:+ title a;
               "Content: " +:+ content a; "";
               "Respond with JSON only." ] |}.

(** The statements of the [try] block after the call. *)
Definition parse_filter_response (blocks : list block) : option jvalue :=
  match first_text blocks with
  | None => None
  | Some t =>
      let text := PyStr.strip t in
      let text :=
        if PyStr.startswith "```" text
        then strip_fence_close (strip_fence_open text)
        else text in
      json_loads text
  end.

Definition filter_article (a : article) (s : St) : jvalue * St :=
  let '(response, s') := create (filter_request a) s in
  match response with
  | None => (filter_default, s')
  | Some blocks =>
      match parse_filter_response blocks with
      | Some result => (result, s')
      | None => (filter_default, s')
      end
  end.

Definition headline_line (a : article) : string :=
  "[" +:+ source a +:+ "] " +:+ title a +:+ " - "
  +:+ PyStr.take 150 (content a) +:+ "...".

Definition headlines_fallback : string :=
  lines ["Unfortunately:"; "* The news happened again today."].

Definition generate_sardonic_headlines (filtered_articles : list article)
    (s : St) : string * St :=
  let article_summaries :=
    lines (map headline_line (firstn 20 filtered_articles)) in
  let '(response, s') :=
    create {| req_model := SYNTHESIS_MODEL;
              req_max_tokens := 300;
              req_content := HEADLINES_PROMPT +:+ article_summaries |} s in
  match response with
  | Some blocks =>
      match first_text blocks with
      | Some t => (PyStr.strip t, s')
      | None => (headlines_fallback, s')
      end
  | None => (headlines_fallback, s')
  end.

End Service.

(* ================================================================== *)
(** ** Selection: grouping, ordering and the soft limits *)
(* ================================================================== *)

(** [a.get('priority') == 'high'] *)
Definition is_high (a : article) : bool := Json.eq_str (priority a) "high".

(** [a.get('priority') != 'high'] *)
Definition not_high (a : article) : bool := negb (is_high a).

(** The key of the sort: [0 if x.get('priority') == 'high' else 1]. *)
Definition priority_key (a : article) : Z := if is_high a then 0 else 1.

(** The category [synthesize_digest] files an article under. *)
Definition synth_category (a : article) : string :=
  dict_get FEED_CATEGORIES (source a) "newspaper".

(** The dict [categories], in the order of its literal. *)
Definition empty_categories : list (string * list article) :=
  map (fun k => (k, [])) CATEGORY_KEYS.

(** [categories[cat].append(a)] *)
Fixpoint bucket_append (cat : string) (a : article)
    (categories : list (string * list article)) : list (string * list article) :=
  match categories with
  | [] => []
  | (k, l) :: rest =>
      if String.eqb k cat then (k, l ++ [a]) :: rest
      else (k, l) :: bucket_append cat a rest
  end.

Definition group_by_category (filtered_articles : list article)
  : list (string * list article) :=
  fold_left (fun categories a => bucket_append (synth_category a) a categories)
    filtered_articles empty_categories.

(** [list.sort(key=...)]: a stable sort, here by insertion. An element goes
    in front of the first element whose key is not smaller. *)
Fixpoint insert_by_key {A : Type} (key : A -> Z) (x : A) (l : list A) : list A :=
  match l with
  | [] => [x]
  | y :: l' => if key x <=? key y then x :: l else y :: insert_by_key key x l'
  end.

Fixpoint sort_by_key {A : Type} (key : A -> Z) (l : list A) : list A :=
  match l with
  | [] => []
  | x :: l' => insert_by_key key x (sort_by_key key l')
  end.

Definition sort_categories (categories : list (string * list article))
  : list (string * list article) :=
  map (fun '(cat, l) => (cat, sort_by_key priority_key l)) categories.

Definition category_limits : gmap string nat :=
  list_to_map
    [ ("newspaper", 12); ("entertainment", 3); ("ai_legal", 3);
      ("theme_parks", 2); ("food", 3) ]%nat.

(** The body of the loop that applies the soft limits. *)
Definition apply_limit (limit : nat) (bucket : list article) : list article :=
  if (limit <? length bucket)%nat then
    let high_priority := List.filter is_high bucket in
    let medium_priority := List.filter not_high bucket in
    if (limit <=? length high_priority)%nat
    then firstn (limit + 2) high_priority
    else high_priority ++ firstn (limit - length high_priority) medium_priority
  else bucket.

Definition limit_categories (categories : list (string * list article))
  : list (string * list article) :=
  map (fun '(cat, l) => (cat, apply_limit (dict_get category_limits cat 5%nat) l))
    categories.

(** The dict [categories] when the calls to the service start. *)
Definition select_categories (filtered_articles : list article)
  : list (string * list article) :=
  limit_categories (sort_categories (group_by_category filtered_articles)).

(* ================================================================== *)
(** ** Synthesis and assembly *)
(* ================================================================== *)

Definition category_labels : gmap string string :=
  list_to_map
    [ ("newspaper", "News");
      ("entertainment", "Entertainment Industry");
      ("ai_legal", "AI & Legal Tech");
      ("theme_parks", "Theme Parks");
      ("food", "LA Food Scene") ].

Definition category_order : list string :=
  ["newspaper"; "entertainment"; "ai_legal"; "theme_parks"; "food"].

Definition divider : string :=
  PyStr.LF +:+ PyStr.LF +:+ "---" +:+ PyStr.LF +:+ PyStr.LF.

Definition article_text (i : nat) (a : article) : string :=
  lines [ "ARTICLE " +:+ str_of_Z (Z.of_nat i + 1) +:+ ":";
          "Original headline: " +:+ title a;
          "Source: " +:+ source a;
          "Content: " +:+ PyStr.take 500 (content a);
          "Link: " +:+ link a ].

Definition synthesis_prompt (target_count : nat) (articles : list article)
  : string :=
  let articles_text := PyStr.join divider (imap article_text articles) in
  lines
    [ "For the articles below, create a clean digest entry for each UNIQUE story.";
      "";
      "CRITICAL: If multiple articles cover the SAME story (e.g., same event reported by Deadline, Variety, and THR), COMBINE them into ONE entry using the best details from each. Only create separate entries if articles cover genuinely different angles or breaking developments.";
      "";
      "Target approximately " +:+ str_of_Z (Z.of_nat target_count)
        +:+ " entries for this section (fewer if stories overlap, more if genuinely distinct).";
      "";
      "For each unique story:";
      "1. REWRITTEN HEADLINE: Essential context, no clickbait, standalone-readable, under 15 words.";
      "2. ONE-PARAGRAPH SUMMARY: 2-4 sentences of key facts. Direct and informative.";
      "3. LINK: The best/most detailed source.";
      "";
      "Format EXACTLY like this (no labels, just spacing):";
      "";
      "**Headline goes here in bold**";
      "";
      "Summary paragraph goes here. Two to four sentences covering key facts.";
      "";
      "https://link.goes.here";
      "";
      "**Next headline here**";
      "";
      "Next summary here.";
      "";
      "https://next.link.here";
      "";
      "ARTICLES TO PROCESS:";
      "";
      articles_text ].

Definition synthesis_request (cat_key : string) (articles : list article)
  : request :=
  {| req_model := SYNTHESIS_MODEL;
     req_max_tokens := 4000;
     req_content :=
       synthesis_prompt (dict_get category_limits cat_key 5%nat) articles |}.

(** One entry of the fallback: the original headline in bold, the first
    200 characters of the content, the link. *)
Definition fallback_entry (a : article) : string :=
  "**" +:+ title a +:+ "**" +:+ PyStr.LF +:+ PyStr.LF
  +:+ PyStr.take 200 (content a) +:+ "..." +:+ PyStr.LF +:+ PyStr.LF
  +:+ link a.

Definition fallback (articles : list article) : string :=
  PyStr.join (PyStr.LF +:+ PyStr.LF) (map fallback_entry articles).

Definition section_text (cat_key body : string) : string :=
  "## " +:+ (category_labels !!! cat_key) +:+ PyStr.LF +:+ PyStr.LF +:+ body.

(** The body of the loop over [category_order]: the section of a
    category, or nothing when the category has no summary or a summary
    that is empty once stripped. *)
Definition section_of (all_summaries : gmap string string) (cat_key : string)
  : list string :=
  match all_summaries !! cat_key with
  | Some body =>
      if PyStr.truthy (PyStr.strip body)
      then [section_text cat_key body] else []
  | None => []
  end.

Definition digest_parts (all_summaries : gmap string string) : list string :=
  flat_map (section_of all_summaries) category_order.

Definition assemble (all_summaries : gmap string string) : string :=
  match digest_parts all_summaries with
  | [] => "No articles to summarize."
  | parts => PyStr.join divider parts
  end.

Section Synthesis.

Context {St : Type}.
Variable create : request -> St -> option (list block) * St.

(** The [try] statement of the loop over the categories. *)
Definition summarize_category (cat_key : string) (articles : list article)
    (s : St) : string * St :=
  let '(response, s') := create (synthesis_request cat_key articles) s in
  match response with
  | Some blocks =>
      match first_text blocks with
      | Some t => (t, s')
      | None => (fallback articles, s')
      end
  | None => (fallback articles, s')
  end.

(** The loop over [categories.items()]; an empty bucket is passed over. *)
Fixpoint summarize_all (categories : list (string * list article))
    (all_summaries : gmap string string) (s : St)
  : gmap string string * St :=
  match categories with
  | [] => (all_summaries, s)
  | (cat_key, articles) :: rest =>
      match articles with
      | [] => summarize_all rest all_summaries s
      | _ =>
          let '(body, s') := summarize_category cat_key articles s in
          summarize_all rest (<[cat_key := body]> all_summaries) s'
      end
  end.

Definition synthesize_digest (filtered_articles : list article) (s : St)
  : string * St :=
  let categories := select_categories filtered_articles in
  let '(all_summaries, s') := summarize_all categories ∅ s in
  (assemble all_summaries, s').

End Synthesis.

(* ================================================================== *)
(** ** [main] *)
(* ================================================================== *)

(** What a run reads from outside: the environment variable, the file of
    seen articles, the feeds and the three readings of the clock
    ([datetime.now()] in [load_seen_articles], [datetime.now(timezone.utc)]
    in [fetch_feeds], [datetime.now()] in [mark_as_seen]). *)
Record world : Type := mk_world {
  api_key : option string;
  seen_on_disk : seen_file;
  web : string -> parse_result;
  now_load : datetime;
  now_utc : Z;
  now_mark : datetime
}.

(** The effects of a run that the properties speak of, in the order they
    happen: a call of [filter_article], the write of the file of seen
    articles, and the hand-over of the headlines and the digest to the
    code that prints them and writes the Markdown and HTML files. *)
Inductive event : Type :=
| EvFilter (a : article)
| EvSaveSeen (seen : gmap string string)
| EvPublish (headlines digest : string) (n_filtered n_articles : nat).

Inductive exit_status : Type :=
| Returned
| Exited (code : Z)
| Raised.

Record run : Type := mk_run {
  trace : list event;
  status : exit_status;
  seen_after : seen_file
}.

(** [v.get(k, dflt)] on a value that came from JSON; [None] is the
    [AttributeError] of a value that is not a dict. *)
Definition obj_get (v : jvalue) (k : string) (dflt : jvalue) : option jvalue :=
  match v with
  | JObj fields => Some (default dflt (fields !! k))
  | _ => None
  end.

Section Main.

Context {St : Type}.
Variable create : request -> St -> option (list block) * St.
Variable json_loads : string -> option jvalue.
Variable filter_prompt_text : string -> string.
Variable HEADLINES_PROMPT : string.

(** The body of the filtering loop: the article as the loop leaves it
    and whether it was appended to [filtered]; [None] when
    [result.get] raises. *)
Definition classify (a : article) (s : St) : option (article * bool) * St :=
  let '(result, s') := filter_article create json_loads filter_prompt_text a s in
  match obj_get result "include" JNull with
  | None => (None, s')
  | Some include =>
      if Json.truthy include then
        let a' :=
          {| source := source a; category := category a; title := title a;
             link := link a; content := content a; date := date a;
             priority := obj_get result "priority" (JStr "medium");
             filter_reason := obj_get result "reason" (JStr "") |} in
        (Some (a', true), s')
      else (Some (a, false), s')
  end.

(** The filtering loop: its calls, then the list [articles] (whose
    dicts the loop updates in place) and the list [filtered]; [None]
    when an iteration raises. *)
Fixpoint filter_loop (articles : list article) (s : St)
  : list event * option (list article * list article) * St :=
  match articles with
  | [] => ([], Some ([], []), s)
  | a :: rest =>
      match classify a s with
      | (None, s') => ([EvFilter a], None, s')
      | (Some (a', included), s') =>
          let '(evs, r, s'') := filter_loop rest s' in
          (EvFilter a :: evs,
           match r with
           | Some (articles', filtered) =>
               Some (a' :: articles',
                     if included then a' :: filtered else filtered)
           | None => None
           end,
           s'')
      end
  end.

Definition main (w : world) (s : St) : run * St :=
  match api_key w with
  | None | Some "" => (mk_run [] (Exited 1) (seen_on_disk w), s)
  | Some _ =>
    let seen := load_seen_articles (seen_on_disk w) (now_load w) in
    let articles := fetch_feeds (web w) seen (now_utc w) in
    match articles with
    | [] => (mk_run [] Returned (seen_on_disk w), s)
    | _ =>
      match filter_loop articles s with
      | (evs, None, s1) => (mk_run evs Raised (seen_on_disk w), s1)
      | (evs, Some (articles, filtered), s1) =>
        let seen := mark_as_seen seen articles (now_mark w) in
        let disk := save_seen_articles seen in
        let evs := evs ++ [EvSaveSeen seen] in
        match filtered with
        | [] => (mk_run evs Returned disk, s1)
        | _ =>
          let '(headlines, s2) :=
            generate_sardonic_headlines create HEADLINES_PROMPT filtered s1 in
          let '(digest, s3) := synthesize_digest create filtered s2 in
          if PyStr.truthy digest then
            (mk_run (evs ++ [EvPublish headlines digest
                               (length filtered) (length articles)])
               Returned disk, s3)
          else (mk_run evs Returned disk, s3)
        end
      end
    end
  end.

End Main.

(* ================================================================== *)
(** * The vocabulary of the properties *)
(* ================================================================== *)

(** ** Time *)

(** The month and the day of day [n] of a year, counted from 0, as
    [ord2ymd] finds them. *)
Definition month_day (leapyear : bool) (n : Z) : Z * Z :=
  let m := Z.shiftr (n + 50) 5 in
  let preceding :=
    Datetime.idx Datetime.DAYS_BEFORE_MONTH m
    + (if (2 <? m) && leapyear then 1 else 0) in
  if n <? preceding then
    let m := m - 1 in
    let preceding :=
      preceding
      - (Datetime.idx Datetime.DAYS_IN_MONTH m
         + (if (m =? 2) && leapyear then 1 else 0)) in
    (m, n - preceding + 1)
  else (m, n - preceding + 1).

(** Replaces the lookups of the two tables of the calendar at a known
    month by their values. *)
Ltac eval_idx :=
  repeat match goal with
         | |- context [Datetime.idx ?t ?k] =>
             let v := eval vm_compute in (Datetime.idx t k) in
             change (Datetime.idx t k) with v
         | H : context [Datetime.idx ?t ?k] |- _ =>
             let v := eval vm_compute in (Datetime.idx t k) in
             change (Datetime.idx t k) with v in H
         end.

(** The fraction of a second in [isoformat]: absent when it is zero. *)
Definition usec_suffix (t : datetime) : string :=
  if microsecond t =? 0 then ""
  else String "." (Datetime.zpad_go 6 (microsecond t) "").

(** ** Classification *)

(** The classification of [a] in state [s] fails: the call raises, or
    the response has no text, or its text does not parse. *)
Definition filter_fails {St : Type}
    (create : request -> St -> option (list block) * St)
    (json_loads : string -> option jvalue)
    (filter_prompt_text : string -> string) (a : article) (s : St) : Prop :=
  match (create (filter_request filter_prompt_text a) s).1 with
  | None => True
  | Some blocks => parse_filter_response json_loads blocks = None
  end.

(** An article as [main] leaves it when it was accepted by default. *)
Definition fail_open (a : article) : article :=
  {| source := source a; category := category a; title := title a;
     link := link a; content := content a; date := date a;
     priority := Some (JStr "medium");
     filter_reason := Some (JStr "Error - included by default") |}.

(** ** Selection and synthesis *)

(** The articles of [l] that [synthesize_digest] files under [cat]. *)
Definition filed_under (cat : string) (l : list article) : list article :=
  List.filter (fun a => String.eqb cat (synth_category a)) l.

(** The bucket of a category when the calls to the service start. *)
Definition selected (cat : string) (filtered : list article) : list article :=
  apply_limit (dict_get category_limits cat 5%nat)
    (sort_by_key priority_key (filed_under cat filtered)).

(** Some character of [s] is not whitespace. *)
Fixpoint has_nonspace (s : string) : bool :=
  match s with
  | "" => false
  | String c s' => negb (PyStr.isspace c) || has_nonspace s'
  end.

(** What the [try] statement of the synthesis stores for a response;
    [None] is a call that raised. *)
Definition body_of_response (articles : list article)
    (response : option (list block)) : string :=
  match response with
  | Some blocks => default (fallback articles) (first_text blocks)
  | None => fallback articles
  end.

(** The generation call for a bucket fails in state [s]: it raises, or
    its response has no text to read. *)
Definition generation_fails {St : Type}
    (create : request -> St -> option (list block) * St)
    (cat : string) (articles : list article) (s : St) : Prop :=
  match (create (synthesis_request cat articles) s).1 with
  | None => True
  | Some blocks => first_text blocks = None
  end.

(** ** Texts *)

(** The character [c] does not occur in [s]. *)
Fixpoint lacks (c : ascii) (s : string) : bool :=
  match s with
  | "" => true
  | String d s' => negb (Ascii.eqb d c) && lacks c s'
  end.

(** No character of [s] is whitespace. *)
Fixpoint no_space (s : string) : bool :=
  match s with
  | "" => true
  | String c s' => negb (PyStr.isspace c) && no_space s'
  end.

(** A word: not empty and without whitespace. *)
Definition is_word (w : string) : Prop :=
  PyStr.truthy w = true /\ no_space w = true.

(** The first character of [s] exists and is not whitespace. *)
Definition starts_nonspace (s : string) : bool :=
  match s with
  | "" => false
  | String c _ => negb (PyStr.isspace c)
  end.

(** [s] is not empty and neither starts nor ends with whitespace. *)
Definition trimmed (s : string) : bool :=
  starts_nonspace s && starts_nonspace (String.rev s).

(** The two articles differ at most in the priority and the rationale. *)
Definition same_item (a a' : article) : Prop :=
  source a' = source a /\ category a' = category a /\ title a' = title a
  /\ link a' = link a /\ content a' = content a /\ date a' = date a.

(** ** The trace of a run *)

Definition is_save (e : event) : bool :=
  match e with EvSaveSeen _ => true | _ => false end.

Definition is_filter (e : event) : bool :=
  match e with EvFilter _ => true | _ => false end.

Definition is_publish (e : event) : bool :=
  match e with EvPublish _ _ _ _ => true | _ => false end.

(** ** The requests of a run *)

(** A service that answers as [create] does and keeps, beside the state
    of [create], the list of the requests it has received. *)
Definition logged {St : Type}
    (create : request -> St -> option (list block) * St)
    (r : request) (sl : St * list request)
  : option (list block) * (St * list request) :=
  let '(response, s') := create r sl.1 in
  (response, (s', sl.2 ++ [r])).

(** The requests of the synthesis for a dict of buckets: one for each
    bucket that is not empty, in the order of the dict. *)
Definition bucket_requests (categories : list (string * list article))
  : list request :=
  flat_map (fun '(cat_key, articles) =>
              match articles with
              | [] => []
              | _ => [synthesis_request cat_key articles]
              end) categories.

(** ** Fingerprints *)

Definition is_hex (c : ascii) : bool :=
  let n := PyStr.code c in
  ((48 <=? n) && (n <=? 57)) || ((97 <=? n) && (n <=? 102)).

Fixpoint all_hex (s : string) : bool :=
  match s with
  | "" => true
  | String c s' => is_hex c && all_hex s'
  end.

(* ================================================================== *)
(** * Sample inputs *)
(* ================================================================== *)

(** An article with a given title and link. *)
Definition article_of (t l : string) : article :=
  {| source := "NYT"; category := "newspaper"; title := t; link := l;
     content := ""; date := None; priority := None; filter_reason := None |}.

(** An entry with a summary and, if [published] is given, a date. *)
Definition sample_entry (published : option Z) (t l body : string) : entry :=
  {| published_parsed := published; entry_content := None;
     summary := Some (Some body); description := None;
     entry_title := Some t; entry_link := Some l |}.

(** A small feed snapshot: two entries at Variety, the second without a
    date, one entry at the NYT, one feed that fails, nothing elsewhere. *)
Definition sample_web (url : string) : parse_result :=
  if String.eqb url "https://variety.com/feed/" then
    Parsed [ sample_entry (Some 1762250000) "Studio buys studio"
               "https://variety.example/a" "<p>A   deal.</p>";
             sample_entry None "Strike vote set"
               "https://variety.example/b" "Vote <b>soon</b>" ]
  else if String.eqb url "https://rss.nytimes.com/services/xml/rss/nyt/HomePage.xml" then
    Parsed [ sample_entry (Some 1762251000) "Budget passes"
               "https://nyt.example/c" "It passed." ]
  else if String.eqb url "https://wdwnt.com/feed/" then ParseRaises
  else Parsed [].

(** 2025-11-04T12:00:00 UTC, in microseconds. *)
Definition sample_now_utc : Z := 1762257600000000.

(** A mapping that holds the fingerprint of the undated Variety entry
    with a timestamp just under seven days before 2025-11-04T06:00. *)
Definition aging_seen : gmap string string :=
  {[ get_article_hash (article_of "Strike vote set" "https://variety.example/b")
     := "2025-10-28T05:00:00" ]}.

(** A service that raises on every other call and chats instead of
    answering JSON on the rest. *)
Definition flaky_create (r : request) (n : nat) : option (list block) * nat :=
  (if Nat.even n then None else Some [TextBlock "Sure! Here is my answer."],
   S n).

(** A service that answers every request with blanks. *)
Definition blank_create (r : request) (s : unit) : option (list block) * unit :=
  (Some [TextBlock "   "], s).

(** A service that answers every request with a JSON array. *)
Definition array_create (r : request) (s : unit) : option (list block) * unit :=
  (Some [TextBlock "[]"], s).

(** A parser for three JSON texts, enough for the samples. *)
Definition sample_json_loads (text : string) : option jvalue :=
  if String.eqb text "null" then Some JNull
  else if String.eqb text "[]" then Some (JArr [])
  else if String.eqb text "{}" then Some (JObj ∅)
  else None.

(** The sample articles, all accepted by default. *)
Definition sample_filtered : list article :=
  map fail_open (fetch_feeds sample_web ∅ sample_now_utc).

(** An accepted article of a given source, title and priority. *)
Definition graded (src t p : string) : article :=
  {| source := src; category := dict_get FEED_CATEGORIES src "entertainment";
     title := t; link := ""; content := ""; date := None;
     priority := Some (JStr p); filter_reason := Some (JStr "") |}.

(** Four accepted articles of one food feed, two of them high. *)
Definition mixed_filtered : list article :=
  [ graded "Eater LA" "a" "medium"; graded "Eater LA" "b" "high";
    graded "Eater LA" "c" "low"; graded "Eater LA" "d" "high" ].

(** A run that finds the feeds empty. *)
Definition quiet_world : world :=
  {| api_key := Some "sk-test";
     seen_on_disk := FileMissing;
     web := fun _ => Parsed [];
     now_load := mk_datetime 2025 11 4 4 0 0 0;
     now_utc := sample_now_utc;
     now_mark := mk_datetime 2025 11 4 4 0 9 0 |}.

(** A first run on the sample feeds, with no file of seen articles. *)
Definition sample_world : world :=
  {| api_key := Some "sk-test";
     seen_on_disk := FileMissing;
     web := sample_web;
     now_load := mk_datetime 2025 11 4 4 0 0 0;
     now_utc := sample_now_utc;
     now_mark := mk_datetime 2025 11 4 4 0 9 0 |}.

(* ================================================================== *)
(** * Properties *)
(* ================================================================== *)

(** ** The embedding against Python *)

(** The right-hand sides below are the values Python gives. *)

Example md5_empty : MD5.hexdigest (PyStr.encode "") = "d41d8cd98f00b204e9800998ecf8427e".
Proof. vm_compute. reflexivity. Qed.

Example md5_abc : MD5.hexdigest (PyStr.encode "abc") = "900150983cd24fb0d6963f7d28e17f72".
Proof. vm_compute. reflexivity. Qed.

Example md5_two_blocks :
  MD5.hexdigest (PyStr.encode
    "aaaaaaaaaaaaaaaaaaaaaaaaaaaaaaaaaaaaaaaaaaaaaaaaaaaaaaaaaaaaaaaa")
  = "014842d480b571495a4a0363793f7367".
Proof. vm_compute. reflexivity. Qed.

Example ord2ymd_2026 : Datetime.ord2ymd (Datetime.ymd2ord 2026 11 4) = (2026, 11, 4).
Proof. reflexivity. Qed.

Example fromtimestamp_utc_ex :
  Datetime.isoformat_utc <$> Datetime.fromtimestamp_utc 1700000000
  = Some "2023-11-14T22:13:20+00:00".
Proof. vm_compute. reflexivity. Qed.

Example sub_days_leap :
  Datetime.isoformat <$> Datetime.sub_days (mk_datetime 2024 3 5 9 30 0 250) 7
  = Some "2024-02-27T09:30:00.000250".
Proof. vm_compute. reflexivity. Qed.

Example strip_tags_ex1 :
  strip_tags "<p>Hello <b>world</b></p> a < b, <> c <>x> d <<i>>" =
  "Hello world a < b, <> c  d <>".
Proof. vm_compute. reflexivity. Qed.


Example split_join_ex :
  PyStr.join " " (PyStr.split ("  a " +:+ PyStr.LF +:+ "  b ")) = "a b".
Proof. vm_compute. reflexivity. Qed.

Example strip_fence_open_ex : strip_fence_open "```jso  x" = "x".
Proof. vm_compute. reflexivity. Qed.

Example strip_fence_open_bare :
  strip_fence_open ("```" +:+ PyStr.LF +:+ "{}") = "```" +:+ PyStr.LF +:+ "{}".
Proof. vm_compute. reflexivity. Qed.

Example strip_fence_close_ex :
  strip_fence_close ("abc  " +:+ PyStr.LF +:+ "```") = "abc".
Proof. vm_compute. reflexivity. Qed.

Example strip_fence_close_six : strip_fence_close "abc``````" = "abc```".
Proof. vm_compute. reflexivity. Qed.

(** ** Fingerprints *)

(** The fingerprint reads the title and the link only. *)
Lemma get_article_hash_fields (a b : article) :
  title a = title b -> link a = link b ->
  get_article_hash a = get_article_hash b.
Proof. unfold get_article_hash. intros -> ->. reflexivity. Qed.

(** C2, as stated, fails: the title and the link are concatenated with
    nothing between them, so two items that differ in both fields can
    have one fingerprint. *)
Lemma get_article_hash_collision :
  title (article_of "ab" "c") <> title (article_of "a" "bc")
  /\ link (article_of "ab" "c") <> link (article_of "a" "bc")
  /\ get_article_hash (article_of "ab" "c")
     = get_article_hash (article_of "a" "bc").
Proof. repeat split; discriminate. Qed.

(** C2, amended: the fingerprint of an item is a function of the
    concatenation of its title and its link. Two items with the same
    title and the same link therefore have the same fingerprint, whatever
    their source, category, content, date, priority and rationale; and so
    have two items whose titles and links differ but concatenate to the
    same text. *)
Theorem get_article_hash_concat (a b : article) :
  title a +:+ link a = title b +:+ link b ->
  get_article_hash a = get_article_hash b.
Proof. unfold get_article_hash. intros ->. reflexivity. Qed.

Lemma get_article_hash_concat_witness :
  get_article_hash
    (mk_article "NYT" "newspaper" "Studio merger" "https://nyt.example/1"
       "body one" (Some "2026-11-04T08:00:00+00:00") None None)
  = get_article_hash
      (mk_article "Variety" "entertainment" "Studio merger"
         "https://nyt.example/1" "another body" None
         (Some (JStr "high")) (Some (JStr "big")))
  /\ get_article_hash (article_of "ab" "c") = "900150983cd24fb0d6963f7d28e17f72".
Proof.
  split.
  - apply get_article_hash_concat. reflexivity.
  - vm_compute. reflexivity.
Defined.

(** ** Ordering of a bucket *)

Lemma priority_key_high (a : article) : is_high a = true -> priority_key a = 0.
Proof. unfold priority_key. intros ->. reflexivity. Qed.

Lemma priority_key_not_high (a : article) :
  is_high a = false -> priority_key a = 1.
Proof. unfold priority_key. intros ->. reflexivity. Qed.

(** An article of the high tier goes to the front of a sorted bucket. *)
Lemma insert_high (x : article) (l : list article) :
  is_high x = true -> insert_by_key priority_key x l = x :: l.
Proof.
  intros Hx. destruct l as [|y l]; [reflexivity|]. simpl.
  rewrite (priority_key_high x Hx).
  unfold priority_key at 1. destruct (is_high y); reflexivity.
Qed.

(** Any other article goes behind the high tier and in front of the rest. *)
Lemma insert_not_high (x : article) (hs ms : list article) :
  is_high x = false ->
  Forall (fun a => is_high a = true) hs ->
  Forall (fun a => is_high a = false) ms ->
  insert_by_key priority_key x (hs ++ ms) = hs ++ x :: ms.
Proof.
  intros Hx Hhs Hms. induction Hhs as [|h hs Hh _ IH]; simpl.
  - destruct Hms as [|m ms Hm _]; [reflexivity|]. simpl.
    rewrite (priority_key_not_high x Hx), (priority_key_not_high m Hm).
    reflexivity.
  - rewrite (priority_key_not_high x Hx), (priority_key_high h Hh). simpl.
    rewrite IH. reflexivity.
Qed.

Lemma Forall_filter_high (l : list article) :
  Forall (fun a => is_high a = true) (List.filter is_high l).
Proof.
  apply List.Forall_forall. intros a Ha. apply List.filter_In in Ha. tauto.
Qed.

Lemma Forall_filter_not_high (l : list article) :
  Forall (fun a => is_high a = false) (List.filter not_high l).
Proof.
  apply List.Forall_forall. intros a Ha. apply List.filter_In in Ha.
  destruct Ha as [_ Ha]. unfold not_high in Ha.
  destruct (is_high a); [discriminate | reflexivity].
Qed.

(** The sort is the stable partition of the bucket into the two tiers. *)
Lemma sort_by_priority_partition (l : list article) :
  sort_by_key priority_key l = List.filter is_high l ++ List.filter not_high l.
Proof.
  induction l as [|x l IH]; [reflexivity|].
  simpl. rewrite IH. unfold not_high at 2.
  destruct (is_high x) eqn:Hx; simpl.
  - apply insert_high. exact Hx.
  - apply insert_not_high;
      [exact Hx | apply Forall_filter_high | apply Forall_filter_not_high].
Qed.

(** C9. Sorting a bucket puts every article of priority "high" in front
    of every other article, and keeps the order of insertion within the
    high tier and within the rest: the sorted bucket is the high articles
    in their original order followed by all others in their original
    order, "medium" and "low" not told apart. *)
Theorem bucket_ordering (bucket : list article) :
  let sorted := sort_by_key priority_key bucket in
  sorted = List.filter is_high bucket ++ List.filter not_high bucket
  /\ (forall (i j : nat) (a b : article),
        sorted !! i = Some a -> sorted !! j = Some b ->
        is_high a = true -> is_high b = false -> (i < j)%nat).
Proof.
  simpl. split; [apply sort_by_priority_partition|].
  intros i j a b Hi Hj Ha Hb.
  rewrite sort_by_priority_partition in Hi, Hj.
  pose proof (Forall_filter_high bucket) as HH.
  pose proof (Forall_filter_not_high bucket) as HM.
  set (hs := List.filter is_high bucket) in *.
  set (ms := List.filter not_high bucket) in *.
  assert (i < length hs)%nat as Hlt.
  { destruct (decide (i < length hs)%nat) as [|Hge]; [assumption|].
    rewrite lookup_app_r in Hi by lia.
    rewrite Forall_lookup in HM. specialize (HM _ _ Hi). congruence. }
  assert (length hs <= j)%nat as Hle.
  { destruct (decide (length hs <= j)%nat) as [|Hnle]; [assumption|].
    rewrite lookup_app_l in Hj by lia.
    rewrite Forall_lookup in HH. specialize (HH _ _ Hj). congruence. }
  lia.
Qed.

(** ** The soft limits *)

Section Filters.

Context {A : Type}.
Variables p q : A -> bool.

Lemma filter_idem (l : list A) :
  List.filter p (List.filter p l) = List.filter p l.
Proof.
  induction l as [|x l IH]; [reflexivity|].
  simpl. destruct (p x) eqn:Hx; simpl; [rewrite Hx, IH|]; auto.
Qed.

Lemma filter_disjoint (l : list A) :
  (forall x, p x = true -> q x = false) ->
  List.filter q (List.filter p l) = [].
Proof.
  intros Hpq. induction l as [|x l IH]; [reflexivity|].
  simpl. destruct (p x) eqn:Hx; simpl; [rewrite (Hpq x Hx)|]; auto.
Qed.

Lemma filter_length_split (l : list A) :
  (forall x, q x = negb (p x)) ->
  (length (List.filter p l) + length (List.filter q l) = length l)%nat.
Proof.
  intros Hq. induction l as [|x l IH]; [reflexivity|].
  simpl. rewrite Hq. destruct (p x); simpl; lia.
Qed.

End Filters.

Lemma In_firstn {A : Type} (x : A) (n : nat) (l : list A) :
  In x (firstn n l) -> In x l.
Proof.
  revert l. induction n as [|n IH]; intros [|y l]; simpl; try tauto.
  intros [->|Hx]; [left; reflexivity | right; apply IH, Hx].
Qed.

Lemma filter_high_partition (l : list article) :
  List.filter is_high (List.filter is_high l ++ List.filter not_high l)
  = List.filter is_high l.
Proof.
  rewrite List.filter_app, filter_idem, filter_disjoint, app_nil_r; auto.
  intros x. unfold not_high. destruct (is_high x); auto.
Qed.

Lemma filter_not_high_partition (l : list article) :
  List.filter not_high (List.filter is_high l ++ List.filter not_high l)
  = List.filter not_high l.
Proof.
  rewrite List.filter_app, filter_idem, filter_disjoint; auto.
  intros x. unfold not_high. intros ->. reflexivity.
Qed.

(** The bucket after the sort and the limit, by the number of high
    articles: the branch the code takes when the bucket is longer than
    the limit gives the same list when it is not. *)
Lemma apply_limit_sorted (limit : nat) (l : list article) :
  apply_limit limit (sort_by_key priority_key l)
  = if (limit <=? length (List.filter is_high l))%nat
    then firstn (limit + 2) (List.filter is_high l)
    else List.filter is_high l
         ++ firstn (limit - length (List.filter is_high l))
              (List.filter not_high l).
Proof.
  unfold apply_limit. rewrite sort_by_priority_partition.
  rewrite filter_high_partition, filter_not_high_partition.
  pose proof (filter_length_split is_high not_high l (fun x => eq_refl)) as Hlen.
  set (hs := List.filter is_high l) in *.
  set (ms := List.filter not_high l) in *.
  rewrite length_app.
  destruct (Nat.ltb_spec limit (length hs + length ms)) as [Hlong|Hshort];
    [reflexivity|].
  destruct (Nat.leb_spec limit (length hs)) as [Hmany|Hfew].
  - assert (length ms = 0)%nat as Hms by lia.
    destruct ms; [|discriminate Hms].
    rewrite app_nil_r, firstn_all2; [reflexivity | lia].
  - rewrite (firstn_all2 ms); [reflexivity | lia].
Qed.

(** Every bucket handed to the synthesis is a grouped bucket, sorted and
    then cut by the limit of its category. *)
Lemma select_categories_buckets (filtered_articles : list article) :
  select_categories filtered_articles
  = map (fun '(cat, l) =>
           (cat, apply_limit (dict_get category_limits cat 5%nat)
                   (sort_by_key priority_key l)))
      (group_by_category filtered_articles).
Proof.
  unfold select_categories, limit_categories, sort_categories.
  rewrite List.map_map. apply List.map_ext. intros [cat l]. reflexivity.
Qed.

(** C1. Quota bound. For a bucket sorted and cut by [limit]: it holds at
    most [limit + 2] articles; if it holds an article whose priority is
    not "high", it holds at most [limit]; with at least [limit] high
    articles it is the first [limit + 2] of them and nothing else;
    otherwise it is all high articles and then other articles up to
    [limit] in total. *)
Theorem quota_bound (limit : nat) (bucket : list article) :
  let kept := apply_limit limit (sort_by_key priority_key bucket) in
  let highs := List.filter is_high bucket in
  let others := List.filter not_high bucket in
  (length kept <= limit + 2)%nat
  /\ ((exists a, In a kept /\ is_high a = false) -> (length kept <= limit)%nat)
  /\ ((limit <= length highs)%nat -> kept = firstn (limit + 2) highs)
  /\ ((length highs < limit)%nat ->
      kept = highs ++ firstn (limit - length highs) others).
Proof.
  cbv zeta. rewrite apply_limit_sorted.
  pose proof (Forall_filter_high bucket) as HH.
  set (highs := List.filter is_high bucket) in *.
  set (others := List.filter not_high bucket) in *.
  destruct (Nat.leb_spec limit (length highs)) as [Hmany|Hfew].
  - repeat split.
    + rewrite length_firstn. lia.
    + intros (a & Ha & Hna). exfalso.
      apply In_firstn in Ha.
      rewrite List.Forall_forall in HH. specialize (HH a Ha). congruence.
    + lia.
  - repeat split.
    + rewrite length_app, length_firstn. lia.
    + intros _. rewrite length_app, length_firstn. lia.
    + intros Hle. lia.
Qed.

(** ** The calendar *)

Lemma shiftr5 (n : Z) : Z.shiftr n 5 = n / 32.
Proof. rewrite Z.shiftr_div_pow2 by lia. reflexivity. Qed.

Lemma is_leap_parts (n400 n100 n4 n1 : Z) :
  0 <= n400 -> 0 <= n100 <= 3 -> 0 <= n4 <= 24 -> 0 <= n1 <= 3 ->
  Datetime.is_leap (n400 * 400 + 1 + n100 * 100 + n4 * 4 + n1)
  = (n1 =? 3) && (negb (n4 =? 24) || (n100 =? 3)).
Proof.
  intros H400 H100 H4 H1. unfold Datetime.is_leap.
  set (y := n400 * 400 + 1 + n100 * 100 + n4 * 4 + n1).
  assert (y mod 4 = (n1 + 1) mod 4) as E4.
  { unfold y. replace (n400 * 400 + 1 + n100 * 100 + n4 * 4 + n1)
      with ((n1 + 1) + (n400 * 100 + n100 * 25 + n4) * 4) by lia.
    apply Z.mod_add. lia. }
  assert (y mod 100 = (n4 * 4 + n1 + 1) mod 100) as E100.
  { unfold y. replace (n400 * 400 + 1 + n100 * 100 + n4 * 4 + n1)
      with ((n4 * 4 + n1 + 1) + (n400 * 4 + n100) * 100) by lia.
    apply Z.mod_add. lia. }
  assert (y mod 400 = (n100 * 100 + n4 * 4 + n1 + 1) mod 400) as E400.
  { unfold y. replace (n400 * 400 + 1 + n100 * 100 + n4 * 4 + n1)
      with ((n100 * 100 + n4 * 4 + n1 + 1) + n400 * 400) by lia.
    apply Z.mod_add. lia. }
  rewrite E4, E100, E400.
  destruct (Z.eqb_spec n1 3) as [->|N1].
  - simpl. destruct (Z.eqb_spec n4 24) as [->|N4].
    + simpl. destruct (Z.eqb_spec n100 3) as [->|N100]; simpl.
      * reflexivity.
      * assert (n100 = 0 \/ n100 = 1 \/ n100 = 2) as [->|[->| ->]] by lia; reflexivity.
    + assert ((n4 * 4 + 3 + 1) mod 100 <> 0) as Hne.
      { intros Hm. apply Z.mod_divide in Hm; [|lia]. destruct Hm as [k Hk]. lia. }
      destruct (Z.eqb_spec ((n4 * 4 + 3 + 1) mod 100) 0); [contradiction|]. reflexivity.
  - assert ((n1 + 1) mod 4 <> 0) as Hne.
    { rewrite Z.mod_small by lia. lia. }
    destruct (Z.eqb_spec ((n1 + 1) mod 4) 0); [contradiction|]. reflexivity.
Qed.

Lemma month_day_spec (leapyear : bool) (n : Z) :
  0 <= n <= 364 ->
  1 <= (month_day leapyear n).1 <= 12
  /\ 1 <= (month_day leapyear n).2
  /\ (month_day leapyear n).2
     <= (if ((month_day leapyear n).1 =? 2) && leapyear then 29
         else Datetime.idx Datetime.DAYS_IN_MONTH (month_day leapyear n).1)
  /\ Datetime.idx Datetime.DAYS_BEFORE_MONTH (month_day leapyear n).1
     + (if (2 <? (month_day leapyear n).1) && leapyear then 1 else 0)
     + (month_day leapyear n).2 = n + 1.
Proof.
  intros Hn. unfold month_day. rewrite shiftr5.
  pose proof (Z.div_mod (n + 50) 32 ltac:(lia)) as Hdm.
  pose proof (Z.mod_pos_bound (n + 50) 32 ltac:(lia)) as Hmod.
  set (m := (n + 50) / 32) in *.
  assert (m = 1 \/ m = 2 \/ m = 3 \/ m = 4 \/ m = 5 \/ m = 6 \/ m = 7
          \/ m = 8 \/ m = 9 \/ m = 10 \/ m = 11 \/ m = 12) as Hm by lia.
  clearbody m.
  destruct leapyear;
    repeat (destruct Hm as [->|Hm]);
    try subst m; simpl;
    match goal with
    | |- context [n <? ?p] => destruct (Z.ltb_spec n p)
    end; simpl; eval_idx; lia.
Qed.

Lemma days_before_year_parts (n400 n100 n4 n1 : Z) :
  0 <= n400 -> 0 <= n100 <= 3 -> 0 <= n4 <= 24 -> 0 <= n1 <= 3 ->
  Datetime.days_before_year (n400 * 400 + 1 + n100 * 100 + n4 * 4 + n1)
  = n400 * 146097 + n100 * 36524 + n4 * 1461 + n1 * 365.
Proof.
  intros H400 H100 H4 H1. unfold Datetime.days_before_year.
  Z.div_mod_to_equations. lia.
Qed.

Lemma ord2ymd_spec (o : Z) :
  1 <= o <= Datetime.MAXORDINAL ->
  Datetime.check_date_fields (Datetime.ord2ymd o).1.1 (Datetime.ord2ymd o).1.2
    (Datetime.ord2ymd o).2 = true
  /\ Datetime.ymd2ord (Datetime.ord2ymd o).1.1 (Datetime.ord2ymd o).1.2
       (Datetime.ord2ymd o).2 = o.
Proof.
  intros Ho. unfold Datetime.MAXORDINAL in Ho.
  unfold Datetime.ord2ymd, Datetime.DI400Y, Datetime.DI100Y, Datetime.DI4Y.
  cbv zeta.
  pose proof (Z.div_mod (o - 1) 146097 ltac:(lia)) as E400.
  pose proof (Z.mod_pos_bound (o - 1) 146097 ltac:(lia)) as B400.
  set (q400 := (o - 1) / 146097) in *.
  set (r400 := (o - 1) mod 146097) in *.
  pose proof (Z.div_mod r400 36524 ltac:(lia)) as E100.
  pose proof (Z.mod_pos_bound r400 36524 ltac:(lia)) as B100.
  set (q100 := r400 / 36524) in *.
  set (r100 := r400 mod 36524) in *.
  pose proof (Z.div_mod r100 1461 ltac:(lia)) as E4.
  pose proof (Z.mod_pos_bound r100 1461 ltac:(lia)) as B4.
  set (q4 := r100 / 1461) in *.
  set (r4 := r100 mod 1461) in *.
  pose proof (Z.div_mod r4 365 ltac:(lia)) as E1.
  pose proof (Z.mod_pos_bound r4 365 ltac:(lia)) as B1.
  set (q1 := r4 / 365) in *.
  set (r1 := r4 mod 365) in *.
  clearbody q400 r400 q100 r100 q4 r4 q1 r1.
  assert (0 <= q400 <= 24) as Hq400 by lia.
  assert (0 <= q100 <= 4) as Hq100 by lia.
  assert (0 <= q4 <= 24) as Hq4 by lia.
  assert (0 <= q1 <= 4) as Hq1 by lia.
  destruct (Z.eqb_spec q1 4) as [Eq1|Nq1];
    [|destruct (Z.eqb_spec q100 4) as [Eq100|Nq100]]; cbn [orb fst snd].
  - (* the last day of a leap year *)
    assert (q100 <= 3 /\ q4 <= 23) as [Hq100' Hq4'] by lia.
    replace (q400 * 400 + 1 + q100 * 100 + q4 * 4 + q1 - 1)
      with (q400 * 400 + 1 + q100 * 100 + q4 * 4 + 3) by lia.
    unfold Datetime.check_date_fields, Datetime.ymd2ord,
      Datetime.days_in_month, Datetime.days_before_month.
    rewrite is_leap_parts, days_before_year_parts by lia.
    replace (q4 =? 24) with false by (symmetry; apply Z.eqb_neq; lia).
    simpl. eval_idx. split; [|lia].
    rewrite !andb_true_iff, !Z.leb_le. lia.
  - (* the last day of a 400-year cycle *)
    replace (q400 * 400 + 1 + q100 * 100 + q4 * 4 + q1 - 1)
      with (q400 * 400 + 1 + 3 * 100 + 24 * 4 + 3) by lia.
    unfold Datetime.check_date_fields, Datetime.ymd2ord,
      Datetime.days_in_month, Datetime.days_before_month.
    rewrite is_leap_parts, days_before_year_parts by lia.
    simpl. eval_idx. split; [|lia].
    rewrite !andb_true_iff, !Z.leb_le. lia.
  - (* any other day *)
    set (leapyear := (q1 =? 3) && (negb (q4 =? 24) || (q100 =? 3))).
    assert (0 <= r1 <= 364) as Hr1 by lia.
    pose proof (month_day_spec leapyear r1 Hr1) as (Hm & Hd1 & Hd2 & Hsum).
    set (y := q400 * 400 + 1 + q100 * 100 + q4 * 4 + q1).
    match goal with
    | |- context [if r1 <? ?p then (?a, ?b, ?c) else (?a', ?b', ?c')] =>
        assert ((if r1 <? p then (a, b, c) else (a', b', c'))
                = (y, (month_day leapyear r1).1, (month_day leapyear r1).2))
          as ->
    end.
    { unfold month_day.
      match goal with
      | |- context [r1 <? ?p] => destruct (r1 <? p)
      end; reflexivity. }
    cbn [fst snd].
    unfold Datetime.check_date_fields, Datetime.ymd2ord,
      Datetime.days_in_month, Datetime.days_before_month.
    unfold y. rewrite is_leap_parts, days_before_year_parts by lia.
    fold leapyear. split; [|lia].
    rewrite !andb_true_iff, !Z.leb_le. lia.
Qed.

Lemma days_before_month_le (y m d : Z) :
  1 <= m <= 12 -> 1 <= d <= Datetime.days_in_month y m ->
  1 <= Datetime.days_before_month y m + d <= 366.
Proof.
  intros Hm Hd. unfold Datetime.days_before_month, Datetime.days_in_month in *.
  assert (m = 1 \/ m = 2 \/ m = 3 \/ m = 4 \/ m = 5 \/ m = 6 \/ m = 7
          \/ m = 8 \/ m = 9 \/ m = 10 \/ m = 11 \/ m = 12) as Hcases by lia.
  destruct (Datetime.is_leap y);
    repeat (destruct Hcases as [->|Hcases]); try subst m;
    simpl in *; eval_idx; lia.
Qed.

(** The ordinal of a valid date is in the range of [ord2ymd]. *)
Lemma toordinal_range (t : datetime) :
  Datetime.valid t = true ->
  1 <= Datetime.toordinal t <= Datetime.MAXORDINAL + 1.
Proof.
  unfold Datetime.valid, Datetime.check_date_fields.
  rewrite !andb_true_iff, !Z.leb_le. intros [(((((Hy1 & Hy2) & Hm1) & Hm2) & Hd1) & Hd2) _].
  pose proof (days_before_month_le (year t) (month t) (day t)
                ltac:(lia) ltac:(lia)) as Hdm.
  unfold Datetime.toordinal, Datetime.ymd2ord, Datetime.MAXORDINAL.
  unfold Datetime.days_before_year. Z.div_mod_to_equations. lia.
Qed.

(** [t - timedelta(days=n)] is the day [n] days before, at the same time
    of day; it is defined whenever that day is in the calendar. *)
Lemma sub_days_spec (t : datetime) (n : Z) :
  0 < Datetime.toordinal t - n <= Datetime.MAXORDINAL ->
  exists c,
    Datetime.sub_days t n = Some c
    /\ Datetime.toordinal c = Datetime.toordinal t - n
    /\ hour c = hour t /\ minute c = minute t /\ second c = second t
    /\ microsecond c = microsecond t.
Proof.
  intros Ho. unfold Datetime.sub_days.
  destruct (ord2ymd_spec (Datetime.toordinal t - n) ltac:(lia)) as [Hv Hord].
  replace ((0 <? Datetime.toordinal t - n)
           && (Datetime.toordinal t - n <=? Datetime.MAXORDINAL)) with true
    by (symmetry; apply andb_true_iff; rewrite Z.ltb_lt, Z.leb_le; lia).
  destruct (Datetime.ord2ymd (Datetime.toordinal t - n)) as [[y m] d].
  simpl in Hv, Hord. rewrite Hv. eexists. split; [reflexivity|].
  unfold Datetime.toordinal. simpl. auto.
Qed.

(** ** Timestamps as text *)

Lemma string_compare_cons (c : ascii) (s t : string) :
  String.compare (String c s) (String c t) = String.compare s t.
Proof.
  simpl. unfold Ascii.compare. rewrite N.compare_refl. reflexivity.
Qed.

Lemma digit_code (x : Z) :
  0 <= x <= 9 -> N_of_ascii (Datetime.digit x) = Z.to_N (48 + x).
Proof.
  intros Hx.
  assert (x = 0 \/ x = 1 \/ x = 2 \/ x = 3 \/ x = 4 \/ x = 5 \/ x = 6
          \/ x = 7 \/ x = 8 \/ x = 9) as Hcases by lia.
  repeat (destruct Hcases as [->|Hcases]; [reflexivity|]).
  subst x. reflexivity.
Qed.

Lemma digit_compare (x y : Z) :
  0 <= x <= 9 -> 0 <= y <= 9 ->
  Ascii.compare (Datetime.digit x) (Datetime.digit y) = (x ?= y).
Proof.
  intros Hx Hy. unfold Ascii.compare.
  rewrite (digit_code x Hx), (digit_code y Hy).
  rewrite (Z2N.inj_compare (48 + x) (48 + y)) by lia.
  apply Z.add_compare_mono_l.
Qed.

(** Comparing two numbers through their last digit and the rest. *)
Lemma compare_by_last_digit (a b : Z) (c : comparison) :
  match a / 10 ?= b / 10 with
  | Eq => match a mod 10 ?= b mod 10 with Eq => c | r => r end
  | r => r
  end
  = match a ?= b with Eq => c | r => r end.
Proof.
  pose proof (Z.div_mod a 10 ltac:(lia)) as Ha.
  pose proof (Z.div_mod b 10 ltac:(lia)) as Hb.
  pose proof (Z.mod_pos_bound a 10 ltac:(lia)) as Ha'.
  pose proof (Z.mod_pos_bound b 10 ltac:(lia)) as Hb'.
  destruct (Z.compare_spec (a / 10) (b / 10)) as [Hq|Hq|Hq];
    destruct (Z.compare_spec (a mod 10) (b mod 10)) as [Hr|Hr|Hr];
    destruct (Z.compare_spec a b) as [Hab|Hab|Hab];
    try reflexivity; exfalso; lia.
Qed.

(** Texts of [w] digits compare as the numbers they write. *)
Lemma zpad_go_compare (w : nat) :
  forall (a b : Z) (s t : string),
    0 <= a < 10 ^ Z.of_nat w -> 0 <= b < 10 ^ Z.of_nat w ->
    String.compare (Datetime.zpad_go w a s) (Datetime.zpad_go w b t)
    = match a ?= b with Eq => String.compare s t | r => r end.
Proof.
  induction w as [|w IH]; intros a b s t Ha Hb.
  - simpl in *. assert (a = 0) as -> by lia. assert (b = 0) as -> by lia.
    reflexivity.
  - rewrite Nat2Z.inj_succ, Z.pow_succ_r in Ha, Hb by lia.
    simpl Datetime.zpad_go.
    rewrite IH by (split; [apply Z.div_pos | apply Z.div_lt_upper_bound]; lia).
    cbn [String.compare].
    rewrite digit_compare by (pose proof (Z.mod_pos_bound a 10);
                              pose proof (Z.mod_pos_bound b 10); lia).
    apply compare_by_last_digit.
Qed.

Lemma append_cons (c : ascii) (s t : string) :
  String c s +:+ t = String c (s +:+ t).
Proof. reflexivity. Qed.

Lemma append_nil_l (t : string) : "" +:+ t = t.
Proof. reflexivity. Qed.

Lemma append_nil_r (s : string) : s +:+ "" = s.
Proof. induction s as [|c s IH]; [reflexivity|]. rewrite append_cons, IH. reflexivity. Qed.

Lemma append_assoc (s t u : string) : (s +:+ t) +:+ u = s +:+ (t +:+ u).
Proof.
  induction s as [|c s IH]; [reflexivity|].
  rewrite !append_cons, IH. reflexivity.
Qed.

Lemma zpad_go_app (w : nat) :
  forall (n : Z) (acc : string),
    Datetime.zpad_go w n acc = Datetime.zpad_go w n "" +:+ acc.
Proof.
  induction w as [|w IH]; intros n acc; [reflexivity|].
  simpl. rewrite (IH _ (String _ acc)), (IH _ (String _ "")).
  rewrite append_assoc. reflexivity.
Qed.

(** [isoformat] written from the right, each field in front of the rest. *)
Lemma isoformat_nested (t : datetime) :
  Datetime.isoformat t
  = Datetime.zpad_go 4 (year t) (String "-"
      (Datetime.zpad_go 2 (month t) (String "-"
        (Datetime.zpad_go 2 (day t) (String "T"
          (Datetime.zpad_go 2 (hour t) (String ":"
            (Datetime.zpad_go 2 (minute t) (String ":"
              (Datetime.zpad_go 2 (second t) (usec_suffix t))))))))))).
Proof.
  rewrite !(zpad_go_app _ _ (String _ _)).
  rewrite (zpad_go_app 2 (second t) (usec_suffix t)).
  unfold Datetime.isoformat, Datetime.zpad, usec_suffix.
  destruct (microsecond t =? 0); reflexivity.
Qed.

Lemma days_in_month_le (y m : Z) : Datetime.days_in_month y m <= 31.
Proof.
  unfold Datetime.days_in_month.
  destruct ((m =? 2) && Datetime.is_leap y); [lia|].
  unfold Datetime.idx, Datetime.DAYS_IN_MONTH.
  destruct (Z.to_nat m) as [|[|[|[|[|[|[|[|[|[|[|[|[|[|k]]]]]]]]]]]]]];
    simpl; lia.
Qed.

Lemma valid_bounds (t : datetime) :
  Datetime.valid t = true ->
  (1 <= year t <= 9999) /\ (1 <= month t <= 12) /\ (1 <= day t <= 31)
  /\ (0 <= hour t <= 23) /\ (0 <= minute t <= 59) /\ (0 <= second t <= 59)
  /\ (0 <= microsecond t <= 999999).
Proof.
  unfold Datetime.valid, Datetime.check_date_fields, Datetime.check_time_fields.
  rewrite !andb_true_iff, !Z.leb_le.
  pose proof (days_in_month_le (year t) (month t)). lia.
Qed.

Lemma usec_suffix_compare (a b : datetime) :
  0 <= microsecond a <= 999999 -> 0 <= microsecond b <= 999999 ->
  String.compare (usec_suffix a) (usec_suffix b)
  = (microsecond a ?= microsecond b).
Proof.
  intros Ha Hb. unfold usec_suffix.
  destruct (Z.eqb_spec (microsecond a) 0) as [Ea|Na];
    destruct (Z.eqb_spec (microsecond b) 0) as [Eb|Nb].
  - rewrite Ea, Eb. reflexivity.
  - rewrite Ea. symmetry. apply Z.compare_lt_iff. lia.
  - rewrite Eb. symmetry. apply Z.compare_gt_iff. lia.
  - rewrite string_compare_cons, zpad_go_compare by (simpl; lia).
    destruct (microsecond a ?= microsecond b); reflexivity.
Qed.

(** The texts of two valid naive times compare, code point by code
    point, as the times do. *)
Lemma isoformat_compare (a b : datetime) :
  Datetime.valid a = true -> Datetime.valid b = true ->
  String.compare (Datetime.isoformat a) (Datetime.isoformat b)
  = Datetime.compare a b.
Proof.
  intros Ha Hb.
  apply valid_bounds in Ha. apply valid_bounds in Hb.
  rewrite !isoformat_nested. unfold Datetime.compare.
  repeat (rewrite zpad_go_compare by (simpl; lia);
          rewrite ?string_compare_cons).
  rewrite usec_suffix_compare by lia.
  reflexivity.
Qed.

(** ** The store of seen articles *)

(** An entry of the loaded mapping was in the file, as a string above the
    cutoff. *)
Lemma load_seen_lookup_Some (f : seen_file) (now : datetime) (k v : string) :
  load_seen_articles f now !! k = Some v ->
  exists data c,
    f = FileJson (JObj data)
    /\ Datetime.sub_days now SEEN_RETENTION_DAYS = Some c
    /\ data !! k = Some (JStr v)
    /\ String.ltb (Datetime.isoformat c) v = true.
Proof.
  unfold load_seen_articles.
  destruct f as [| |[]]; try (rewrite lookup_empty; discriminate).
  destruct (Datetime.sub_days now SEEN_RETENTION_DAYS) as [c|];
    [|rewrite lookup_empty; discriminate].
  destruct (forallb _ _); [|rewrite lookup_empty; discriminate].
  rewrite lookup_omap. intros Hk. exists fields, c.
  destruct (fields !! k) as [[]|]; simpl in Hk; try discriminate.
  destruct (String.ltb (Datetime.isoformat c) s) eqn:Hlt; [|discriminate].
  injection Hk as ->. auto.
Qed.

(** Loading what [save_seen_articles] wrote keeps exactly the entries
    above the cutoff. *)
Lemma load_saved_lookup (m : gmap string string) (now c : datetime) (k : string) :
  Datetime.sub_days now SEEN_RETENTION_DAYS = Some c ->
  load_seen_articles (save_seen_articles m) now !! k
  = m !! k ≫= (fun v => if String.ltb (Datetime.isoformat c) v
                         then Some v else None).
Proof.
  intros Hc. unfold load_seen_articles, save_seen_articles. rewrite Hc.
  assert (forallb
            (fun kv : string * jvalue =>
               bool_decide (is_Some (gt_cutoff kv.2 (Datetime.isoformat c))))
            (map_to_list (JStr <$> m)) = true) as ->.
  { apply forallb_forall. intros [k' v'] Hin.
    apply list_elem_of_In, elem_of_map_to_list in Hin.
    rewrite lookup_fmap in Hin.
    destruct (m !! k') as [s|]; simpl in Hin; [|discriminate].
    injection Hin as <-. apply bool_decide_eq_true. simpl. eauto. }
  rewrite lookup_omap, lookup_fmap.
  destruct (m !! k) as [s|]; reflexivity.
Qed.

Lemma sub_days_valid (now c : datetime) (n : Z) :
  Datetime.valid now = true -> Datetime.sub_days now n = Some c ->
  Datetime.valid c = true.
Proof.
  intros Hnow Hc. unfold Datetime.sub_days in Hc.
  destruct (_ && _); [|discriminate].
  destruct (Datetime.ord2ymd _) as [[y mo] d].
  destruct (Datetime.check_date_fields y mo d) eqn:Hd; [|discriminate].
  injection Hc as <-. unfold Datetime.valid in *. simpl.
  rewrite Hd. apply andb_true_iff in Hnow. tauto.
Qed.

Lemma compare_flip (a b : datetime) (r : comparison) :
  Datetime.valid a = true -> Datetime.valid b = true ->
  Datetime.compare a b = r -> Datetime.compare b a = CompOpp r.
Proof.
  intros Ha Hb <-.
  rewrite <- (isoformat_compare b a Hb Ha), <- (isoformat_compare a b Ha Hb).
  apply String.compare_antisym.
Qed.

(** C8. Expiry on load. For a clock [now] past the first week of the
    calendar, the cutoff [now] minus the seven days of retention exists:
    it is the same time of day seven days earlier. Let [t] be a time. If
    [t] is before the cutoff: whatever is in the file, no entry of the
    loaded mapping has the timestamp [t], and an entry of the file with
    that timestamp is absent after the load. If [t] is after the cutoff:
    every entry of a saved mapping with the timestamp [t] is loaded. *)
Theorem seen_expiry (now t : datetime) :
  Datetime.valid now = true ->
  Datetime.valid t = true ->
  SEEN_RETENTION_DAYS < Datetime.toordinal now ->
  exists cutoff : datetime,
    Datetime.sub_days now SEEN_RETENTION_DAYS = Some cutoff
    /\ Datetime.toordinal cutoff = Datetime.toordinal now - 7
    /\ (hour cutoff, minute cutoff, second cutoff, microsecond cutoff)
       = (hour now, minute now, second now, microsecond now)
    /\ (Datetime.compare t cutoff = Lt ->
        (forall (f : seen_file) (k : string),
           load_seen_articles f now !! k <> Some (Datetime.isoformat t))
        /\ (forall (data : gmap string jvalue) (k : string),
              data !! k = Some (JStr (Datetime.isoformat t)) ->
              load_seen_articles (FileJson (JObj data)) now !! k = None))
    /\ (Datetime.compare t cutoff = Gt ->
        forall (m : gmap string string) (k : string),
          m !! k = Some (Datetime.isoformat t) ->
          load_seen_articles (save_seen_articles m) now !! k
          = Some (Datetime.isoformat t)).
Proof.
  intros Hnow Ht Hweek.
  pose proof (toordinal_range now Hnow) as Hrange.
  destruct (sub_days_spec now SEEN_RETENTION_DAYS) as
    (cutoff & Hcut & Hord & Hh & Hmi & Hs & Hus).
  { unfold SEEN_RETENTION_DAYS in *. lia. }
  exists cutoff. split; [exact Hcut|]. split; [exact Hord|].
  split; [rewrite Hh, Hmi, Hs, Hus; reflexivity|].
  pose proof (sub_days_valid now cutoff _ Hnow Hcut) as Hc.
  pose proof (isoformat_compare cutoff t Hc Ht) as Hcmp.
  assert (Datetime.compare t cutoff = Lt ->
          forall (f : seen_file) (k : string),
            load_seen_articles f now !! k <> Some (Datetime.isoformat t))
    as Hold.
  { intros Hlt f k Hk.
    apply load_seen_lookup_Some in Hk as (data & c & _ & Hc' & _ & Hgt).
    rewrite Hcut in Hc'. injection Hc' as <-.
    unfold String.ltb in Hgt.
    rewrite Hcmp, (compare_flip t cutoff Lt Ht Hc Hlt) in Hgt.
    discriminate. }
  split.
  - intros Hlt. split; [exact (Hold Hlt)|].
    intros data k Hk.
    destruct (load_seen_articles (FileJson (JObj data)) now !! k) as [v|] eqn:Hv;
      [|reflexivity].
    exfalso. pose proof Hv as Hv'.
    apply load_seen_lookup_Some in Hv' as (data' & c & Hf & _ & Hd & _).
    injection Hf as <-. rewrite Hk in Hd. injection Hd as <-.
    exact (Hold Hlt _ _ Hv).
  - intros Hgt m k Hk.
    rewrite (load_saved_lookup m now cutoff k Hcut), Hk. simpl.
    unfold String.ltb.
    rewrite Hcmp, (compare_flip t cutoff Gt Ht Hc Hgt). reflexivity.
Qed.

Lemma seen_expiry_witness :
  let now := mk_datetime 2026 11 4 12 0 0 0 in
  let old := mk_datetime 2026 10 25 12 0 0 0 in
  load_seen_articles
    (FileJson (JObj {[ "0cc175b9c0f1b6a831c399e269772661"
                       := JStr (Datetime.isoformat old) ]})) now
  !! "0cc175b9c0f1b6a831c399e269772661" = None.
Proof.
  intros now old.
  destruct (seen_expiry now old eq_refl eq_refl eq_refl)
    as (cutoff & Hcut & _ & _ & Hold & _).
  vm_compute in Hcut. injection Hcut as <-.
  apply (proj2 (Hold eq_refl)), lookup_singleton_eq.
Defined.

(** ** Marking and the second run *)

Lemma mark_as_seen_cons (seen : gmap string string) (a : article)
    (rest : list article) (now : datetime) :
  mark_as_seen seen (a :: rest) now
  = mark_as_seen (<[get_article_hash a := Datetime.isoformat now]> seen) rest now.
Proof. reflexivity. Qed.

(** A key that holds the timestamp of the run keeps it to the end of the
    loop. *)
Lemma mark_as_seen_keeps_now (articles : list article) :
  forall (seen : gmap string string) (now : datetime) (k : string),
    seen !! k = Some (Datetime.isoformat now) ->
    mark_as_seen seen articles now !! k = Some (Datetime.isoformat now).
Proof.
  induction articles as [|a rest IH]; intros seen now k Hk; [exact Hk|].
  rewrite mark_as_seen_cons. apply IH.
  destruct (decide (get_article_hash a = k)) as [->|Hne].
  - apply lookup_insert_eq.
  - rewrite lookup_insert_ne by exact Hne. exact Hk.
Qed.

(** Every marked article has the timestamp of the run, whatever the
    mapping held for it before. *)
Lemma mark_as_seen_marked (articles : list article) :
  forall (seen : gmap string string) (now : datetime) (a : article),
    In a articles ->
    mark_as_seen seen articles now !! get_article_hash a
    = Some (Datetime.isoformat now).
Proof.
  induction articles as [|x rest IH]; intros seen now a Ha; [destruct Ha|].
  rewrite mark_as_seen_cons. destruct Ha as [->|Ha].
  - apply mark_as_seen_keeps_now, lookup_insert_eq.
  - apply IH, Ha.
Qed.

(** The other keys are as they were. *)
Lemma mark_as_seen_other (articles : list article) :
  forall (seen : gmap string string) (now : datetime) (k : string),
    (forall a, In a articles -> get_article_hash a <> k) ->
    mark_as_seen seen articles now !! k = seen !! k.
Proof.
  induction articles as [|x rest IH]; intros seen now k Hk; [reflexivity|].
  rewrite mark_as_seen_cons, IH.
  - apply lookup_insert_ne, Hk. left. reflexivity.
  - intros a Ha. apply Hk. right. exact Ha.
Qed.


Section SecondRun.

Variables seen seen' : gmap string string.
Variables cutoff cutoff' : Z.
Hypothesis seen_grows : forall k, is_Some (seen !! k) -> is_Some (seen' !! k).
Hypothesis cutoff_grows : cutoff <= cutoff'.




End SecondRun.




(** The first fetch of the sample feeds: tags stripped, blanks joined,
    the feed that fails passed over. *)
Example sample_fetch :
  map (fun a => (source a, category a, title a, content a, date a))
    (fetch_feeds sample_web ∅ sample_now_utc)
  = [ ("Variety", "entertainment", "Studio buys studio", "A deal.",
       Some "2025-11-04T09:53:20+00:00");
      ("Variety", "entertainment", "Strike vote set", "Vote soon", None);
      ("NYT", "newspaper", "Budget passes", "It passed.",
       Some "2025-11-04T10:10:00+00:00") ].
Proof. vm_compute. reflexivity. Qed.



(** The condition of C3 on the timestamps that the first run loaded is
    needed too. The file holds the
    fingerprint of the undated Variety entry with a timestamp that the
    first run, at 04:00, still keeps; the first run marks the two other
    articles. Two hours later the load drops that entry, and the second
    run fetches the article again. *)
Example expired_entry_is_fetched_again :
  let now1 := mk_datetime 2025 11 4 4 0 0 0 in
  let now2 := mk_datetime 2025 11 4 6 0 0 0 in
  let seen1 := load_seen_articles (save_seen_articles aging_seen) now1 in
  let fetched1 := fetch_feeds sample_web seen1 sample_now_utc in
  let saved := save_seen_articles (mark_as_seen seen1 fetched1 now1) in
  map title fetched1 = ["Studio buys studio"; "Budget passes"]
  /\ map title
       (fetch_feeds sample_web (load_seen_articles saved now2)
          (sample_now_utc + 7200000000))
     = ["Strike vote set"].
Proof. vm_compute. split; reflexivity. Qed.

(** ** Classification fails open *)

Lemma filter_default_fields :
  obj_get filter_default "include" JNull = Some (JBool true)
  /\ obj_get filter_default "priority" (JStr "medium") = Some (JStr "medium")
  /\ obj_get filter_default "reason" (JStr "")
     = Some (JStr "Error - included by default").
Proof. repeat split; vm_compute; reflexivity. Qed.

Section FailOpen.

Context {St : Type}.
Variable create : request -> St -> option (list block) * St.
Variable json_loads : string -> option jvalue.
Variable filter_prompt_text : string -> string.

Lemma filter_article_fails (a : article) (s : St) :
  filter_fails create json_loads filter_prompt_text a s ->
  filter_article create json_loads filter_prompt_text a s
  = (filter_default, (create (filter_request filter_prompt_text a) s).2).
Proof.
  unfold filter_fails, filter_article.
  destruct (create (filter_request filter_prompt_text a) s) as [[blocks|] s'];
    simpl; [|reflexivity].
  intros ->. reflexivity.
Qed.

Lemma classify_fails (a : article) (s : St) :
  filter_fails create json_loads filter_prompt_text a s ->
  classify create json_loads filter_prompt_text a s
  = (Some (fail_open a, true),
     (create (filter_request filter_prompt_text a) s).2).
Proof.
  intros Hf. unfold classify. rewrite (filter_article_fails a s Hf).
  destruct filter_default_fields as (-> & -> & ->). reflexivity.
Qed.

Lemma filter_loop_fails (articles : list article) :
  forall s : St,
    (forall a s', In a articles ->
                  filter_fails create json_loads filter_prompt_text a s') ->
    (filter_loop create json_loads filter_prompt_text articles s).1
    = (map EvFilter articles,
       Some (map fail_open articles, map fail_open articles)).
Proof.
  induction articles as [|a rest IH]; intros s Hf; [reflexivity|].
  simpl. rewrite (classify_fails a s) by (apply Hf; left; reflexivity).
  specialize (IH (create (filter_request filter_prompt_text a) s).2
                (fun b s' Hb => Hf b s' (or_intror Hb))).
  destruct (filter_loop _ _ _ rest _) as [[evs r] s''].
  simpl in IH. injection IH as -> ->. reflexivity.
Qed.

End FailOpen.

(** C5. Fail-open classification. When the classification of every
    article of a list fails (the call raises, or its response does not
    parse), [filter_article] answers each with the dict of inclusion by
    default (include, priority "medium", reason "Error - included by
    default"), and the filtering loop runs to its end: it calls the
    classifier once per article and accepts every article, with priority
    "medium" and that reason. A run of [main] that fetched these
    articles does not raise. *)
Theorem fail_open_classification {St : Type}
    (create : request -> St -> option (list block) * St)
    (json_loads : string -> option jvalue)
    (filter_prompt_text : string -> string)
    (articles : list article) (s : St) :
  (forall a s', In a articles ->
                filter_fails create json_loads filter_prompt_text a s') ->
  (forall a s', In a articles ->
     (filter_article create json_loads filter_prompt_text a s').1
     = JObj (list_to_map
               [ ("include", JBool true); ("priority", JStr "medium");
                 ("reason", JStr "Error - included by default") ]))
  /\ (filter_loop create json_loads filter_prompt_text articles s).1
     = (map EvFilter articles,
        Some (map fail_open articles, map fail_open articles))
  /\ Forall (fun a => priority a = Some (JStr "medium"))
       (map fail_open articles)
  /\ (forall (HEADLINES_PROMPT : string) (w : world),
        fetch_feeds (web w)
          (load_seen_articles (seen_on_disk w) (now_load w)) (now_utc w)
        = articles ->
        status (main create json_loads filter_prompt_text HEADLINES_PROMPT
                  w s).1 <> Raised).
Proof.
  intros Hf. split; [|split; [|split]].
  - intros a s' Ha. rewrite filter_article_fails by (apply Hf, Ha). reflexivity.
  - apply filter_loop_fails, Hf.
  - apply List.Forall_forall. intros a Ha.
    apply in_map_iff in Ha as (b & <- & _). reflexivity.
  - intros hp w Hfetch. unfold main. rewrite Hfetch.
    destruct (api_key w) as [[|c key]|]; try discriminate.
    destruct articles as [|a l] eqn:Harts; [discriminate|].
    rewrite <- Harts in *.
    pose proof (filter_loop_fails create json_loads filter_prompt_text
                  articles s Hf) as Hloop.
    destruct (filter_loop create json_loads filter_prompt_text articles s)
      as [[evs r] s1].
    simpl in Hloop. injection Hloop as -> ->.
    destruct (map fail_open articles); [discriminate|].
    destruct (generate_sardonic_headlines _ _ _ _) as [headlines s2].
    destruct (synthesize_digest _ _ _) as [digest s3].
    destruct (PyStr.truthy digest); discriminate.
Qed.

Lemma fail_open_classification_witness :
  (filter_loop flaky_create sample_json_loads (fun k => k)
     (fetch_feeds sample_web ∅ sample_now_utc) 0%nat).1
  = (map EvFilter (fetch_feeds sample_web ∅ sample_now_utc),
     Some (map fail_open (fetch_feeds sample_web ∅ sample_now_utc),
           map fail_open (fetch_feeds sample_web ∅ sample_now_utc))).
Proof.
  refine (proj1 (proj2 (fail_open_classification flaky_create
                          sample_json_loads (fun k => k) _ 0%nat _))).
  intros a n _. unfold filter_fails, flaky_create. simpl.
  destruct (Nat.even n); [exact I | reflexivity].
Defined.

(** ** Grouping by category *)

Lemma bucket_append_fresh (cat : string) (a : article)
    (categories : list (string * list article)) :
  ~ In cat (map fst categories) -> bucket_append cat a categories = categories.
Proof.
  induction categories as [|[k l] rest IH]; intros Hcat; [reflexivity|].
  simpl in *. destruct (String.eqb_spec k cat) as [->|Hne]; [tauto|].
  rewrite IH by tauto. reflexivity.
Qed.

(** On a dict, appending to one value changes that value only. *)
Lemma bucket_append_map (cat : string) (a : article)
    (categories : list (string * list article)) :
  List.NoDup (map fst categories) ->
  bucket_append cat a categories
  = map (fun '(k, l) => (k, if String.eqb k cat then l ++ [a] else l))
      categories.
Proof.
  induction categories as [|[k l] rest IH]; intros Hnd; [reflexivity|].
  simpl in *. apply List.NoDup_cons_iff in Hnd as [Hk Hnd].
  destruct (String.eqb_spec k cat) as [->|Hne].
  - f_equal. rewrite <- (bucket_append_fresh cat a rest Hk) at 1.
    apply IH, Hnd.
  - f_equal. apply IH, Hnd.
Qed.

Lemma NoDup_CATEGORY_KEYS : List.NoDup CATEGORY_KEYS.
Proof.
  unfold CATEGORY_KEYS.
  repeat (apply List.NoDup_cons;
          [simpl; intros H; repeat (destruct H as [H|H]; [discriminate H|]);
           exact H|]).
  apply List.NoDup_nil.
Qed.

(** The buckets after the grouping loop, from any starting values. *)
Lemma group_fold (filtered : list article) :
  forall start : string -> list article,
    fold_left
      (fun categories a => bucket_append (synth_category a) a categories)
      filtered (map (fun k => (k, start k)) CATEGORY_KEYS)
    = map (fun k => (k, start k ++ filed_under k filtered)) CATEGORY_KEYS.
Proof.
  induction filtered as [|a rest IH]; intros start.
  - cbn [fold_left]. apply List.map_ext. intros k.
    unfold filed_under. cbn [List.filter]. rewrite app_nil_r. reflexivity.
  - cbn [fold_left]. rewrite bucket_append_map.
    + rewrite List.map_map. cbn beta iota.
      rewrite (IH (fun k => if String.eqb k (synth_category a)
                            then start k ++ [a] else start k)).
      apply List.map_ext. intros k. unfold filed_under. cbn [List.filter].
      destruct (String.eqb k (synth_category a)); [|reflexivity].
      rewrite <- app_assoc. reflexivity.
    + rewrite List.map_map. cbn [fst]. rewrite List.map_id.
      apply NoDup_CATEGORY_KEYS.
Qed.

(** Each bucket holds, in the order of acceptance, the articles whose
    source maps to its category. *)
Lemma group_by_category_spec (filtered : list article) :
  group_by_category filtered
  = map (fun k => (k, filed_under k filtered)) CATEGORY_KEYS.
Proof.
  unfold group_by_category, empty_categories.
  rewrite (group_fold filtered (fun _ => [])). reflexivity.
Qed.

Lemma select_categories_spec (filtered : list article) :
  select_categories filtered
  = map (fun k => (k, selected k filtered)) CATEGORY_KEYS.
Proof.
  rewrite select_categories_buckets, group_by_category_spec, List.map_map.
  reflexivity.
Qed.

Lemma apply_limit_nil (limit : nat) : apply_limit limit [] = [].
Proof. reflexivity. Qed.

Lemma selected_nil (cat : string) (filtered : list article) :
  (forall a, In a filtered -> synth_category a <> cat) ->
  selected cat filtered = [].
Proof.
  intros Hnone. unfold selected.
  assert (filed_under cat filtered = []) as ->; [|reflexivity].
  unfold filed_under. induction filtered as [|a rest IH]; [reflexivity|].
  simpl. destruct (String.eqb_spec cat (synth_category a)) as [Heq|_].
  - exfalso. apply (Hnone a); [left; reflexivity | congruence].
  - apply IH. intros b Hb. apply Hnone. right. exact Hb.
Qed.

(** ** Blank texts *)

Lemma has_nonspace_rev_app (s : string) :
  forall t, has_nonspace (String.rev_app s t) = has_nonspace s || has_nonspace t.
Proof.
  induction s as [|c s IH]; intros t; [reflexivity|].
  simpl. rewrite IH. simpl.
  destruct (PyStr.isspace c), (has_nonspace s), (has_nonspace t); reflexivity.
Qed.

Lemma has_nonspace_rev (s : string) :
  has_nonspace (String.rev s) = has_nonspace s.
Proof.
  unfold String.rev. rewrite has_nonspace_rev_app. simpl.
  apply orb_false_r.
Qed.

Lemma has_nonspace_lstrip (s : string) :
  has_nonspace (PyStr.lstrip s) = has_nonspace s.
Proof.
  induction s as [|c s IH]; [reflexivity|].
  simpl. destruct (PyStr.isspace c) eqn:Hc; simpl; [exact IH|].
  rewrite Hc. reflexivity.
Qed.

Lemma lstrip_truthy (s : string) :
  PyStr.truthy (PyStr.lstrip s) = has_nonspace s.
Proof.
  induction s as [|c s IH]; [reflexivity|].
  simpl. destruct (PyStr.isspace c); simpl; [exact IH | reflexivity].
Qed.

Lemma truthy_rev (s : string) : PyStr.truthy (String.rev s) = PyStr.truthy s.
Proof.
  destruct s as [|c s]; [reflexivity|].
  unfold String.rev. simpl.
  assert (forall u t, PyStr.truthy t = true ->
                      PyStr.truthy (String.rev_app u t) = true) as Hrev.
  { induction u as [|d u IH]; intros t Ht; [exact Ht|]. apply IH. reflexivity. }
  apply Hrev. reflexivity.
Qed.

(** [s.strip()] is empty exactly when [s] is whitespace only. *)
Lemma strip_truthy (s : string) :
  PyStr.truthy (PyStr.strip s) = has_nonspace s.
Proof.
  unfold PyStr.strip, PyStr.rstrip.
  rewrite truthy_rev, lstrip_truthy, has_nonspace_rev, has_nonspace_lstrip.
  reflexivity.
Qed.

Lemma fallback_not_blank (articles : list article) :
  articles <> [] -> PyStr.truthy (PyStr.strip (fallback articles)) = true.
Proof.
  intros Hne. rewrite strip_truthy.
  destruct articles as [|a rest]; [contradiction|].
  unfold fallback. simpl map.
  assert (exists r, PyStr.join (PyStr.LF +:+ PyStr.LF)
                      (fallback_entry a :: map fallback_entry rest)
                    = String "*" r) as [r ->].
  { destruct (map fallback_entry rest); cbn [PyStr.join];
      unfold fallback_entry; rewrite !append_cons; eauto. }
  reflexivity.
Qed.

(** ** The loop over the categories *)

Section SummarizeAll.

Context {St : Type}.
Variable create : request -> St -> option (list block) * St.

Lemma summarize_category_body (cat : string) (articles : list article) (s : St) :
  (summarize_category create cat articles s).1
  = body_of_response articles (create (synthesis_request cat articles) s).1.
Proof.
  unfold summarize_category, body_of_response.
  destruct (create (synthesis_request cat articles) s) as [[blocks|] s'];
    [|reflexivity].
  simpl. destruct (first_text blocks); reflexivity.
Qed.

(** The service does not see the dict of summaries. *)
Lemma summarize_all_state (categories : list (string * list article)) :
  forall (acc acc' : gmap string string) (s : St),
    (summarize_all create categories acc s).2
    = (summarize_all create categories acc' s).2.
Proof.
  induction categories as [|[cat [|a l]] rest IH]; intros acc acc' s; simpl;
    [reflexivity | apply IH |].
  destruct (summarize_category create cat (a :: l) s) as [body s'].
  apply IH.
Qed.

Lemma summarize_all_app (pre post : list (string * list article)) :
  forall (acc : gmap string string) (s : St),
    summarize_all create (pre ++ post) acc s
    = summarize_all create post
        (summarize_all create pre acc s).1 (summarize_all create pre acc s).2.
Proof.
  induction pre as [|[cat [|a l]] rest IH]; intros acc s; simpl;
    [reflexivity | apply IH |].
  destruct (summarize_category create cat (a :: l) s) as [body s'].
  apply IH.
Qed.

(** A category without a non-empty bucket keeps what the dict had. *)
Lemma summarize_all_skip (cat : string)
    (categories : list (string * list article)) :
  forall (acc : gmap string string) (s : St),
    (forall l, In (cat, l) categories -> l = []) ->
    (summarize_all create categories acc s).1 !! cat = acc !! cat.
Proof.
  induction categories as [|[k [|a l]] rest IH]; intros acc s Hcat; simpl;
    [reflexivity | apply IH; intros l' Hl'; apply Hcat; right; exact Hl' |].
  destruct (summarize_category create k (a :: l) s) as [body s'].
  rewrite IH by (intros l' Hl'; apply Hcat; right; exact Hl').
  apply lookup_insert_ne. intros ->.
  discriminate (Hcat (a :: l) (or_introl eq_refl)).
Qed.

(** The summary of a category is the outcome of its own call, made in
    the state the earlier categories left. *)
Lemma summarize_all_at (pre post : list (string * list article))
    (cat : string) (articles : list article)
    (acc : gmap string string) (s : St) :
  articles <> [] ->
  ~ In cat (map fst post) ->
  (summarize_all create (pre ++ (cat, articles) :: post) acc s).1 !! cat
  = Some (body_of_response articles
            (create (synthesis_request cat articles)
               (summarize_all create pre ∅ s).2).1).
Proof.
  intros Hne Hpost. rewrite summarize_all_app.
  rewrite (summarize_all_state pre acc ∅ s).
  set (s1 := (summarize_all create pre ∅ s).2).
  destruct articles as [|a l]; [contradiction|].
  simpl. rewrite <- summarize_category_body.
  destruct (summarize_category create cat (a :: l) s1) as [body s2].
  rewrite summarize_all_skip.
  - apply lookup_insert_eq.
  - intros l' Hl'. exfalso. apply Hpost.
    apply in_map_iff. exists (cat, l'). auto.
Qed.

End SummarizeAll.

(** In the dict handed to the synthesis, every bucket respects the soft
    limit of its category. *)
Lemma select_categories_bound (filtered : list article) (cat : string)
    (bucket : list article) :
  In (cat, bucket) (select_categories filtered) ->
  (length bucket <= dict_get category_limits cat 5 + 2)%nat.
Proof.
  rewrite select_categories_spec. intros Hin.
  apply in_map_iff in Hin as (k & Hk & _). injection Hk as -> <-.
  unfold selected. rewrite apply_limit_sorted.
  destruct (_ <=? _)%nat eqn:Hle.
  - rewrite length_firstn. lia.
  - apply Nat.leb_gt in Hle. rewrite length_app, length_firstn. lia.
Qed.

(** ** The fallback of the synthesis *)

Lemma select_categories_keys (filtered : list article) :
  map fst (select_categories filtered) = CATEGORY_KEYS.
Proof.
  rewrite select_categories_spec, List.map_map. apply List.map_id.
Qed.

Lemma category_order_keys (cat : string) :
  In cat CATEGORY_KEYS -> In cat category_order.
Proof.
  unfold CATEGORY_KEYS, category_order. simpl. tauto.
Qed.

(** A bucket of the dict [categories]: its key is a category of the
    digest and appears once. *)
Lemma select_categories_split (filtered : list article)
    (pre post : list (string * list article)) (cat : string)
    (articles : list article) :
  select_categories filtered = pre ++ (cat, articles) :: post ->
  ~ In cat (map fst post) /\ In cat category_order.
Proof.
  intros Hsplit.
  pose proof (select_categories_keys filtered) as Hkeys.
  rewrite Hsplit, map_app in Hkeys. simpl in Hkeys.
  pose proof NoDup_CATEGORY_KEYS as Hnd. rewrite <- Hkeys in Hnd.
  split.
  - apply List.NoDup_remove_2 in Hnd. intros Hin. apply Hnd, in_or_app. auto.
  - apply category_order_keys. rewrite <- Hkeys.
    apply in_or_app. right. left. reflexivity.
Qed.

Lemma section_of_in_parts (all_summaries : gmap string string)
    (cat body : string) :
  In cat category_order ->
  all_summaries !! cat = Some body ->
  PyStr.truthy (PyStr.strip body) = true ->
  In (section_text cat body) (digest_parts all_summaries).
Proof.
  intros Hcat Hbody Htruthy. unfold digest_parts.
  apply in_flat_map. exists cat. split; [exact Hcat|].
  unfold section_of. rewrite Hbody, Htruthy. left. reflexivity.
Qed.

Lemma assemble_parts (all_summaries : gmap string string) :
  digest_parts all_summaries <> [] ->
  assemble all_summaries = PyStr.join divider (digest_parts all_summaries).
Proof.
  unfold assemble. destruct (digest_parts all_summaries); [contradiction|].
  reflexivity.
Qed.

Lemma synthesize_digest_assemble {St : Type}
    (create : request -> St -> option (list block) * St)
    (filtered : list article) (s : St) :
  (synthesize_digest create filtered s).1
  = assemble (summarize_all create (select_categories filtered) ∅ s).1.
Proof.
  unfold synthesize_digest.
  destruct (summarize_all create (select_categories filtered) ∅ s).
  reflexivity.
Qed.

(** C6. Synthesis fallback. Take a bucket [articles] of the dict the
    synthesis loops over, not empty, whose generation call fails in the
    state the earlier categories left. Then the summary of its category
    is the per-item rendering: one entry for each article of the bucket,
    in order, each made of the title between two pairs of asterisks, a
    blank line, the first 200 characters of the content followed by
    three dots, a blank line and the link, the entries joined by blank
    lines. The section of the category, its heading and that rendering,
    is a part of the digest, which is the parts joined by the divider;
    and the summary of every category, this one or another, is the
    outcome of its own call alone: the text of the response when the
    call succeeded, its own rendering when not. *)
Theorem synthesis_fallback {St : Type}
    (create : request -> St -> option (list block) * St)
    (filtered : list article) (s : St)
    (pre post : list (string * list article)) (cat : string)
    (articles : list article) :
  select_categories filtered = pre ++ (cat, articles) :: post ->
  articles <> [] ->
  generation_fails create cat articles (summarize_all create pre ∅ s).2 ->
  let all_summaries :=
    (summarize_all create (select_categories filtered) ∅ s).1 in
  let entry := fun a : article =>
    "**" +:+ title a +:+ "**" +:+ PyStr.LF +:+ PyStr.LF
    +:+ PyStr.take 200 (content a) +:+ "..." +:+ PyStr.LF +:+ PyStr.LF
    +:+ link a in
  let rendering := fun l : list article =>
    PyStr.join (PyStr.LF +:+ PyStr.LF) (map entry l) in
  all_summaries !! cat = Some (rendering articles)
  /\ In ("## " +:+ (category_labels !!! cat) +:+ PyStr.LF +:+ PyStr.LF
         +:+ rendering articles)
       (digest_parts all_summaries)
  /\ (synthesize_digest create filtered s).1
     = PyStr.join (PyStr.LF +:+ PyStr.LF +:+ "---" +:+ PyStr.LF +:+ PyStr.LF)
         (digest_parts all_summaries)
  /\ (forall pre' post' cat' articles',
        select_categories filtered = pre' ++ (cat', articles') :: post' ->
        articles' <> [] ->
        all_summaries !! cat'
        = Some
            match
              (create (synthesis_request cat' articles')
                 (summarize_all create pre' ∅ s).2).1
            with
            | Some blocks =>
                match blocks with
                | TextBlock t :: _ => t
                | _ => rendering articles'
                end
            | None => rendering articles'
            end).
Proof.
  intros Hsplit Hne Hfail all_summaries entry rendering.
  assert (forall pre' post' cat' articles',
            select_categories filtered = pre' ++ (cat', articles') :: post' ->
            articles' <> [] ->
            all_summaries !! cat'
            = Some (body_of_response articles'
                      (create (synthesis_request cat' articles')
                         (summarize_all create pre' ∅ s).2).1)) as Hown.
  { intros pre' post' cat' articles' Hsplit' Hne'. unfold all_summaries.
    destruct (select_categories_split _ _ _ _ _ Hsplit') as [Hpost _].
    rewrite Hsplit'. apply summarize_all_at; assumption. }
  assert (all_summaries !! cat = Some (fallback articles)) as Hcat.
  { rewrite (Hown pre post cat articles Hsplit Hne). f_equal.
    unfold generation_fails in Hfail. unfold body_of_response.
    destruct (create _ _).1 as [blocks|]; [|reflexivity].
    rewrite Hfail. reflexivity. }
  assert (In (section_text cat (fallback articles))
            (digest_parts all_summaries)) as Hpart.
  { apply section_of_in_parts; [|exact Hcat|apply fallback_not_blank, Hne].
    apply (select_categories_split _ _ _ _ _ Hsplit). }
  split; [exact Hcat|]. split; [exact Hpart|]. split.
  - rewrite synthesize_digest_assemble. fold all_summaries.
    apply assemble_parts. intros Hnil. rewrite Hnil in Hpart. destruct Hpart.
  - intros pre' post' cat' articles' Hsplit' Hne'.
    rewrite (Hown pre' post' cat' articles' Hsplit' Hne'). f_equal.
    unfold body_of_response.
    destruct (create _ _).1 as [blocks|]; [|reflexivity].
    destruct blocks as [|[t|] rest]; reflexivity.
Qed.

(** The digest of the sample articles when the first generation call
    (entertainment) raises and the second (newspaper) answers: News comes
    first, the entertainment section is the fallback. *)
Example sample_digest :
  (synthesize_digest flaky_create sample_filtered 0%nat).1
  = lines
      [ "## News"; ""; "Sure! Here is my answer."; ""; "---"; "";
        "## Entertainment Industry"; "";
        "**Studio buys studio**"; ""; "A deal...."; "";
        "https://variety.example/a"; "";
        "**Strike vote set**"; ""; "Vote soon..."; "";
        "https://variety.example/b" ].
Proof. vm_compute. reflexivity. Qed.

Lemma synthesis_fallback_witness :
  (summarize_all flaky_create (select_categories sample_filtered) ∅ 0%nat).1
  !! "entertainment"
  = Some (lines [ "**Studio buys studio**"; ""; "A deal...."; "";
                  "https://variety.example/a"; "";
                  "**Strike vote set**"; ""; "Vote soon..."; "";
                  "https://variety.example/b" ]).
Proof.
  refine (proj1 (synthesis_fallback flaky_create sample_filtered 0%nat
                   [] (tl (select_categories sample_filtered))
                   "entertainment" (firstn 2 sample_filtered) _ _ _)).
  - vm_compute. reflexivity.
  - vm_compute. discriminate.
  - vm_compute. exact I.
Defined.

(** ** Assembly of the digest *)

(** C7, as stated, fails: when no category has a section that is not
    blank, the digest is not the empty concatenation but a fixed
    sentence. *)
Lemma digest_without_sections :
  digest_parts
    (summarize_all blank_create (select_categories sample_filtered) ∅ tt).1
  = []
  /\ (synthesize_digest blank_create sample_filtered tt).1
     = "No articles to summarize."
  /\ (synthesize_digest blank_create sample_filtered tt).1
     <> PyStr.join divider
          (digest_parts
             (summarize_all blank_create
                (select_categories sample_filtered) ∅ tt).1).
Proof. repeat split; vm_compute; (reflexivity || discriminate). Qed.

(** C7, amended. The digest is made of the sections of the categories
    newspaper, entertainment, ai_legal, theme_parks, food, in this order.
    When there is at least one section, the digest is the sections
    joined by the divider; when there is none, it is the sentence "No
    articles to summarize.". A category whose summary has a character
    that is not whitespace gives one section, its label after "## ", a
    blank line and the summary; a category whose summary is whitespace
    only, or that has no accepted article, gives no section and no
    header. *)
Theorem digest_assembly {St : Type}
    (create : request -> St -> option (list block) * St)
    (filtered : list article) (s : St) :
  let all_summaries :=
    (summarize_all create (select_categories filtered) ∅ s).1 in
  let parts :=
    flat_map (section_of all_summaries)
      ["newspaper"; "entertainment"; "ai_legal"; "theme_parks"; "food"] in
  (synthesize_digest create filtered s).1
  = match parts with
    | [] => "No articles to summarize."
    | _ => PyStr.join divider parts
    end
  /\ map (fun cat => category_labels !!! cat)
       ["newspaper"; "entertainment"; "ai_legal"; "theme_parks"; "food"]
     = ["News"; "Entertainment Industry"; "AI & Legal Tech"; "Theme Parks";
        "LA Food Scene"]
  /\ (forall cat body,
        all_summaries !! cat = Some body -> has_nonspace body = true ->
        section_of all_summaries cat
        = ["## " +:+ (category_labels !!! cat) +:+ PyStr.LF +:+ PyStr.LF
           +:+ body])
  /\ (forall cat body,
        all_summaries !! cat = Some body -> has_nonspace body = false ->
        section_of all_summaries cat = [])
  /\ (forall cat,
        (forall a, In a filtered -> synth_category a <> cat) ->
        section_of all_summaries cat = []).
Proof.
  intros all_summaries parts. split; [|split; [|split; [|split]]].
  - rewrite synthesize_digest_assemble.
    unfold assemble, digest_parts, category_order. subst parts.
    fold all_summaries. destruct (flat_map _ _); reflexivity.
  - vm_compute. reflexivity.
  - intros cat body Hbody Hns. unfold section_of.
    rewrite Hbody, strip_truthy, Hns. reflexivity.
  - intros cat body Hbody Hns. unfold section_of.
    rewrite Hbody, strip_truthy, Hns. reflexivity.
  - intros cat Hnone. unfold section_of, all_summaries.
    rewrite summarize_all_skip; [rewrite lookup_empty; reflexivity|].
    intros l Hl. rewrite select_categories_spec in Hl.
    apply in_map_iff in Hl as (k & Hk & _). injection Hk as -> <-.
    apply selected_nil, Hnone.
Qed.

(** ** The two defaults of the category *)

Lemma fetch_entries_built (feed_name : string) (seen : gmap string string)
    (cutoff : Z) (entries : list entry) (a : article) :
  In a (fetch_entries feed_name seen cutoff entries) ->
  exists e pub_date, In e entries /\ a = build_article feed_name e pub_date.
Proof.
  induction entries as [|e rest IH]; intros Ha; [destruct Ha|].
  simpl in Ha.
  assert (forall b, fetch_entry feed_name seen cutoff e = EntryNew b ->
                    exists pub_date, b = build_article feed_name e pub_date)
    as Hnew.
  { intros b. unfold fetch_entry, check_seen.
    destruct (published_parsed e) as [t|].
    - destruct (Datetime.fromtimestamp_utc t) as [d|]; [|discriminate].
      destruct (t * 1000000 <? cutoff); [discriminate|].
      destruct (seen !! _); [discriminate|]. intros [= <-]. eauto.
    - destruct (seen !! _); [discriminate|]. intros [= <-]. eauto. }
  destruct (fetch_entry feed_name seen cutoff e) as [| | |b].
  - destruct Ha.
  - destruct (IH Ha) as (e' & p & He' & ->). exists e', p. simpl. auto.
  - destruct (IH Ha) as (e' & p & He' & ->). exists e', p. simpl. auto.
  - destruct Ha as [<-|Ha].
    + destruct (Hnew b eq_refl) as [p ->]. exists e, p. simpl. auto.
    + destruct (IH Ha) as (e' & p & He' & ->). exists e', p. simpl. auto.
Qed.

Lemma filter_prompt_entertainment (filter_prompt_text : string -> string)
    (a : article) :
  category a = "entertainment" ->
  filter_prompt filter_prompt_text a = filter_prompt_text "entertainment".
Proof. unfold filter_prompt. intros ->. reflexivity. Qed.

Lemma filed_under_In (cat : string) (filtered : list article) (a : article) :
  In a filtered -> synth_category a = cat -> In a (filed_under cat filtered).
Proof.
  intros Ha <-. unfold filed_under. apply List.filter_In.
  split; [exact Ha | apply String.eqb_refl].
Qed.

(** C10. The two derivations of the category. For a feed name that is not
    a key of [FEED_CATEGORIES]: every article fetched under that name has
    the category "entertainment", and its filter request carries the
    entertainment prompt; the synthesis derives the category again from
    the source, as "newspaper", and files the article, once accepted, in
    the bucket whose label is "News". The two derivations give the same
    category exactly for the names that are keys of the table. *)
Theorem category_defaults_disagree (filter_prompt_text : string -> string)
    (feed_name : string) (seen : gmap string string) (cutoff : Z)
    (entries : list entry) :
  FEED_CATEGORIES !! feed_name = None ->
  (forall a, In a (fetch_entries feed_name seen cutoff entries) ->
     source a = feed_name
     /\ category a = "entertainment"
     /\ filter_prompt filter_prompt_text a = filter_prompt_text "entertainment"
     /\ synth_category a = "newspaper"
     /\ category_labels !!! synth_category a = "News")
  /\ (forall (filtered : list article) (a : article),
        In a filtered -> source a = feed_name ->
        In ("newspaper", filed_under "newspaper" filtered)
          (group_by_category filtered)
        /\ In a (filed_under "newspaper" filtered))
  /\ (forall name : string,
        dict_get FEED_CATEGORIES name "entertainment"
        = dict_get FEED_CATEGORIES name "newspaper"
        <-> is_Some (FEED_CATEGORIES !! name)).
Proof.
  intros Habsent.
  assert (forall a, source a = feed_name -> synth_category a = "newspaper")
    as Hsynth.
  { intros a <-. unfold synth_category, dict_get. rewrite Habsent. reflexivity. }
  split; [|split].
  - intros a Ha.
    apply fetch_entries_built in Ha as (e & pub_date & _ & ->).
    assert (category (build_article feed_name e pub_date) = "entertainment")
      as Hcat.
    { simpl. unfold dict_get. rewrite Habsent. reflexivity. }
    split; [reflexivity|]. split; [exact Hcat|].
    split; [apply filter_prompt_entertainment, Hcat|].
    rewrite (Hsynth (build_article feed_name e pub_date) eq_refl).
    split; reflexivity.
  - intros filtered a Ha Hsrc. split.
    + rewrite group_by_category_spec. apply in_map_iff.
      exists "newspaper". split; [reflexivity|].
      unfold CATEGORY_KEYS. simpl. auto.
    + apply filed_under_In; [exact Ha | apply Hsynth, Hsrc].
  - intros name. unfold dict_get.
    destruct (FEED_CATEGORIES !! name) as [c|]; simpl.
    + split; eauto.
    + split; [discriminate | intros [c Hc]; discriminate].
Qed.

Lemma category_defaults_disagree_witness :
  Forall (fun a => category a = "entertainment"
                   /\ synth_category a = "newspaper")
    (fetch_entries "Orange County Register" ∅ 0
       [sample_entry None "Fair opens" "https://ocr.example/f" "Rides."]).
Proof.
  apply List.Forall_forall. intros a Ha.
  destruct (proj1 (category_defaults_disagree (fun k => k)
                     "Orange County Register" ∅ 0 _ eq_refl) a Ha)
    as (_ & Hcat & _ & Hsynth & _).
  split; assumption.
Defined.

(** ** The write of the seen store *)

(** The mapping after the marking depends on the fingerprints only. *)
Lemma mark_as_seen_hashes (l : list article) :
  forall (l' : list article) (seen : gmap string string) (now : datetime),
    map get_article_hash l = map get_article_hash l' ->
    mark_as_seen seen l now = mark_as_seen seen l' now.
Proof.
  induction l as [|a l IH]; intros [|a' l'] seen now Hh;
    try discriminate Hh; [reflexivity|].
  pose proof (f_equal (hd "") Hh) as Ha.
  pose proof (f_equal (@tl string) Hh) as Hl.
  cbn [map hd tl] in Ha, Hl.
  rewrite !mark_as_seen_cons, Ha. apply IH, Hl.
Qed.

Section FilterLoop.

Context {St : Type}.
Variable create : request -> St -> option (list block) * St.
Variable json_loads : string -> option jvalue.
Variable filter_prompt_text : string -> string.

Lemma classify_hash (a a' : article) (included : bool) (s s' : St) :
  classify create json_loads filter_prompt_text a s
  = (Some (a', included), s') ->
  get_article_hash a' = get_article_hash a.
Proof.
  unfold classify.
  destruct (filter_article _ _ _ a s) as [result s1].
  destruct (obj_get result "include" JNull) as [include|]; [|discriminate].
  destruct (Json.truthy include); intros [= <- _ _]; reflexivity.
Qed.

(** A filtering loop that ends has called the classifier once for each
    article, in order, and has left the fingerprints as they were. *)
Lemma filter_loop_ends (articles : list article) :
  forall (s s' : St) (evs : list event) (articles' filtered : list article),
    filter_loop create json_loads filter_prompt_text articles s
    = (evs, Some (articles', filtered), s') ->
    evs = map EvFilter articles
    /\ map get_article_hash articles' = map get_article_hash articles.
Proof.
  induction articles as [|a rest IH]; intros s s' evs articles' filtered Hrun.
  - simpl in Hrun. injection Hrun as <- <- _ _. auto.
  - simpl in Hrun.
    destruct (classify _ _ _ a s) as [[[a' included]|] s1] eqn:Hclass;
      [|discriminate].
    destruct (filter_loop _ _ _ rest s1) as [[evs1 r] s2] eqn:Hrest.
    destruct r as [[articles1 filtered1]|]; [|discriminate].
    injection Hrun as <- <- _ _.
    destruct (IH _ _ _ _ _ Hrest) as [-> Hh].
    simpl. rewrite Hh, (classify_hash _ _ _ _ _ Hclass). auto.
Qed.

End FilterLoop.

(** C4, as stated, fails: a run that fetches no new article returns
    before the marking and writes the file of seen articles not once but
    never. *)
Lemma run_without_write :
  (main flaky_create sample_json_loads (fun k => k) "" quiet_world 0%nat).1
  = mk_run [] Returned FileMissing
  /\ length (List.filter is_save
               (trace (main flaky_create sample_json_loads (fun k => k) ""
                         quiet_world 0%nat).1)) <> 1%nat.
Proof. split; vm_compute; [reflexivity | discriminate]. Qed.

(** C4, amended. A run that fetches no new article has no effect: it
    writes nothing, the file of seen articles stays as it was, and the
    run does not raise. In a run that fetches at least one new article
    and returns (it neither exits for want of the key nor raises), the
    file of seen articles is written exactly once, after the
    classification of every fetched article and before anything else;
    the mapping written holds the fingerprint of every fetched article,
    accepted or not, with the timestamp taken at the marking, whatever it
    held for that fingerprint before, and holds for every other
    fingerprint what the load gave. *)
Theorem seen_store_write {St : Type}
    (create : request -> St -> option (list block) * St)
    (json_loads : string -> option jvalue)
    (filter_prompt_text : string -> string) (HEADLINES_PROMPT : string)
    (w : world) (s : St) :
  let r := (main create json_loads filter_prompt_text HEADLINES_PROMPT w s).1 in
  let loaded := load_seen_articles (seen_on_disk w) (now_load w) in
  let articles := fetch_feeds (web w) loaded (now_utc w) in
  (articles = [] ->
   trace r = [] /\ seen_after r = seen_on_disk w /\ status r <> Raised
   /\ (main create json_loads filter_prompt_text HEADLINES_PROMPT w s).2 = s)
  /\ (status r = Returned ->
      articles <> [] ->
      exists (written : gmap string string) (rest : list event),
        trace r = map EvFilter articles ++ EvSaveSeen written :: rest
        /\ List.filter is_save rest = []
        /\ List.filter is_filter rest = []
        /\ seen_after r = save_seen_articles written
        /\ (forall a, In a articles ->
              written !! get_article_hash a
              = Some (Datetime.isoformat (now_mark w)))
        /\ (forall k, (forall a, In a articles -> get_article_hash a <> k) ->
              written !! k = loaded !! k)).
Proof.
  intros r loaded articles. split.
  { intros Hnone. subst r. unfold main. fold loaded. fold articles.
    rewrite Hnone.
    destruct (api_key w) as [[|c key]|]; cbn [fst snd trace seen_after status];
      repeat split; discriminate. }
  intros Hstatus Hnew.
  exists (mark_as_seen loaded articles (now_mark w)).
  assert (forall (r0 : run) (rest : list event),
            List.filter is_save rest = [] -> List.filter is_filter rest = [] ->
            trace r0 = map EvFilter articles
                       ++ EvSaveSeen (mark_as_seen loaded articles (now_mark w))
                       :: rest ->
            seen_after r0
            = save_seen_articles (mark_as_seen loaded articles (now_mark w)) ->
            exists rest : list event,
              trace r0 = map EvFilter articles
                         ++ EvSaveSeen
                              (mark_as_seen loaded articles (now_mark w))
                         :: rest
              /\ List.filter is_save rest = []
              /\ List.filter is_filter rest = []
              /\ seen_after r0
                 = save_seen_articles
                     (mark_as_seen loaded articles (now_mark w))
              /\ (forall a, In a articles ->
                    mark_as_seen loaded articles (now_mark w)
                    !! get_article_hash a
                    = Some (Datetime.isoformat (now_mark w)))
              /\ (forall k,
                    (forall a, In a articles -> get_article_hash a <> k) ->
                    mark_as_seen loaded articles (now_mark w) !! k
                    = loaded !! k)) as Hdone.
  { intros r0 rest Hs Hf Ht Hd. exists rest. repeat split; try assumption.
    - intros a Ha. apply mark_as_seen_marked, Ha.
    - intros k Hk. apply mark_as_seen_other, Hk. }
  subst r. unfold main in *. fold loaded in Hstatus |- *.
  fold articles in Hstatus |- *.
  destruct (api_key w) as [[|c key]|]; try discriminate Hstatus.
  destruct articles as [|a l] eqn:Harts; [contradiction|]. rewrite <- Harts in *.
  destruct (filter_loop create json_loads filter_prompt_text articles s)
    as [[evs [[articles' filtered]|]] s1] eqn:Hloop; [|discriminate Hstatus].
  destruct (filter_loop_ends _ _ _ _ _ _ _ _ _ Hloop) as [-> Hhash].
  rewrite (mark_as_seen_hashes articles' articles loaded (now_mark w) Hhash)
    in *.
  destruct filtered as [|f fl].
  - apply (Hdone _ []); reflexivity.
  - destruct (generate_sardonic_headlines _ _ _ _) as [headlines s2].
    destruct (synthesize_digest _ _ _) as [digest s3].
    destruct (PyStr.truthy digest).
    + apply (Hdone _ [EvPublish headlines digest (length (f :: fl))
                        (length articles')]); try reflexivity.
      cbn [trace fst]. rewrite <- app_assoc. reflexivity.
    + apply (Hdone _ []); reflexivity.
Qed.

Lemma seen_store_write_witness :
  exists (written : gmap string string) (rest : list event),
    trace (main flaky_create sample_json_loads (fun k => k) ""
             sample_world 0%nat).1
    = map EvFilter (fetch_feeds sample_web ∅ sample_now_utc)
      ++ EvSaveSeen written :: rest
    /\ written !! "a1fa0f1c7c7ab15a8d7d9b6c3c5a7f0e" = None.
Proof.
  destruct (proj2 (seen_store_write flaky_create sample_json_loads
                     (fun k => k) "" sample_world 0%nat))
    as (written & rest & Htrace & _ & _ & _ & _ & Hother).
  - vm_compute. reflexivity.
  - vm_compute. discriminate.
  - exists written, rest. split; [exact Htrace|].
    rewrite Hother; [reflexivity|].
    intros a Ha. vm_compute in Ha.
    repeat (destruct Ha as [<-|Ha]; [vm_compute; discriminate|]).
    destruct Ha.
Defined.

(** A classifier that answers with a JSON array: the answer parses, it
    is not a dict, and [result.get] raises out of [main] before the
    marking; nothing is saved. *)
Example array_answer_aborts_run :
  (main array_create sample_json_loads (fun k => k) "" sample_world tt).1
  = mk_run [EvFilter (hd (article_of "" "")
                        (fetch_feeds sample_web ∅ sample_now_utc))]
      Raised FileMissing.
Proof. vm_compute. reflexivity. Qed.


(* ================================================================== *)
(** * Further properties of the code *)
(* ================================================================== *)

(** ** Loading and saving the store *)

(** X1. One value of the file that is not a string makes the load forget
    everything: the comparison with the cutoff raises inside the [try]
    block, and the function returns the empty dict, entries in date
    included. *)
Theorem load_corrupt_value (data : gmap string jvalue) (now : datetime)
    (k : string) (v : jvalue) :
  data !! k = Some v ->
  (forall s, v <> JStr s) ->
  load_seen_articles (FileJson (JObj data)) now = ∅.
Proof.
  intros Hk Hv. unfold load_seen_articles.
  destruct (Datetime.sub_days now SEEN_RETENTION_DAYS) as [c|]; [|reflexivity].
  destruct (forallb _ _) eqn:Hall; [|reflexivity].
  exfalso. rewrite forallb_forall in Hall.
  specialize (Hall (k, v)). simpl in Hall.
  assert (In (k, v) (map_to_list data)) as Hin.
  { apply list_elem_of_In, elem_of_map_to_list, Hk. }
  apply Hall, bool_decide_eq_true in Hin as [b Hb].
  destruct v; try discriminate Hb. exact (Hv s eq_refl).
Qed.

Lemma load_corrupt_value_witness :
  load_seen_articles
    (FileJson (JObj (<["b" := JNull]>
                       {[ "a" := JStr "2025-11-04T03:00:00" ]})))
    (mk_datetime 2025 11 4 4 0 0 0) = ∅.
Proof.
  refine (load_corrupt_value _ _ "b" JNull _ _).
  - apply lookup_insert_eq.
  - discriminate.
Defined.

(** X2. Round trip. A mapping whose timestamps are all above the cutoff
    of the clock comes back from the file as it was saved. *)
Theorem load_save_round_trip (m : gmap string string) (now c : datetime) :
  Datetime.sub_days now SEEN_RETENTION_DAYS = Some c ->
  (forall k v, m !! k = Some v -> String.ltb (Datetime.isoformat c) v = true) ->
  load_seen_articles (save_seen_articles m) now = m.
Proof.
  intros Hc Hfresh. apply map_eq. intros k.
  rewrite (load_saved_lookup m now c k Hc).
  destruct (m !! k) as [v|] eqn:Hk; [|reflexivity].
  simpl. rewrite (Hfresh k v Hk). reflexivity.
Qed.

Lemma load_save_round_trip_witness :
  load_seen_articles
    (save_seen_articles {[ "a" := "2025-11-04T03:00:00" ]})
    (mk_datetime 2025 11 4 4 0 0 0)
  = {[ "a" := "2025-11-04T03:00:00" ]}.
Proof.
  refine (load_save_round_trip _ (mk_datetime 2025 11 4 4 0 0 0)
            (mk_datetime 2025 10 28 4 0 0 0) eq_refl _).
  intros k v Hk. apply lookup_singleton_Some in Hk as [_ <-]. reflexivity.
Defined.

(** X3. Loading is idempotent through a save: what a load returned,
    saved and loaded again at the same clock, is the same mapping,
    whatever the first file held. *)
Theorem load_save_load (f : seen_file) (now : datetime) :
  load_seen_articles (save_seen_articles (load_seen_articles f now)) now
  = load_seen_articles f now.
Proof.
  destruct (Datetime.sub_days now SEEN_RETENTION_DAYS) as [c|] eqn:Hc.
  - apply map_eq. intros k.
    rewrite (load_saved_lookup _ now c k Hc).
    destruct (load_seen_articles f now !! k) as [v|] eqn:Hk; [|reflexivity].
    apply load_seen_lookup_Some in Hk as (data & c' & _ & Hc' & _ & Hlt).
    rewrite Hc in Hc'. injection Hc' as <-. simpl. rewrite Hlt. reflexivity.
  - assert (forall g, load_seen_articles g now = ∅) as Hempty.
    { intros g. unfold load_seen_articles. rewrite Hc.
      destruct g as [| |[]]; reflexivity. }
    rewrite !Hempty. reflexivity.
Qed.

(** X4. The comparison with the cutoff is strict: an entry whose
    timestamp is the cutoff itself, seven days old to the microsecond,
    is dropped by the load. *)
Theorem expiry_boundary (m : gmap string string) (now c : datetime)
    (k : string) :
  Datetime.sub_days now SEEN_RETENTION_DAYS = Some c ->
  m !! k = Some (Datetime.isoformat c) ->
  load_seen_articles (save_seen_articles m) now !! k = None.
Proof.
  intros Hc Hk. rewrite (load_saved_lookup m now c k Hc), Hk. simpl.
  unfold String.ltb.
  assert (String.compare (Datetime.isoformat c) (Datetime.isoformat c) = Eq)
    as ->; [|reflexivity].
  generalize (Datetime.isoformat c). intros s.
  induction s as [|a s IH]; [reflexivity|].
  simpl. unfold Ascii.compare. rewrite N.compare_refl. exact IH.
Qed.

Lemma expiry_boundary_witness :
  load_seen_articles
    (save_seen_articles {[ "a" := "2025-10-28T04:00:00" ]})
    (mk_datetime 2025 11 4 4 0 0 0) !! "a" = None.
Proof.
  refine (expiry_boundary _ (mk_datetime 2025 11 4 4 0 0 0)
            (mk_datetime 2025 10 28 4 0 0 0) "a" eq_refl _).
  apply lookup_singleton_eq.
Defined.

(** ** Marking *)

(** X5. The mapping after the marking depends on the set of fingerprints
    marked, not on the order of the articles nor on how often one
    occurs. *)
Theorem mark_as_seen_order (seen : gmap string string)
    (l l' : list article) (now : datetime) :
  (forall k, In k (map get_article_hash l) <-> In k (map get_article_hash l')) ->
  mark_as_seen seen l now = mark_as_seen seen l' now.
Proof.
  intros Hsame. apply map_eq. intros k.
  destruct (in_dec string_dec k (map get_article_hash l)) as [Hin|Hout].
  - pose proof (proj1 (Hsame k) Hin) as Hin'.
    apply in_map_iff in Hin as (a & <- & Ha).
    apply in_map_iff in Hin' as (a' & Hk & Ha').
    rewrite (mark_as_seen_marked l seen now a Ha).
    rewrite <- Hk, (mark_as_seen_marked l' seen now a' Ha'). reflexivity.
  - assert (~ In k (map get_article_hash l')) as Hout'
        by (intros H; apply Hout, Hsame, H).
    rewrite !mark_as_seen_other; [reflexivity| |];
      intros a Ha Hk; [apply Hout' | apply Hout];
      rewrite <- Hk; apply in_map, Ha.
Qed.

Lemma mark_as_seen_order_witness :
  mark_as_seen ∅
    [ article_of "A" "u1"; article_of "B" "u2"; article_of "A" "u1" ]
    (mk_datetime 2025 11 4 4 0 9 0)
  = mark_as_seen ∅ [ article_of "B" "u2"; article_of "A" "u1" ]
      (mk_datetime 2025 11 4 4 0 9 0).
Proof.
  apply mark_as_seen_order. intros k. simpl. tauto.
Defined.

(** X6. Marking never shrinks the mapping and adds at most one entry
    for each article. *)
Theorem mark_as_seen_size (l : list article) (seen : gmap string string)
    (now : datetime) :
  (size seen <= size (mark_as_seen seen l now) <= size seen + length l)%nat.
Proof.
  revert seen. induction l as [|a l IH]; intros seen.
  - simpl. lia.
  - rewrite mark_as_seen_cons.
    specialize (IH (<[get_article_hash a := Datetime.isoformat now]> seen)).
    rewrite map_size_insert in IH.
    destruct (seen !! get_article_hash a); simpl in *; lia.
Qed.

(** ** Fetching *)

Lemma take_length (n : nat) (s : string) :
  (String.length (PyStr.take n s) <= n)%nat.
Proof.
  revert s. induction n as [|n IH]; intros [|c s]; simpl; try lia.
  specialize (IH s). lia.
Qed.

(** An article of the result comes from an entry that the loop body
    found new. *)
Lemma fetch_entries_In (feed_name : string) (seen : gmap string string)
    (cutoff : Z) (entries : list entry) (a : article) :
  In a (fetch_entries feed_name seen cutoff entries) ->
  exists e, In e entries /\ fetch_entry feed_name seen cutoff e = EntryNew a.
Proof.
  induction entries as [|e rest IH]; intros Ha; [destruct Ha|].
  simpl in Ha.
  destruct (fetch_entry feed_name seen cutoff e) as [| | |b] eqn:He.
  - destruct Ha.
  - destruct (IH Ha) as (e' & He' & Hnew). exists e'. simpl. auto.
  - destruct (IH Ha) as (e' & He' & Hnew). exists e'. simpl. auto.
  - destruct Ha as [<-|Ha].
    + exists e. simpl. auto.
    + destruct (IH Ha) as (e' & He' & Hnew). exists e'. simpl. auto.
Qed.

(** What the loop body has checked of an entry it found new. *)
Lemma fetch_entry_new (feed_name : string) (seen : gmap string string)
    (cutoff : Z) (e : entry) (a : article) :
  fetch_entry feed_name seen cutoff e = EntryNew a ->
  seen !! get_article_hash a = None
  /\ ((published_parsed e = None /\ a = build_article feed_name e None)
      \/ (exists s t,
            published_parsed e = Some s
            /\ Datetime.fromtimestamp_utc s = Some t
            /\ cutoff <= s * 1000000
            /\ a = build_article feed_name e (Some t))).
Proof.
  unfold fetch_entry, check_seen.
  destruct (published_parsed e) as [s|].
  - destruct (Datetime.fromtimestamp_utc s) as [t|] eqn:Ht; [|discriminate].
    destruct (Z.ltb_spec (s * 1000000) cutoff) as [|Hge]; [discriminate|].
    destruct (seen !! _) eqn:Hseen; [discriminate|]. intros [= <-].
    split; [exact Hseen|]. right. exists s, t. auto.
  - destruct (seen !! _) eqn:Hseen; [discriminate|]. intros [= <-].
    split; [exact Hseen|]. left. auto.
Qed.

Lemma build_article_fields (feed_name : string) (e : entry)
    (pub_date : option datetime) :
  source (build_article feed_name e pub_date) = feed_name
  /\ category (build_article feed_name e pub_date)
     = dict_get FEED_CATEGORIES feed_name "entertainment"
  /\ (String.length (content (build_article feed_name e pub_date)) <= 500)%nat
  /\ priority (build_article feed_name e pub_date) = None
  /\ filter_reason (build_article feed_name e pub_date) = None.
Proof.
  repeat split. apply take_length.
Qed.

(** For the feeds of [FEEDS] the two lookups of the category agree, on a
    key of [categories]. *)
Lemma FEEDS_categories (feed : string * string) :
  In feed FEEDS ->
  In (dict_get FEED_CATEGORIES feed.1 "entertainment") CATEGORY_KEYS
  /\ dict_get FEED_CATEGORIES feed.1 "newspaper"
     = dict_get FEED_CATEGORIES feed.1 "entertainment".
Proof.
  unfold FEEDS. intros Hin. simpl in Hin.
  repeat (destruct Hin as [<-|Hin];
          [vm_compute; split; [tauto | reflexivity]|]).
  destruct Hin.
Qed.

(** X7. Every article that [fetch_feeds] returns has a fingerprint that
    is not in the mapping, a content of at most 500 characters, no
    priority and no rationale yet, a source that is a name of [FEEDS],
    and a category that is a key of the digest's categories and is the
    one the synthesis will derive from the source again. *)
Theorem fetched_article_shape (web : string -> parse_result)
    (seen : gmap string string) (now_utc : Z) :
  Forall
    (fun a =>
       seen !! get_article_hash a = None
       /\ (String.length (content a) <= 500)%nat
       /\ priority a = None /\ filter_reason a = None
       /\ In (source a) (map fst FEEDS)
       /\ In (category a) CATEGORY_KEYS
       /\ synth_category a = category a)
    (fetch_feeds web seen now_utc).
Proof.
  apply List.Forall_forall. intros a Ha. unfold fetch_feeds in Ha.
  apply in_concat in Ha as (l & Hl & Ha).
  apply in_map_iff in Hl as (feed & <- & Hfeed).
  unfold fetch_feed in Ha. destruct (web feed.2) as [|entries]; [destruct Ha|].
  apply fetch_entries_In in Ha as (e & _ & Hnew).
  apply fetch_entry_new in Hnew as [Hseen Hbuilt].
  destruct (FEEDS_categories feed Hfeed) as [Hkey Hagree].
  assert (exists p, a = build_article feed.1 e p) as [p ->].
  { destruct Hbuilt as [[_ ->]|(s & t & _ & _ & _ & ->)]; eauto. }
  destruct (build_article_fields feed.1 e p) as (Hsrc & Hcat & Hlen & Hp & Hr).
  split; [exact Hseen|]. split; [exact Hlen|].
  split; [exact Hp|]. split; [exact Hr|].
  split; [rewrite Hsrc; apply in_map, Hfeed|].
  split; [rewrite Hcat; exact Hkey|].
  unfold synth_category. rewrite Hsrc, Hcat. exact Hagree.
Qed.

(** X8. The larger the mapping, the smaller the fetch: against a mapping
    that has at least the keys of another, [fetch_feeds] returns a
    sublist, in the same order, of what it returns against the other. *)
Theorem fetch_antitone (web : string -> parse_result)
    (seen seen' : gmap string string) (now_utc : Z) :
  (forall k, is_Some (seen !! k) -> is_Some (seen' !! k)) ->
  sublist (fetch_feeds web seen' now_utc) (fetch_feeds web seen now_utc).
Proof.
  intros Hgrow. unfold fetch_feeds.
  generalize (now_utc - MAX_AGE_HOURS * 3600 * 1000000). intros cutoff.
  induction FEEDS as [|feed feeds IH]; [constructor|].
  simpl. apply sublist_app; [|exact IH].
  unfold fetch_feed. destruct (web feed.2) as [|entries]; [constructor|].
  induction entries as [|e rest IHe]; [constructor|].
  simpl.
  assert (fetch_entry feed.1 seen' cutoff e = fetch_entry feed.1 seen cutoff e
          \/ (fetch_entry feed.1 seen' cutoff e = EntrySeen
              /\ exists a, fetch_entry feed.1 seen cutoff e = EntryNew a))
    as [-> | [-> [a ->]]].
  { unfold fetch_entry, check_seen.
    assert (forall a,
              match seen' !! get_article_hash a with
              | Some _ => EntrySeen | None => EntryNew a end
              = match seen !! get_article_hash a with
                | Some _ => EntrySeen | None => EntryNew a end
              \/ (match seen' !! get_article_hash a with
                  | Some _ => EntrySeen | None => EntryNew a end = EntrySeen
                  /\ exists b,
                       match seen !! get_article_hash a with
                       | Some _ => EntrySeen | None => EntryNew a end
                       = EntryNew b)) as Hcheck.
    { intros a. destruct (seen !! get_article_hash a) as [v|] eqn:Hv.
      - destruct (Hgrow _ (ex_intro _ v Hv)) as [v' ->]. auto.
      - destruct (seen' !! get_article_hash a); eauto. }
    destruct (published_parsed e) as [s|]; [|apply Hcheck].
    destruct (Datetime.fromtimestamp_utc s); [|auto].
    destruct (s * 1000000 <? cutoff); [auto | apply Hcheck]. }
  - destruct (fetch_entry feed.1 seen cutoff e);
      [constructor | exact IHe | exact IHe | apply sublist_skip, IHe].
  - apply sublist_cons, IHe.
Qed.

Lemma fetch_antitone_witness :
  sublist
    (fetch_feeds sample_web aging_seen sample_now_utc)
    (fetch_feeds sample_web ∅ sample_now_utc).
Proof.
  apply (fetch_antitone sample_web ∅ aging_seen sample_now_utc).
  intros k [v Hk]. rewrite lookup_empty in Hk. discriminate.
Defined.

(** X9. An entry whose publication time cannot be made a date raises,
    and the exception ends the loop over its feed: the articles of the
    earlier entries are kept, the later entries are never looked at. *)
Theorem entry_error_cuts_feed (feed_name : string)
    (seen : gmap string string) (cutoff : Z) (pre post : list entry)
    (e : entry) :
  fetch_entry feed_name seen cutoff e = EntryRaises ->
  fetch_entries feed_name seen cutoff (pre ++ e :: post)
  = fetch_entries feed_name seen cutoff pre.
Proof.
  intros He. induction pre as [|p pre IH]; simpl.
  - rewrite He. reflexivity.
  - destruct (fetch_entry feed_name seen cutoff p); try assumption;
      [reflexivity | f_equal; exact IH].
Qed.

Lemma entry_error_cuts_feed_witness :
  map title
    (fetch_entries "Variety" ∅ 0
       [ sample_entry None "First" "u1" "x";
         sample_entry (Some 253402300800) "From the year 10000" "u2" "y";
         sample_entry None "Third" "u3" "z" ])
  = ["First"].
Proof.
  rewrite (entry_error_cuts_feed "Variety" ∅ 0
             [sample_entry None "First" "u1" "x"]
             [sample_entry None "Third" "u3" "z"]
             (sample_entry (Some 253402300800) "From the year 10000" "u2" "y")
             eq_refl).
  vm_compute. reflexivity.
Defined.

(** X10. Each entry is judged against the mapping as loaded, not against
    the articles fetched before it: when no entry of [pre] raises, the
    articles of [pre ++ post] are those of [pre] followed by those of
    [post]. So an item that a feed lists twice is fetched twice. *)
Theorem fetch_entries_app (feed_name : string) (seen : gmap string string)
    (cutoff : Z) (pre post : list entry) :
  (forall e, In e pre -> fetch_entry feed_name seen cutoff e <> EntryRaises) ->
  fetch_entries feed_name seen cutoff (pre ++ post)
  = fetch_entries feed_name seen cutoff pre
    ++ fetch_entries feed_name seen cutoff post.
Proof.
  intros Hpre. induction pre as [|p pre IH]; [reflexivity|].
  simpl. specialize (IH (fun e He => Hpre e (or_intror He))).
  pose proof (Hpre p (or_introl eq_refl)) as Hp.
  destruct (fetch_entry feed_name seen cutoff p);
    [contradiction | exact IH | exact IH | simpl; f_equal; exact IH].
Qed.

Lemma fetch_entries_app_witness :
  map title
    (fetch_entries "Variety" ∅ 0
       ([sample_entry None "Twice" "u" "x"]
        ++ [sample_entry None "Twice" "u" "x"]))
  = ["Twice"; "Twice"].
Proof.
  rewrite (fetch_entries_app "Variety" ∅ 0).
  - vm_compute. reflexivity.
  - intros e [<-|[]]. vm_compute. discriminate.
Defined.

(** X11. The age limit, entry by entry. Every article of the result was
    built from an entry of the feed that either has no parsed date, and
    then the article has no date, or has one whose number of seconds,
    as [mktime] returned it, is not before the cutoff, and then the
    article carries the text of that number as a time in UTC. An entry
    without a parsed date is never dropped for its age, whatever the
    cutoff: it is new exactly when its fingerprint is not in the
    mapping. An entry whose number is before the cutoff is never
    new. *)
Theorem fetched_not_old (feed_name : string) (seen : gmap string string)
    (cutoff : Z) (entries : list entry) :
  Forall
    (fun a =>
       exists e,
         In e entries
         /\ ((published_parsed e = None
              /\ a = build_article feed_name e None /\ date a = None)
             \/ exists s t,
                  published_parsed e = Some s
                  /\ Datetime.fromtimestamp_utc s = Some t
                  /\ cutoff <= s * 1000000
                  /\ a = build_article feed_name e (Some t)
                  /\ date a = Some (Datetime.isoformat_utc t)))
    (fetch_entries feed_name seen cutoff entries)
  /\ (forall e,
        published_parsed e = None ->
        fetch_entry feed_name seen cutoff e
        = match seen !! get_article_hash (build_article feed_name e None) with
          | Some _ => EntrySeen
          | None => EntryNew (build_article feed_name e None)
          end)
  /\ (forall e s a,
        published_parsed e = Some s -> s * 1000000 < cutoff ->
        fetch_entry feed_name seen cutoff e <> EntryNew a).
Proof.
  split; [|split].
  - apply List.Forall_forall. intros a Ha.
    apply fetch_entries_In in Ha as (e & He & Hnew). exists e.
    split; [exact He|].
    apply fetch_entry_new in Hnew
        as [_ [[Hnone ->]|(s & t & Hs & Ht & Hge & ->)]].
    + left. auto.
    + right. exists s, t. auto 10.
  - intros e Hnone. unfold fetch_entry, check_seen. rewrite Hnone. reflexivity.
  - intros e s a Hs Hold. unfold fetch_entry. rewrite Hs.
    destruct (Datetime.fromtimestamp_utc s); [|discriminate].
    destruct (Z.ltb_spec (s * 1000000) cutoff); [discriminate | lia].
Qed.

(** ** Cleaning the content *)

Lemma length_append (s t : string) :
  String.length (s +:+ t) = (String.length s + String.length t)%nat.
Proof.
  induction s as [|c s IH]; [reflexivity|].
  rewrite append_cons. simpl. rewrite IH. reflexivity.
Qed.

Lemma length_rev_app (s t : string) :
  String.length (String.rev_app s t)
  = (String.length s + String.length t)%nat.
Proof.
  revert t. induction s as [|c s IH]; intros t; [reflexivity|].
  simpl. rewrite IH. simpl. lia.
Qed.

Lemma rev_app_rev_app (s : string) :
  forall t u,
    String.rev_app (String.rev_app s t) u = String.rev_app t (s +:+ u).
Proof.
  induction s as [|c s IH]; intros t u; [reflexivity|].
  simpl. rewrite IH. reflexivity.
Qed.

Lemma rev_rev_app (s : string) : String.rev (String.rev_app s "") = s.
Proof.
  unfold String.rev. rewrite rev_app_rev_app. simpl. apply append_nil_r.
Qed.

Lemma strip_tags_go_length (s : string) :
  forall pending,
    (String.length (strip_tags_go pending s)
     <= String.length (default "" pending) + String.length s)%nat.
Proof.
  induction s as [|c s IH]; intros [buf|]; simpl.
  - unfold String.rev. rewrite length_rev_app. simpl. lia.
  - lia.
  - destruct (Ascii.eqb c "<").
    + rewrite length_append. unfold String.rev. rewrite length_rev_app.
      specialize (IH (Some "<")). simpl in *. lia.
    + match goal with
      | |- context [if ?b then _ else _] => destruct b
      end.
      * specialize (IH None). simpl in IH. lia.
      * specialize (IH (Some (String c buf))). simpl in IH. lia.
  - destruct (Ascii.eqb c "<").
    + specialize (IH (Some "<")). simpl in IH. lia.
    + simpl. specialize (IH None). simpl in IH. lia.
Qed.

(** X12. Stripping the tags never lengthens a text. *)
Theorem strip_tags_shorter (s : string) :
  (String.length (strip_tags s) <= String.length s)%nat.
Proof.
  unfold strip_tags. pose proof (strip_tags_go_length s None) as H.
  simpl in H. exact H.
Qed.

Lemma strip_tags_go_plain (s rest : string) :
  lacks "<" s = true ->
  strip_tags_go None (s +:+ rest) = s +:+ strip_tags_go None rest.
Proof.
  induction s as [|c s IH]; intros Hs; [reflexivity|].
  simpl in Hs. apply andb_true_iff in Hs as [Hc Hs].
  rewrite !append_cons. simpl.
  destruct (Ascii.eqb c "<"); [discriminate Hc|].
  rewrite IH by exact Hs. reflexivity.
Qed.

(** X13. A text without the character [<] is left as it is. *)
Theorem strip_tags_plain (s : string) :
  lacks "<" s = true -> strip_tags s = s.
Proof.
  intros Hs. unfold strip_tags.
  rewrite <- (append_nil_r s) at 1.
  rewrite strip_tags_go_plain by exact Hs. simpl. apply append_nil_r.
Qed.

Lemma strip_tags_plain_witness : strip_tags "3 > 2, said A & B" = "3 > 2, said A & B".
Proof. apply strip_tags_plain. reflexivity. Defined.

Lemma strip_tags_go_inside (t rest : string) :
  forall buf,
    lacks "<" t = true -> lacks ">" t = true ->
    strip_tags_go (Some buf) (t +:+ rest)
    = strip_tags_go (Some (String.rev_app t buf)) rest.
Proof.
  induction t as [|c t IH]; intros buf Hlt Hgt; [reflexivity|].
  simpl in Hlt, Hgt.
  apply andb_true_iff in Hlt as [Hc1 Hlt].
  apply andb_true_iff in Hgt as [Hc2 Hgt].
  rewrite append_cons. simpl.
  destruct (Ascii.eqb c "<"); [discriminate Hc1|].
  destruct (Ascii.eqb c ">"); [discriminate Hc2|].
  simpl. apply IH; assumption.
Qed.

Lemma strip_tags_go_close (buf rest : string) :
  (2 <= String.length buf)%nat ->
  strip_tags_go (Some buf) (String ">" rest) = strip_tags_go None rest.
Proof.
  intros Hbuf.
  change (strip_tags_go (Some buf) (String ">" rest))
    with (if (2 <=? String.length buf)%nat then strip_tags_go None rest
          else strip_tags_go (Some (String ">" buf)) rest).
  apply Nat.leb_le in Hbuf. rewrite Hbuf. reflexivity.
Qed.

(** X14. A tag is removed whole: in front of it the text [s] without
    [<] stays, the tag [<t>], with [t] not empty and free of [<] and
    [>], goes, and the stripping goes on behind it. *)
Theorem strip_tags_removes_tag (s t u : string) :
  lacks "<" s = true ->
  PyStr.truthy t = true -> lacks "<" t = true -> lacks ">" t = true ->
  strip_tags (s +:+ "<" +:+ t +:+ ">" +:+ u) = s +:+ strip_tags u.
Proof.
  intros Hs Ht Hlt Hgt. unfold strip_tags.
  rewrite strip_tags_go_plain by exact Hs. f_equal.
  rewrite append_cons, append_nil_l. simpl.
  rewrite strip_tags_go_inside by assumption.
  rewrite append_cons, append_nil_l.
  apply strip_tags_go_close. rewrite length_rev_app.
  destruct t; [discriminate Ht|]. simpl. lia.
Qed.

Lemma strip_tags_removes_tag_witness :
  strip_tags ("Vote " +:+ "<" +:+ "b class=x" +:+ ">" +:+ "soon")
  = "Vote " +:+ strip_tags "soon".
Proof. apply strip_tags_removes_tag; reflexivity. Defined.

Lemma no_space_rev_app (s : string) :
  forall t, no_space (String.rev_app s t) = no_space s && no_space t.
Proof.
  induction s as [|c s IH]; intros t; [reflexivity|].
  simpl. rewrite IH. simpl.
  destruct (PyStr.isspace c), (no_space s), (no_space t); reflexivity.
Qed.

Lemma truthy_rev_app (s t : string) :
  PyStr.truthy t = true -> PyStr.truthy (String.rev_app s t) = true.
Proof.
  revert t. induction s as [|c s IH]; intros t Ht; [exact Ht|].
  simpl. apply IH. reflexivity.
Qed.

Lemma is_word_rev (cur : string) :
  PyStr.truthy cur = true -> no_space cur = true -> is_word (String.rev cur).
Proof.
  intros Ht Hn. split.
  - rewrite truthy_rev. exact Ht.
  - unfold String.rev. rewrite no_space_rev_app, Hn. reflexivity.
Qed.

Lemma split_go_words (s : string) :
  forall cur, no_space cur = true -> Forall is_word (PyStr.split_go cur s).
Proof.
  induction s as [|c s IH]; intros cur Hcur; simpl.
  - destruct cur as [|d cur]; [constructor|].
    constructor; [|constructor]. apply is_word_rev; [reflexivity | exact Hcur].
  - destruct (PyStr.isspace c) eqn:Hc.
    + destruct cur as [|d cur]; [apply IH; reflexivity|].
      constructor; [|apply IH; reflexivity].
      apply is_word_rev; [reflexivity | exact Hcur].
    + apply IH. simpl. rewrite Hc, Hcur. reflexivity.
Qed.

(** Reading a word: the characters go to the run being read. *)
Lemma split_go_word (w rest : string) :
  forall cur,
    no_space w = true ->
    PyStr.split_go cur (w +:+ rest)
    = PyStr.split_go (String.rev_app w cur) rest.
Proof.
  induction w as [|c w IH]; intros cur Hw; [reflexivity|].
  simpl in Hw. apply andb_true_iff in Hw as [Hc Hw].
  rewrite append_cons. simpl.
  destruct (PyStr.isspace c); [discriminate Hc|].
  apply IH, Hw.
Qed.

Lemma split_join_words (ws : list string) :
  Forall is_word ws -> PyStr.split (PyStr.join " " ws) = ws.
Proof.
  unfold PyStr.split. induction 1 as [|w ws [Ht Hn] Hws IH]; [reflexivity|].
  destruct ws as [|w' ws].
  - simpl. rewrite <- (append_nil_r w) at 1.
    rewrite split_go_word by exact Hn. simpl.
    destruct (String.rev_app w "") eqn:Hrev.
    + pose proof (truthy_rev_app w "" ) as Hne.
      destruct w; [discriminate Ht|]. simpl in Hrev.
      pose proof (truthy_rev_app w (String a "") eq_refl) as Hne'.
      rewrite Hrev in Hne'. discriminate Hne'.
    + rewrite <- Hrev, rev_rev_app. reflexivity.
  - cbn [PyStr.join]. rewrite split_go_word by exact Hn.
    rewrite append_cons, append_nil_l. simpl.
    destruct (String.rev_app w "") eqn:Hrev.
    + destruct w; [discriminate Ht|]. simpl in Hrev.
      pose proof (truthy_rev_app w (String a "") eq_refl) as Hne'.
      rewrite Hrev in Hne'. discriminate Hne'.
    + rewrite <- Hrev, rev_rev_app. f_equal. exact IH.
Qed.

(** X15. The content is cut into words, each not empty and free of
    whitespace, and joined by single spaces; doing this to a content
    that went through it changes nothing. *)
Theorem content_normal_form (s : string) :
  Forall is_word (PyStr.split s)
  /\ PyStr.split (PyStr.join " " (PyStr.split s)) = PyStr.split s
  /\ PyStr.join " " (PyStr.split (PyStr.join " " (PyStr.split s)))
     = PyStr.join " " (PyStr.split s).
Proof.
  assert (Forall is_word (PyStr.split s)) as Hwords
      by (apply split_go_words; reflexivity).
  split; [exact Hwords|].
  rewrite (split_join_words _ Hwords). split; reflexivity.
Qed.

(** ** The filtering loop *)

Section FilterInvariants.

Context {St : Type}.
Variable create : request -> St -> option (list block) * St.
Variable json_loads : string -> option jvalue.
Variable filter_prompt_text : string -> string.

Lemma classify_inv (a a' : article) (included : bool) (s s' : St) :
  classify create json_loads filter_prompt_text a s
  = (Some (a', included), s') ->
  same_item a a'
  /\ (included = true ->
      is_Some (priority a') /\ is_Some (filter_reason a')).
Proof.
  unfold classify, same_item.
  destruct (filter_article _ _ _ a s) as [result s1].
  destruct result as [| | | | |fields]; try discriminate. simpl.
  destruct (Json.truthy _); intros [= <- <- _]; simpl.
  - repeat split; eauto.
  - repeat split; discriminate.
Qed.

Lemma filter_loop_inv (articles : list article) :
  forall (s s' : St) (evs : list event) (articles' filtered : list article),
    filter_loop create json_loads filter_prompt_text articles s
    = (evs, Some (articles', filtered), s') ->
    sublist filtered articles'
    /\ Forall (fun a => is_Some (priority a) /\ is_Some (filter_reason a))
         filtered
    /\ Forall2 same_item articles articles'.
Proof.
  induction articles as [|a rest IH]; intros s s' evs articles' filtered Hrun.
  - simpl in Hrun. injection Hrun as _ <- <- _.
    repeat split; constructor.
  - simpl in Hrun.
    destruct (classify _ _ _ a s) as [[[a' included]|] s1] eqn:Hclass;
      [|discriminate].
    destruct (filter_loop _ _ _ rest s1) as [[evs1 r] s2] eqn:Hrest.
    destruct r as [[articles1 filtered1]|]; [|discriminate].
    injection Hrun as _ <- <- _.
    destruct (IH _ _ _ _ _ Hrest) as (Hsub & Hset & Hsame).
    destruct (classify_inv _ _ _ _ _ Hclass) as [Ha Hincl].
    destruct included.
    + repeat split.
      * apply sublist_skip, Hsub.
      * constructor; [apply Hincl; reflexivity | exact Hset].
      * constructor; assumption.
    + repeat split.
      * apply sublist_cons, Hsub.
      * exact Hset.
      * constructor; assumption.
Qed.

End FilterInvariants.

(** X16. When the filtering loop ends, the accepted articles are a
    sublist of the fetched ones, in the order of the fetch; each accepted
    article has a priority and a rationale, so that reading
    [a["priority"]] cannot fail; and the loop has changed nothing else
    of any article. *)
Theorem filter_loop_invariants {St : Type}
    (create : request -> St -> option (list block) * St)
    (json_loads : string -> option jvalue)
    (filter_prompt_text : string -> string)
    (articles articles' filtered : list article) (evs : list event)
    (s s' : St) :
  filter_loop create json_loads filter_prompt_text articles s
  = (evs, Some (articles', filtered), s') ->
  sublist filtered articles'
  /\ Forall (fun a => is_Some (priority a) /\ is_Some (filter_reason a))
       filtered
  /\ Forall2 same_item articles articles'
  /\ evs = map EvFilter articles.
Proof.
  intros Hrun.
  destruct (filter_loop_inv create json_loads filter_prompt_text
              articles s s' evs articles' filtered Hrun) as (H1 & H2 & H3).
  destruct (filter_loop_ends create json_loads filter_prompt_text
              articles s s' evs articles' filtered Hrun) as [H4 _].
  auto.
Qed.

Lemma filter_loop_invariants_witness :
  sublist sample_filtered sample_filtered
  /\ Forall (fun a => is_Some (priority a) /\ is_Some (filter_reason a))
       sample_filtered.
Proof.
  destruct (filter_loop_invariants flaky_create sample_json_loads (fun k => k)
              (fetch_feeds sample_web ∅ sample_now_utc)
              sample_filtered sample_filtered
              (map EvFilter (fetch_feeds sample_web ∅ sample_now_utc))
              0%nat 3%nat) as (H1 & H2 & _).
  - vm_compute. reflexivity.
  - split; assumption.
Defined.

(** ** Answers in a code fence *)

Lemma rev_app_app (s : string) :
  forall t u,
    String.rev_app (s +:+ t) u = String.rev_app t (String.rev_app s u).
Proof.
  induction s as [|c s IH]; intros t u; [reflexivity|].
  rewrite append_cons. simpl. apply IH.
Qed.

Lemma rev_app_append (s : string) :
  forall t, String.rev_app s t = String.rev s +:+ t.
Proof.
  unfold String.rev. induction s as [|c s IH]; intros t; [reflexivity|].
  simpl. rewrite (IH (String c t)), (IH (String c "")).
  rewrite append_assoc. reflexivity.
Qed.

Lemma rev_append (s t : string) :
  String.rev (s +:+ t) = String.rev t +:+ String.rev s.
Proof.
  unfold String.rev at 1. rewrite rev_app_app, rev_app_append. reflexivity.
Qed.

Lemma rev_involutive (s : string) : String.rev (String.rev s) = s.
Proof. apply rev_rev_app. Qed.

Lemma lstrip_starts (s : string) :
  starts_nonspace s = true -> PyStr.lstrip s = s.
Proof.
  destruct s as [|c s]; [discriminate|]. simpl.
  destruct (PyStr.isspace c); [discriminate | reflexivity].
Qed.

Lemma starts_nonspace_append (s t : string) :
  starts_nonspace s = true -> starts_nonspace (s +:+ t) = true.
Proof. destruct s; [discriminate | exact id]. Qed.

(** [strip] leaves a trimmed text as it is. *)
Lemma strip_trimmed (s : string) : trimmed s = true -> PyStr.strip s = s.
Proof.
  unfold trimmed. intros H. apply andb_true_iff in H as [Hl Hr].
  unfold PyStr.strip, PyStr.rstrip.
  rewrite (lstrip_starts s Hl), (lstrip_starts _ Hr). apply rev_involutive.
Qed.

(** [rstrip] removes a line feed behind a text that ends in a character
    that is not whitespace. *)
Lemma rstrip_line_feed (s : string) :
  starts_nonspace (String.rev s) = true -> PyStr.rstrip (s +:+ PyStr.LF) = s.
Proof.
  intros Hr. unfold PyStr.rstrip. rewrite rev_append.
  change (String.rev PyStr.LF +:+ String.rev s)
    with (String "010" (String.rev s)).
  change (PyStr.lstrip (String "010" (String.rev s)))
    with (PyStr.lstrip (String.rev s)).
  rewrite (lstrip_starts _ Hr). apply rev_involutive.
Qed.

Lemma prefix_append (p t : string) : String.prefix p (p +:+ t) = true.
Proof.
  induction p as [|c p IH]; [destruct t; reflexivity|].
  rewrite append_cons. simpl. destruct (ascii_dec c c); [exact IH | congruence].
Qed.

Lemma fence_close_body (head body : string) :
  starts_nonspace (String.rev body) = true ->
  strip_fence_close (head +:+ body +:+ PyStr.LF +:+ "```")
  = PyStr.rstrip ((head +:+ body) +:+ PyStr.LF).
Proof.
  intros Hr. unfold strip_fence_close, PyStr.endswith.
  rewrite <- !append_assoc.
  rewrite (rev_append ((head +:+ body) +:+ PyStr.LF) "```").
  change (String.rev "```") with "```".
  rewrite prefix_append.
  change (PyStr.drop 3 ("```" +:+ String.rev ((head +:+ body) +:+ PyStr.LF)))
    with (String.rev ((head +:+ body) +:+ PyStr.LF)).
  rewrite rev_involutive. reflexivity.
Qed.

(** X17. An answer in a fence labelled json is unwrapped: when the text
    of the response is the label line, a trimmed body and the closing
    fence, [json.loads] is given the body. *)
Theorem fenced_answer (json_loads : string -> option jvalue) (body : string) :
  trimmed body = true ->
  parse_filter_response json_loads
    [TextBlock ("```json" +:+ PyStr.LF +:+ body +:+ PyStr.LF +:+ "```")]
  = json_loads body.
Proof.
  intros Hbody. pose proof Hbody as Hb.
  unfold trimmed in Hb. apply andb_true_iff in Hb as [Hl Hr].
  unfold parse_filter_response, first_text.
  set (t := "```json" +:+ PyStr.LF +:+ body +:+ PyStr.LF +:+ "```").
  assert (PyStr.strip t = t) as ->.
  { apply strip_trimmed. unfold trimmed. apply andb_true_iff. split.
    - reflexivity.
    - unfold t.
      rewrite (rev_append "```json"), (rev_append PyStr.LF),
        (rev_append body), (rev_append PyStr.LF).
      reflexivity. }
  change (PyStr.startswith "```" t) with true. cbv iota.
  assert (strip_fence_open t = body +:+ PyStr.LF +:+ "```") as ->.
  { unfold strip_fence_open.
    change (PyStr.startswith "```jso" t) with true. cbv iota.
    change (PyStr.drop 6 t) with ("n" +:+ PyStr.LF +:+ body +:+ PyStr.LF +:+ "```").
    change (PyStr.startswith "n" ("n" +:+ PyStr.LF +:+ body +:+ PyStr.LF +:+ "```"))
      with true.
    cbv iota.
    change (PyStr.drop 1 ("n" +:+ PyStr.LF +:+ body +:+ PyStr.LF +:+ "```"))
      with (String "010" (body +:+ PyStr.LF +:+ "```")).
    change (PyStr.lstrip (String "010" (body +:+ PyStr.LF +:+ "```")))
      with (PyStr.lstrip (body +:+ PyStr.LF +:+ "```")).
    apply lstrip_starts, starts_nonspace_append, Hl. }
  rewrite (fence_close_body "" body Hr
           : strip_fence_close (body +:+ PyStr.LF +:+ "```")
             = PyStr.rstrip (body +:+ PyStr.LF)).
  rewrite (rstrip_line_feed body Hr). reflexivity.
Qed.

Lemma fenced_answer_witness :
  parse_filter_response sample_json_loads
    [TextBlock ("```json" +:+ PyStr.LF +:+ "{}" +:+ PyStr.LF +:+ "```")]
  = Some (JObj ∅).
Proof. apply (fenced_answer sample_json_loads "{}"). reflexivity. Defined.

(** X18. A fence without the label is only half removed: the pattern of
    the opening fence asks for the letters "jso", so for a text made of
    a bare fence line, a trimmed body and the closing fence, [json.loads]
    is given the body with the opening fence still in front. *)
Theorem bare_fence_kept (json_loads : string -> option jvalue) (body : string) :
  trimmed body = true ->
  parse_filter_response json_loads
    [TextBlock ("```" +:+ PyStr.LF +:+ body +:+ PyStr.LF +:+ "```")]
  = json_loads ("```" +:+ PyStr.LF +:+ body).
Proof.
  intros Hbody. pose proof Hbody as Hb.
  unfold trimmed in Hb. apply andb_true_iff in Hb as [Hl Hr].
  unfold parse_filter_response, first_text.
  set (t := "```" +:+ PyStr.LF +:+ body +:+ PyStr.LF +:+ "```").
  assert (PyStr.strip t = t) as ->.
  { apply strip_trimmed. unfold trimmed. apply andb_true_iff. split.
    - reflexivity.
    - unfold t.
      rewrite (rev_append "```"), (rev_append PyStr.LF),
        (rev_append body), (rev_append PyStr.LF).
      reflexivity. }
  change (PyStr.startswith "```" t) with true. cbv iota.
  change (strip_fence_open t) with t. unfold t.
  change ("```" +:+ PyStr.LF +:+ body +:+ PyStr.LF +:+ "```")
    with (("```" +:+ PyStr.LF) +:+ body +:+ PyStr.LF +:+ "```").
  rewrite (fence_close_body ("```" +:+ PyStr.LF) body Hr).
  assert (starts_nonspace (String.rev (("```" +:+ PyStr.LF) +:+ body)) = true)
    as Hr'.
  { rewrite rev_append. apply starts_nonspace_append, Hr. }
  rewrite (rstrip_line_feed _ Hr'). reflexivity.
Qed.

Lemma bare_fence_kept_witness :
  parse_filter_response sample_json_loads
    [TextBlock ("```" +:+ PyStr.LF +:+ "{}" +:+ PyStr.LF +:+ "```")]
  = None.
Proof.
  rewrite (bare_fence_kept sample_json_loads "{}" eq_refl). reflexivity.
Defined.

(** ** Grouping and selection in the digest *)

(** The lookup of the category never misses a key of [categories]. *)
Lemma synth_category_key (a : article) : In (synth_category a) CATEGORY_KEYS.
Proof.
  unfold synth_category, dict_get.
  destruct (FEED_CATEGORIES !! source a) as [v|] eqn:Hv; cbn [default].
  - unfold FEED_CATEGORIES in Hv. apply elem_of_list_to_map_2 in Hv.
    repeat (apply elem_of_cons in Hv as [Hv|Hv];
            [injection Hv as _ ->; vm_compute; tauto|]).
    apply elem_of_nil in Hv. destruct Hv.
  - vm_compute. tauto.
Qed.

Lemma filed_under_cons (cat : string) (a : article) (l : list article) :
  filed_under cat (a :: l)
  = if String.eqb cat (synth_category a)
    then a :: filed_under cat l else filed_under cat l.
Proof. reflexivity. Qed.

Lemma concat_add_one (a : article) (c : string) (f : string -> list article)
    (keys : list string) :
  List.NoDup keys -> In c keys ->
  concat (map (fun k => if String.eqb k c then a :: f k else f k) keys)
  ≡ₚ a :: concat (map f keys).
Proof.
  induction keys as [|k ks IH]; intros Hnd Hin; [destruct Hin|].
  apply List.NoDup_cons_iff in Hnd as [Hk Hnd]. cbn [map concat].
  destruct (String.eqb_spec k c) as [->|Hne].
  - assert (map (fun k => if String.eqb k c then a :: f k else f k) ks
            = map f ks) as ->; [|reflexivity].
    apply List.map_ext_in. intros k Hk'.
    destruct (String.eqb_spec k c) as [->|_]; [contradiction | reflexivity].
  - destruct Hin as [Heq|Hin]; [contradiction|].
    rewrite (IH Hnd Hin). symmetry. apply Permutation_middle.
Qed.

Lemma filed_under_In_iff (cat : string) (l : list article) (a : article) :
  In a (filed_under cat l) <-> In a l /\ synth_category a = cat.
Proof.
  unfold filed_under. rewrite List.filter_In.
  destruct (String.eqb_spec cat (synth_category a)); intuition congruence.
Qed.

(** X19. Grouping loses nothing and files nothing twice: the buckets of
    the five categories, taken together, are a rearrangement of the
    accepted articles, and every bucket holds, in the order of
    acceptance, the articles whose source maps to its category. *)
Theorem grouping_loses_nothing (filtered : list article) :
  concat (map snd (group_by_category filtered)) ≡ₚ filtered
  /\ Forall (fun '(cat, bucket) =>
               sublist bucket filtered
               /\ Forall (fun a => synth_category a = cat) bucket)
       (group_by_category filtered).
Proof.
  rewrite group_by_category_spec. split.
  - rewrite List.map_map. cbn [snd].
    induction filtered as [|a rest IH]; [reflexivity|].
    assert (map (fun k => filed_under k (a :: rest)) CATEGORY_KEYS
            = map (fun k => if String.eqb k (synth_category a)
                            then a :: filed_under k rest
                            else filed_under k rest) CATEGORY_KEYS) as ->.
    { apply List.map_ext. intros k.
      rewrite filed_under_cons, String.eqb_sym. reflexivity. }
    rewrite (concat_add_one a (synth_category a)
               (fun k => filed_under k rest) CATEGORY_KEYS
               NoDup_CATEGORY_KEYS (synth_category_key a)).
    constructor. exact IH.
  - apply List.Forall_forall. intros [cat bucket] Hin.
    apply in_map_iff in Hin as (k & Hk & _). injection Hk as -> <-.
    split.
    + unfold filed_under. induction filtered as [|a rest IH]; [constructor|].
      cbn [List.filter]. destruct (String.eqb cat (synth_category a)).
      * apply sublist_skip, IH.
      * apply sublist_cons, IH.
    + apply List.Forall_forall. intros a Ha.
      apply filed_under_In_iff in Ha. apply Ha.
Qed.

Lemma selected_cases (cat : string) (filtered : list article) :
  let filed := filed_under cat filtered in
  let limit := dict_get category_limits cat 5%nat in
  selected cat filtered
  = if (limit <=? length (List.filter is_high filed))%nat
    then firstn (limit + 2) (List.filter is_high filed)
    else List.filter is_high filed
         ++ firstn (limit - length (List.filter is_high filed))
              (List.filter not_high filed).
Proof. apply apply_limit_sorted. Qed.

Lemma select_categories_In (filtered : list article) (cat : string)
    (bucket : list article) :
  In (cat, bucket) (select_categories filtered) ->
  In cat CATEGORY_KEYS /\ bucket = selected cat filtered.
Proof.
  rewrite select_categories_spec. intros Hin.
  apply in_map_iff in Hin as (k & Hk & Hkey). injection Hk as -> <-. auto.
Qed.

Lemma selected_sublist (cat : string) (filtered : list article) :
  sublist (selected cat filtered)
    (List.filter is_high (filed_under cat filtered)
     ++ List.filter not_high (filed_under cat filtered)).
Proof.
  rewrite selected_cases. cbv zeta.
  destruct (_ <=? _)%nat.
  - apply sublist_inserts_r, sublist_take.
  - apply sublist_app; [reflexivity | apply sublist_take].
Qed.

(** X20. The limits only drop articles: a bucket handed to the synthesis
    is, in the same order, a part of the high articles filed under its
    category followed by the others; each of its articles is an accepted
    article whose source maps to the category; and when no more
    articles are filed under the category than its limit, none is
    dropped. *)
Theorem selection_only_drops (filtered : list article) (cat : string)
    (bucket : list article) :
  In (cat, bucket) (select_categories filtered) ->
  let filed := filed_under cat filtered in
  sublist bucket (List.filter is_high filed ++ List.filter not_high filed)
  /\ Forall (fun a => In a filtered /\ synth_category a = cat) bucket
  /\ ((length filed <= dict_get category_limits cat 5)%nat ->
      bucket = List.filter is_high filed ++ List.filter not_high filed).
Proof.
  intros Hin filed. apply select_categories_In in Hin as [_ ->].
  pose proof (selected_sublist cat filtered) as Hsub. fold filed in Hsub.
  split; [exact Hsub|]. split.
  - apply List.Forall_forall. intros a Ha.
    apply list_elem_of_In in Ha.
    apply (elem_of_sublist _ _ _ Ha) in Hsub.
    apply list_elem_of_In, in_app_or in Hsub.
    apply (filed_under_In_iff cat filtered a).
    destruct Hsub as [H|H]; apply List.filter_In in H; apply H.
  - intros Hfew. rewrite selected_cases. cbv zeta. fold filed.
    pose proof (filter_length_split is_high not_high filed (fun x => eq_refl))
      as Hlen.
    destruct (Nat.leb_spec (dict_get category_limits cat 5%nat)
                (length (List.filter is_high filed))) as [Hmany|Hless].
    + assert (length (List.filter not_high filed) = 0)%nat as Hms by lia.
      destruct (List.filter not_high filed); [|discriminate Hms].
      rewrite app_nil_r, firstn_all2; [reflexivity | lia].
    + rewrite (firstn_all2 (List.filter not_high filed)); [reflexivity | lia].
Qed.

Lemma selection_only_drops_witness :
  Forall (fun a => In a mixed_filtered /\ synth_category a = "food")
    (selected "food" mixed_filtered).
Proof.
  refine (proj1 (proj2 (selection_only_drops mixed_filtered "food"
                          (selected "food" mixed_filtered) _))).
  rewrite select_categories_spec. apply in_map_iff.
  exists "food". split; [reflexivity | vm_compute; tauto].
Defined.

(** X21. An article of priority "high" is never displaced by one of
    another priority: if a bucket handed to the synthesis holds an
    article that is not high, it holds every high article that was
    accepted for its category. *)
Theorem high_never_displaced (filtered : list article) (cat : string)
    (bucket : list article) (a h : article) :
  In (cat, bucket) (select_categories filtered) ->
  In a bucket -> is_high a = false ->
  In h filtered -> synth_category h = cat -> is_high h = true ->
  In h bucket.
Proof.
  intros Hin Ha Hlow Hh Hcat Hhigh.
  apply select_categories_In in Hin as [_ ->].
  rewrite selected_cases in Ha |- *. cbv zeta in Ha |- *.
  destruct (_ <=? _)%nat.
  - exfalso. apply In_firstn, List.filter_In in Ha. destruct Ha. congruence.
  - apply in_or_app. left. apply List.filter_In. split; [|exact Hhigh].
    apply filed_under_In_iff. auto.
Qed.

Lemma high_never_displaced_witness :
  In (graded "Eater LA" "d" "high") (selected "food" mixed_filtered).
Proof.
  refine (high_never_displaced mixed_filtered "food"
            (selected "food" mixed_filtered)
            (graded "Eater LA" "a" "medium") (graded "Eater LA" "d" "high")
            _ _ _ _ _ _).
  - rewrite select_categories_spec. apply in_map_iff.
    exists "food". split; [reflexivity | vm_compute; tauto].
  - vm_compute. tauto.
  - reflexivity.
  - vm_compute. tauto.
  - reflexivity.
  - reflexivity.
Defined.

Lemma selected_length (cat : string) (filtered : list article) :
  (length (selected cat filtered) <= dict_get category_limits cat 5 + 2)%nat.
Proof.
  rewrite selected_cases. cbv zeta. destruct (_ <=? _)%nat eqn:Hle.
  - rewrite length_firstn. lia.
  - apply Nat.leb_gt in Hle. rewrite length_app, length_firstn. lia.
Qed.

(** X22. However many articles were accepted, the synthesis is handed at
    most 33 of them: the limits 12, 3, 3, 2 and 3 of the five
    categories, each with its overflow of two. *)
Theorem total_selected_bound (filtered : list article) :
  (length (concat (map snd (select_categories filtered))) <= 33)%nat.
Proof.
  rewrite select_categories_spec. unfold CATEGORY_KEYS.
  cbn [map snd concat]. rewrite !length_app. cbn [length].
  pose proof (selected_length "entertainment" filtered) as H1.
  pose proof (selected_length "newspaper" filtered) as H2.
  pose proof (selected_length "ai_legal" filtered) as H3.
  pose proof (selected_length "theme_parks" filtered) as H4.
  pose proof (selected_length "food" filtered) as H5.
  change (dict_get category_limits "entertainment" 5%nat) with 3%nat in H1.
  change (dict_get category_limits "newspaper" 5%nat) with 12%nat in H2.
  change (dict_get category_limits "ai_legal" 5%nat) with 3%nat in H3.
  change (dict_get category_limits "theme_parks" 5%nat) with 2%nat in H4.
  change (dict_get category_limits "food" 5%nat) with 3%nat in H5.
  lia.
Qed.

(** ** The digest is never empty *)

Lemma section_of_text (all_summaries : gmap string string) (cat p : string) :
  In p (section_of all_summaries cat) -> PyStr.truthy p = true.
Proof.
  unfold section_of. destruct (all_summaries !! cat) as [body|]; [|intros []].
  destruct (PyStr.truthy (PyStr.strip body)); [|intros []].
  intros [<-|[]]. reflexivity.
Qed.

Lemma join_truthy (sep p : string) (rest : list string) :
  PyStr.truthy p = true -> PyStr.truthy (PyStr.join sep (p :: rest)) = true.
Proof.
  destruct p as [|c p]; [discriminate|]. intros _.
  destruct rest; reflexivity.
Qed.

Lemma assemble_truthy (all_summaries : gmap string string) :
  PyStr.truthy (assemble all_summaries) = true.
Proof.
  unfold assemble.
  destruct (digest_parts all_summaries) as [|p rest] eqn:Hparts;
    [reflexivity|].
  apply join_truthy.
  assert (In p (digest_parts all_summaries)) as Hp
    by (rewrite Hparts; left; reflexivity).
  unfold digest_parts in Hp. apply in_flat_map in Hp as (cat & _ & Hp).
  apply (section_of_text all_summaries cat p Hp).
Qed.

Lemma join_head (sep p : string) (rest : list string) :
  exists tail, PyStr.join sep (p :: rest) = p +:+ tail.
Proof.
  destruct rest as [|q rest].
  - exists "". cbn [PyStr.join]. symmetry. apply append_nil_r.
  - exists (sep +:+ PyStr.join sep (q :: rest)). reflexivity.
Qed.

Lemma section_of_head (all_summaries : gmap string string) (cat p : string) :
  In p (section_of all_summaries cat) ->
  exists body,
    all_summaries !! cat = Some body
    /\ PyStr.truthy (PyStr.strip body) = true
    /\ p = "## " +:+ (category_labels !!! cat) +:+ PyStr.LF +:+ PyStr.LF
           +:+ body.
Proof.
  unfold section_of. destruct (all_summaries !! cat) as [body|]; [|intros []].
  destruct (PyStr.truthy (PyStr.strip body)) eqn:Hbody; [|intros []].
  intros [<-|[]]. exists body. auto.
Qed.

Lemma flat_map_head {A B : Type} (f : A -> list B) (l : list A)
    (p : B) (rest : list B) :
  flat_map f l = p :: rest ->
  exists pre c post,
    l = pre ++ c :: post
    /\ (forall x, In x pre -> f x = [])
    /\ In p (f c).
Proof.
  induction l as [|x l IH]; [discriminate|]. cbn [flat_map].
  destruct (f x) as [|q qs] eqn:Hx.
  - intros Hl. destruct (IH Hl) as (pre & c & post & -> & Hpre & Hc).
    exists (x :: pre), c, post. split; [reflexivity|]. split; [|exact Hc].
    intros y [<-|Hy]; auto.
  - intros [= -> _]. exists [], x, l. split; [reflexivity|].
    split; [intros y []|]. rewrite Hx. left. reflexivity.
Qed.

Lemma section_of_nil (all_summaries : gmap string string) (cat body : string) :
  section_of all_summaries cat = [] ->
  all_summaries !! cat = Some body ->
  PyStr.truthy (PyStr.strip body) = false.
Proof.
  unfold section_of. intros Hnil Hbody. rewrite Hbody in Hnil.
  destruct (PyStr.truthy (PyStr.strip body)); [discriminate | reflexivity].
Qed.

(** X23. [synthesize_digest] never returns an empty text, whatever the
    service does and whatever was accepted. Either no category has a
    summary that is not blank and the digest is the sentence "No
    articles to summarize."; or the digest starts with its first
    section: the heading of the first category, in the order of the
    digest, whose summary is not blank and, after a blank line, that
    summary. *)
Theorem digest_never_empty {St : Type}
    (create : request -> St -> option (list block) * St)
    (filtered : list article) (s : St) :
  let digest := (synthesize_digest create filtered s).1 in
  let all_summaries :=
    (summarize_all create (select_categories filtered) ∅ s).1 in
  let blank := fun cat =>
    forall body, all_summaries !! cat = Some body ->
                 PyStr.truthy (PyStr.strip body) = false in
  PyStr.truthy digest = true
  /\ ((digest = "No articles to summarize."
       /\ forall cat, In cat category_order -> blank cat)
      \/ exists (pre post : list string) (cat body tail : string),
           category_order = pre ++ cat :: post
           /\ (forall c, In c pre -> blank c)
           /\ all_summaries !! cat = Some body
           /\ PyStr.truthy (PyStr.strip body) = true
           /\ digest
              = "## " +:+ (category_labels !!! cat) +:+ PyStr.LF +:+ PyStr.LF
                +:+ body +:+ tail).
Proof.
  cbv zeta. rewrite synthesize_digest_assemble.
  set (m := (summarize_all create (select_categories filtered) ∅ s).1).
  split; [apply assemble_truthy|].
  unfold assemble. destruct (digest_parts m) as [|p rest] eqn:Hparts.
  - left. split; [reflexivity|]. intros cat Hcat body Hbody.
    destruct (PyStr.truthy (PyStr.strip body)) eqn:Htruthy; [|reflexivity].
    pose proof (section_of_in_parts m cat body Hcat Hbody Htruthy) as Hin.
    rewrite Hparts in Hin. destruct Hin.
  - right. unfold digest_parts in Hparts.
    apply flat_map_head in Hparts as (pre & cat & post & Horder & Hpre & Hp).
    apply section_of_head in Hp as (body & Hbody & Htruthy & ->).
    destruct (join_head divider
                ("## " +:+ (category_labels !!! cat) +:+ PyStr.LF +:+ PyStr.LF
                 +:+ body) rest) as [tail Htail].
    exists pre, post, cat, body, tail. rewrite Htail, !append_assoc.
    split; [exact Horder|]. split; [|auto].
    intros c Hc body' Hbody'. apply (section_of_nil m c body'); auto.
Qed.

(** ** Answers that parse *)

(** X24. An answer that parses decides by its shape. If it is an object
    without the key "include", the article is rejected and left as it
    was: unlike an answer that does not parse, it is not accepted by
    default. If it is not an object (an array, a string, a number,
    null), [result.get] raises and the loop ends there. *)
Theorem parsed_answer_decides {St : Type}
    (create : request -> St -> option (list block) * St)
    (json_loads : string -> option jvalue)
    (filter_prompt_text : string -> string)
    (a : article) (s s' : St) (blocks : list block) (v : jvalue) :
  create (filter_request filter_prompt_text a) s = (Some blocks, s') ->
  parse_filter_response json_loads blocks = Some v ->
  (forall fields, v = JObj fields -> fields !! "include" = None ->
     classify create json_loads filter_prompt_text a s = (Some (a, false), s'))
  /\ ((forall fields, v <> JObj fields) ->
      classify create json_loads filter_prompt_text a s = (None, s')).
Proof.
  intros Hcall Hparse. unfold classify, filter_article.
  rewrite Hcall, Hparse. split.
  - intros fields -> Hmiss. unfold obj_get. rewrite Hmiss. reflexivity.
  - intros Hshape. destruct v; try reflexivity.
    exfalso. exact (Hshape _ eq_refl).
Qed.

Lemma parsed_answer_decides_witness :
  classify array_create sample_json_loads (fun k => k) (article_of "" "") tt
  = (None, tt).
Proof.
  refine (proj2 (parsed_answer_decides array_create sample_json_loads
                   (fun k => k) (article_of "" "") tt tt
                   [TextBlock "[]"] (JArr []) eq_refl eq_refl) _).
  intros fields H. discriminate H.
Defined.

(** ** The outcomes of a run *)

Lemma filter_loop_events {St : Type}
    (create : request -> St -> option (list block) * St)
    (json_loads : string -> option jvalue)
    (filter_prompt_text : string -> string) (articles : list article) :
  forall s : St,
    Forall (fun e => is_filter e = true)
      (filter_loop create json_loads filter_prompt_text articles s).1.1.
Proof.
  induction articles as [|a rest IH]; intros s; [constructor|].
  cbn [filter_loop].
  destruct (classify _ _ _ a s) as [[[a' included]|] s1].
  - specialize (IH s1).
    destruct (filter_loop _ _ _ rest s1) as [[evs r] s2].
    constructor; [reflexivity | exact IH].
  - constructor; [reflexivity | constructor].
Qed.

Lemma only_filters (evs : list event) :
  Forall (fun e => is_filter e = true) evs ->
  existsb is_save evs = false /\ existsb is_publish evs = false.
Proof.
  induction 1 as [|e evs He _ [IH1 IH2]]; [auto|].
  destruct e; try discriminate He. simpl. auto.
Qed.

Lemma existsb_app_false {A : Type} (p : A -> bool) (l l' : list A) :
  existsb p l = false -> existsb p l' = false -> existsb p (l ++ l') = false.
Proof. intros H H'. rewrite existsb_app, H, H'. reflexivity. Qed.

(** X25. A run that stops for want of the key (none, or an empty one),
    or whose filtering loop raises, does not return; it leaves the file
    of seen articles as it found it, writes nothing and publishes
    nothing. For want of the key it exits with status 1 before any
    call; when the loop raises, the calls made are those for the
    articles up to the one whose answer raised. *)
Theorem aborted_run_keeps_store {St : Type}
    (create : request -> St -> option (list block) * St)
    (json_loads : string -> option jvalue)
    (filter_prompt_text : string -> string) (HEADLINES_PROMPT : string)
    (w : world) (s : St) :
  let r := (main create json_loads filter_prompt_text HEADLINES_PROMPT w s).1 in
  let articles :=
    fetch_feeds (web w) (load_seen_articles (seen_on_disk w) (now_load w))
      (now_utc w) in
  let loop := filter_loop create json_loads filter_prompt_text articles s in
  PyStr.truthy (default "" (api_key w)) = false \/ loop.1.2 = None ->
  status r <> Returned
  /\ seen_after r = seen_on_disk w
  /\ existsb is_save (trace r) = false
  /\ existsb is_publish (trace r) = false
  /\ (PyStr.truthy (default "" (api_key w)) = false ->
      status r = Exited 1 /\ trace r = [])
  /\ (PyStr.truthy (default "" (api_key w)) = true ->
      status r = Raised
      /\ exists n, (n < length articles)%nat
                   /\ trace r = map EvFilter (firstn (S n) articles)).
Proof.
  intros r articles loop Hcause. subst r loop. unfold main. fold articles.
  clearbody articles.
  destruct (api_key w) as [[|c key]|]; cbn [default PyStr.truthy] in *.
  1, 3: repeat split; try discriminate; intros H; discriminate H.
  destruct Hcause as [Hkey|Hloop]; [discriminate Hkey|].
  assert (forall l (s0 : St),
            (filter_loop create json_loads filter_prompt_text l s0).1.2 = None ->
            exists n, (n < length l)%nat
                      /\ (filter_loop create json_loads filter_prompt_text
                            l s0).1.1
                         = map EvFilter (firstn (S n) l)) as Hprefix.
  { induction l as [|a l IH]; intros s0 Hnone; [discriminate Hnone|].
    cbn [filter_loop] in *.
    destruct (classify _ _ _ a s0) as [[[a' included]|] s1].
    - specialize (IH s1).
      destruct (filter_loop _ _ _ l s1) as [[evs [[l' f]|]] s2];
        [discriminate Hnone|].
      destruct (IH eq_refl) as (n & Hn & Hevs). exists (S n).
      cbn [fst snd length] in *. split; [lia|]. rewrite Hevs. reflexivity.
    - exists 0%nat. cbn [fst length]. split; [lia | reflexivity]. }
  destruct (Hprefix articles s Hloop) as (n & Hn & Hevs).
  destruct articles as [|a l]; [discriminate Hloop|].
  destruct (filter_loop create json_loads filter_prompt_text (a :: l) s)
    as [[evs [[articles' filtered]|]] s1]; [discriminate Hloop|].
  cbn [fst snd trace status seen_after] in *. subst evs.
  assert (forall l0, existsb is_save (map EvFilter l0) = false
                     /\ existsb is_publish (map EvFilter l0) = false)
    as Hnone.
  { induction l0 as [|x l0 [IH1 IH2]]; simpl; auto. }
  destruct (Hnone (firstn (S n) (a :: l))) as [H1 H2].
  repeat split; try assumption; try discriminate.
  exists n. auto.
Qed.

Lemma aborted_run_keeps_store_witness :
  seen_after (main array_create sample_json_loads (fun k => k) ""
                sample_world tt).1
  = FileMissing.
Proof.
  refine (proj1 (proj2 (aborted_run_keeps_store array_create
                          sample_json_loads (fun k => k) "" sample_world tt
                          _))).
  right. vm_compute. reflexivity.
Defined.

(** X26. A run with a key whose filtering loop ends with at least one
    accepted article returns and publishes: the last effect of the run
    is the hand-over of the headlines and of a digest that is not empty,
    with the number of accepted and of fetched articles. The branch of
    [main] that reports a failed digest is never taken. *)
Theorem accepted_run_publishes {St : Type}
    (create : request -> St -> option (list block) * St)
    (json_loads : string -> option jvalue)
    (filter_prompt_text : string -> string) (HEADLINES_PROMPT : string)
    (w : world) (s s1 : St) (key : string) (evs : list event)
    (articles' filtered : list article) :
  let r := (main create json_loads filter_prompt_text HEADLINES_PROMPT w s).1 in
  let loaded := load_seen_articles (seen_on_disk w) (now_load w) in
  let hs := generate_sardonic_headlines create HEADLINES_PROMPT filtered s1 in
  api_key w = Some key -> key <> "" ->
  filter_loop create json_loads filter_prompt_text
    (fetch_feeds (web w) loaded (now_utc w)) s
  = (evs, Some (articles', filtered), s1) ->
  filtered <> [] ->
  status r = Returned
  /\ exists digest,
       digest = (synthesize_digest create filtered hs.2).1
       /\ PyStr.truthy digest = true
       /\ trace r
          = evs ++ [ EvSaveSeen (mark_as_seen loaded articles' (now_mark w));
                     EvPublish hs.1 digest (length filtered)
                       (length articles') ].
Proof.
  intros r loaded hs Hkey Hne Hloop Hacc. subst r. unfold main.
  rewrite Hkey. destruct key as [|c key]; [contradiction|].
  fold loaded.
  destruct (fetch_feeds (web w) loaded (now_utc w)) as [|a l] eqn:Hfetch.
  { simpl in Hloop. injection Hloop as _ _ <- _. contradiction. }
  rewrite Hloop. destruct filtered as [|f fl]; [contradiction|].
  fold hs. destruct hs as [headlines s2]. cbn [fst snd].
  pose proof (assemble_truthy
                (summarize_all create (select_categories (f :: fl)) ∅ s2).1)
    as Htruthy.
  rewrite <- synthesize_digest_assemble in Htruthy.
  destruct (synthesize_digest create (f :: fl) s2) as [digest s3].
  cbn [fst] in Htruthy |- *. rewrite Htruthy. cbn [fst status trace].
  split; [reflexivity|]. exists digest.
  rewrite <- app_assoc. auto.
Qed.

Lemma accepted_run_publishes_witness :
  status (main flaky_create sample_json_loads (fun k => k) ""
            sample_world 0%nat).1
  = Returned.
Proof.
  refine (proj1 (accepted_run_publishes flaky_create sample_json_loads
                   (fun k => k) "" sample_world 0%nat 3%nat "sk-test"
                   (map EvFilter (fetch_feeds sample_web ∅ sample_now_utc))
                   sample_filtered sample_filtered eq_refl _ _ _)).
  - discriminate.
  - vm_compute. reflexivity.
  - vm_compute. discriminate.
Defined.

(** X27. Whenever a run publishes, it has first classified every fetched
    article and then written the file of seen articles, and publishing
    is the last thing it does; the count of accepted articles that it
    reports is at least one and at most the count of fetched articles;
    the digest is not empty; and the run returns. *)
Theorem publish_shape {St : Type}
    (create : request -> St -> option (list block) * St)
    (json_loads : string -> option jvalue)
    (filter_prompt_text : string -> string) (HEADLINES_PROMPT : string)
    (w : world) (s : St) :
  let r := (main create json_loads filter_prompt_text HEADLINES_PROMPT w s).1 in
  let articles :=
    fetch_feeds (web w) (load_seen_articles (seen_on_disk w) (now_load w))
      (now_utc w) in
  existsb is_publish (trace r) = true ->
  status r = Returned
  /\ exists (written : gmap string string) (headlines digest : string)
       (n_filtered : nat),
       trace r
       = map EvFilter articles
         ++ [ EvSaveSeen written;
              EvPublish headlines digest n_filtered (length articles) ]
       /\ seen_after r = save_seen_articles written
       /\ (1 <= n_filtered <= length articles)%nat
       /\ PyStr.truthy digest = true.
Proof.
  intros r articles Hpub. subst r. unfold main in *.
  destruct (api_key w) as [[|c key]|]; try discriminate Hpub.
  fold articles in Hpub |- *.
  destruct articles as [|a l] eqn:Harts; [discriminate Hpub|].
  rewrite <- Harts in *.
  pose proof (filter_loop_events create json_loads filter_prompt_text
                articles s) as Hevs.
  destruct (filter_loop create json_loads filter_prompt_text articles s)
    as [[evs [[articles' filtered]|]] s1] eqn:Hloop.
  - destruct (filter_loop_ends _ _ _ _ _ _ _ _ _ Hloop) as [-> Hhash].
    destruct (filter_loop_inv _ _ _ _ _ _ _ _ _ Hloop) as (Hsub & _ & Hsame).
    apply sublist_length in Hsub. apply Forall2_length in Hsame.
    apply only_filters in Hevs as [_ Hnone]. cbn [fst] in Hnone.
    destruct filtered as [|f fl].
    + cbn [fst trace] in Hpub. rewrite existsb_app, Hnone in Hpub.
      discriminate Hpub.
    + destruct (generate_sardonic_headlines _ _ _ _) as [headlines s2].
      destruct (synthesize_digest _ _ _) as [digest s3].
      destruct (PyStr.truthy digest) eqn:Htruthy.
      * cbn [fst status trace seen_after]. split; [reflexivity|].
        exists (mark_as_seen
                  (load_seen_articles (seen_on_disk w) (now_load w))
                  articles' (now_mark w)), headlines, digest,
          (length (f :: fl)).
        rewrite <- app_assoc, <- Hsame. cbn [length] in *.
        repeat split; try lia; try assumption; reflexivity.
      * cbn [fst trace] in Hpub. rewrite existsb_app, Hnone in Hpub.
        discriminate Hpub.
  - cbn [fst trace] in Hpub. apply only_filters in Hevs as [_ Hnone].
    cbn [fst] in Hnone. rewrite Hnone in Hpub. discriminate Hpub.
Qed.

Lemma publish_shape_witness :
  status (main blank_create sample_json_loads (fun k => k) ""
            sample_world tt).1
  = Returned.
Proof.
  refine (proj1 (publish_shape blank_create sample_json_loads (fun k => k) ""
                   sample_world tt _)).
  vm_compute. reflexivity.
Defined.

(** ** The requests of the synthesis *)

Lemma summarize_category_logged {St : Type}
    (create : request -> St -> option (list block) * St)
    (cat : string) (articles : list article) (s : St) (log : list request) :
  summarize_category (logged create) cat articles (s, log)
  = ((summarize_category create cat articles s).1,
     ((summarize_category create cat articles s).2,
      log ++ [synthesis_request cat articles])).
Proof.
  unfold summarize_category, logged. cbn [fst snd].
  destruct (create (synthesis_request cat articles) s) as [[blocks|] s'];
    [|reflexivity].
  destruct (first_text blocks); reflexivity.
Qed.

Lemma summarize_all_logged {St : Type}
    (create : request -> St -> option (list block) * St)
    (categories : list (string * list article)) :
  forall (acc : gmap string string) (s : St) (log : list request),
    summarize_all (logged create) categories acc (s, log)
    = ((summarize_all create categories acc s).1,
       ((summarize_all create categories acc s).2,
        log ++ bucket_requests categories)).
Proof.
  induction categories as [|[cat [|a l]] rest IH]; intros acc s log.
  - cbn [summarize_all bucket_requests flat_map fst snd].
    rewrite app_nil_r. reflexivity.
  - cbn [summarize_all bucket_requests flat_map]. rewrite IH. reflexivity.
  - cbn [summarize_all bucket_requests flat_map].
    rewrite summarize_category_logged.
    destruct (summarize_category create cat (a :: l) s) as [body s'].
    cbn [fst snd]. rewrite IH, <- app_assoc. reflexivity.
Qed.

Lemma bucket_requests_length (categories : list (string * list article)) :
  (length (bucket_requests categories) <= length categories)%nat.
Proof.
  induction categories as [|[cat [|a l]] rest IH]; simpl; lia.
Qed.

(** X28. The synthesis asks the service once for each category whose
    bucket is not empty, in the order of the dict [categories]
    (entertainment first), with the request built from that bucket after
    the limits; an empty bucket costs no call, so there are at most five
    calls. Keeping the log does not change the digest. *)
Theorem synthesis_requests {St : Type}
    (create : request -> St -> option (list block) * St)
    (filtered : list article) (s : St) (log : list request) :
  let out := synthesize_digest (logged create) filtered (s, log) in
  out.2.2 = log ++ bucket_requests (select_categories filtered)
  /\ (length (bucket_requests (select_categories filtered)) <= 5)%nat
  /\ out.1 = (synthesize_digest create filtered s).1
  /\ out.2.1 = (synthesize_digest create filtered s).2.
Proof.
  cbv zeta. unfold synthesize_digest. rewrite summarize_all_logged.
  destruct (summarize_all create (select_categories filtered) ∅ s)
    as [m s'].
  cbn [fst snd]. repeat split.
  pose proof (bucket_requests_length (select_categories filtered)) as Hlen.
  rewrite <- (length_map fst), select_categories_keys in Hlen. exact Hlen.
Qed.

(** ** The form of a fingerprint *)

Lemma hex_digit_is_hex (d : Z) :
  0 <= d < 16 -> is_hex (MD5.hex_digit d) = true.
Proof.
  intros Hd.
  assert (d = 0 \/ d = 1 \/ d = 2 \/ d = 3 \/ d = 4 \/ d = 5 \/ d = 6 \/ d = 7
          \/ d = 8 \/ d = 9 \/ d = 10 \/ d = 11 \/ d = 12 \/ d = 13 \/ d = 14
          \/ d = 15) as Hcases by lia.
  repeat (destruct Hcases as [->|Hcases]; [reflexivity|]).
  subst d. reflexivity.
Qed.

Lemma hex_form (bytes : list Z) :
  Forall (fun b => 0 <= b < 256) bytes ->
  String.length (MD5.hex bytes) = (2 * length bytes)%nat
  /\ all_hex (MD5.hex bytes) = true.
Proof.
  induction 1 as [|b rest Hb _ [IHlen IHhex]]; [split; reflexivity|].
  cbn [MD5.hex String.length length all_hex]. split; [lia|].
  rewrite IHhex, !hex_digit_is_hex; [reflexivity | |].
  - change 15 with (Z.ones 4). rewrite Z.land_ones by lia.
    apply Z.mod_pos_bound. reflexivity.
  - rewrite Z.shiftr_div_pow2 by lia. change (2 ^ 4) with 16.
    split; [apply Z.div_pos; lia | apply Z.div_lt_upper_bound; lia].
Qed.

Lemma le_bytes_form (n : nat) (x : Z) :
  length (MD5.le_bytes n x) = n
  /\ Forall (fun b => 0 <= b < 256) (MD5.le_bytes n x).
Proof.
  unfold MD5.le_bytes. split; [rewrite length_map; apply length_seq|].
  apply List.Forall_forall. intros b Hb.
  apply in_map_iff in Hb as (i & <- & _).
  change 255 with (Z.ones 8). rewrite Z.land_ones by lia.
  apply Z.mod_pos_bound. reflexivity.
Qed.

(** X29. The fingerprint of an article is always 32 characters, each a
    decimal digit or a letter from a to f in lower case. So every key of
    the mapping after the marking either has this form or was a key of
    the mapping before, whatever its form: the marking adds fingerprints
    only, and keeps the keys it was given. *)
Theorem fingerprint_format (a : article) (seen : gmap string string)
    (articles : list article) (now : datetime) :
  (String.length (get_article_hash a) = 32%nat
   /\ all_hex (get_article_hash a) = true)
  /\ (forall k,
        is_Some (mark_as_seen seen articles now !! k) ->
        is_Some (seen !! k)
        \/ (String.length k = 32%nat /\ all_hex k = true)).
Proof.
  assert (forall b, String.length (get_article_hash b) = 32%nat
                    /\ all_hex (get_article_hash b) = true) as Hform.
  { intros b. unfold get_article_hash, MD5.hexdigest, MD5.digest. cbv zeta.
    set (st := MD5.blocks _ _ _).
    destruct (le_bytes_form 4 (MD5.sA st)) as [LA FA].
    destruct (le_bytes_form 4 (MD5.sB st)) as [LB FB].
    destruct (le_bytes_form 4 (MD5.sC st)) as [LC FC].
    destruct (le_bytes_form 4 (MD5.sD st)) as [LD FD].
    destruct (hex_form (MD5.le_bytes 4 (MD5.sA st)
                        ++ MD5.le_bytes 4 (MD5.sB st)
                        ++ MD5.le_bytes 4 (MD5.sC st)
                        ++ MD5.le_bytes 4 (MD5.sD st))) as [Hlen Hhex].
    { repeat (apply Forall_app; split); assumption. }
    split; [|exact Hhex].
    rewrite Hlen, !length_app, LA, LB, LC, LD. reflexivity. }
  split; [apply Hform|].
  intros k [v Hk].
  destruct (in_dec string_dec k (map get_article_hash articles)) as [Hin|Hout].
  - right. apply in_map_iff in Hin as (b & <- & _). apply Hform.
  - left. exists v. rewrite <- Hk. symmetry. apply mark_as_seen_other.
    intros b Hb Heq. apply Hout. rewrite <- Heq. apply in_map, Hb.
Qed.
